(** * Tech-stack detector of vibe-cli: a shallow embedding

    The development follows [src/lib/analyzer/tech-stack-detector.js]:
    the JavaScript helpers the detector relies on, the evidence bag, the
    detector registries with their scoring functions, the project model
    (what the file-system probes answer), the detection pipeline of
    [detect], and then the properties of the pipeline. *)

From Stdlib Require Import String Ascii List Bool Arith Lia Sorted Permutation.
Import ListNotations.
Open Scope string_scope.
Open Scope nat_scope.
Open Scope list_scope.

(** ** JavaScript helpers *)

(** [Array.prototype.includes] on an array of strings. *)
Definition includes (x : string) (l : list string) : bool :=
  existsb (String.eqb x) l.

(** [String.prototype.startsWith]. *)
Definition startsWith (s p : string) : bool := String.prefix p s.

(** [String.prototype.includes]: [sub] occurs somewhere in [s]. *)
Fixpoint strIncludes (s sub : string) : bool :=
  String.prefix sub s ||
  match s with
  | EmptyString => false
  | String _ s' => strIncludes s' sub
  end.

(** [arr.length > 0]. *)
Definition nonEmpty {A} (l : list A) : bool :=
  match l with [] => false | _ :: _ => true end.

(** [[...new Set(arr)]]: first occurrences, in order. *)
Fixpoint dedupe (l : list string) : list string :=
  match l with
  | [] => []
  | x :: l' => x :: filter (fun y => negb (String.eqb x y)) (dedupe l')
  end.

(** [s.split(' ')[0]]. *)
Fixpoint firstWord (s : string) : string :=
  match s with
  | EmptyString => EmptyString
  | String c s' => if Ascii.eqb c " "%char then EmptyString else String c (firstWord s')
  end.

(** Exceptions: a computation either returns or throws. *)
Inductive result (A : Type) : Type :=
| Ok (a : A)
| Threw (msg : string).
Arguments Ok {A} a.
Arguments Threw {A} msg.

Definition bind {A B} (c : result A) (k : A -> result B) : result B :=
  match c with
  | Ok a => k a
  | Threw m => Threw m
  end.

Notation "x <- c ;; k" := (bind c (fun x => k))
  (at level 61, c at next level, right associativity).

(** A [for] loop whose body may throw, collecting one value per round. *)
Fixpoint mapM {A B} (f : A -> result B) (l : list A) : result (list B) :=
  match l with
  | [] => Ok []
  | x :: l' => y <- f x ;; ys <- mapM f l' ;; Ok (y :: ys)
  end.

(** ** Confidence values

    Every confidence in the source is one of the literals 0, 0.5, 0.6,
    0.7, 0.8, 0.85, 0.9, 0.95, 0.98 and 1.0; they are kept as hundredths.
    Comparing two such doubles agrees with comparing the hundredths. *)
Definition confidence_t := nat.

(** [confidence >= 0.7]. *)
Definition accepted (c : confidence_t) : bool := 70 <=? c.

(** ** Evidence *)
Module Evidence.
Record t : Type := mk {
  dependencies : list string;
  devDependencies : list string;
  relatedPackages : list string;
  files : list string;
  configs : list string;
  indicators : list string;
  directories : list string;
  packageIndicators : list string;
  scripts : list string;
  codePatterns : list string;
  imports : list string;
  patterns : list string;
  connectionStrings : list string;
  dockerServices : list string;
  envVars : list string;
  packageJsonConfig : bool;
  isBackendOnly : bool;
  isFrontendOnly : bool
}.
End Evidence.

(** ** Detector specifications *)
Module Config.
Record t : Type := mk {
  name : string;
  patterns : list string;
  dependencies : option (list string);
  devDependencies : list string;
  relatedPackages : list string;
  files : list string;
  configs : list string;
  indicators : list string;
  directories : list string;
  packageIndicators : option (list string);
  scripts : list string;
  codePatterns : list string;
  imports : list string;
  connectionStrings : list string;
  dockerServices : list string;
  envVars : list string;
  packageJsonConfig : option string;
  exclusiveWith : list string;
  confidence : Evidence.t -> confidence_t
}.

(** A specification with only a name and a scoring function; the
    registries below fill in the properties each entry declares. *)
Definition base (n : string) (score : Evidence.t -> confidence_t) : t :=
  mk n [] None [] [] [] [] [] [] None [] [] [] [] [] [] None [] score.

(** Property setters, so that a registry entry lists exactly the
    properties its object literal declares. *)
Definition patterns_ (v : list string) (c : t) : t :=
  let '(mk n p d dd r f cf i di pi s cp im cs ds ev pj ex sc) := c in
  mk n v d dd r f cf i di pi s cp im cs ds ev pj ex sc.
Definition dependencies_ (v : list string) (c : t) : t :=
  let '(mk n p d dd r f cf i di pi s cp im cs ds ev pj ex sc) := c in
  mk n p (Some v) dd r f cf i di pi s cp im cs ds ev pj ex sc.
Definition devDependencies_ (v : list string) (c : t) : t :=
  let '(mk n p d dd r f cf i di pi s cp im cs ds ev pj ex sc) := c in
  mk n p d v r f cf i di pi s cp im cs ds ev pj ex sc.
Definition relatedPackages_ (v : list string) (c : t) : t :=
  let '(mk n p d dd r f cf i di pi s cp im cs ds ev pj ex sc) := c in
  mk n p d dd v f cf i di pi s cp im cs ds ev pj ex sc.
Definition files_ (v : list string) (c : t) : t :=
  let '(mk n p d dd r f cf i di pi s cp im cs ds ev pj ex sc) := c in
  mk n p d dd r v cf i di pi s cp im cs ds ev pj ex sc.
Definition configs_ (v : list string) (c : t) : t :=
  let '(mk n p d dd r f cf i di pi s cp im cs ds ev pj ex sc) := c in
  mk n p d dd r f v i di pi s cp im cs ds ev pj ex sc.
Definition indicators_ (v : list string) (c : t) : t :=
  let '(mk n p d dd r f cf i di pi s cp im cs ds ev pj ex sc) := c in
  mk n p d dd r f cf v di pi s cp im cs ds ev pj ex sc.
Definition directories_ (v : list string) (c : t) : t :=
  let '(mk n p d dd r f cf i di pi s cp im cs ds ev pj ex sc) := c in
  mk n p d dd r f cf i v pi s cp im cs ds ev pj ex sc.
Definition packageIndicators_ (v : list string) (c : t) : t :=
  let '(mk n p d dd r f cf i di pi s cp im cs ds ev pj ex sc) := c in
  mk n p d dd r f cf i di (Some v) s cp im cs ds ev pj ex sc.
Definition scripts_ (v : list string) (c : t) : t :=
  let '(mk n p d dd r f cf i di pi s cp im cs ds ev pj ex sc) := c in
  mk n p d dd r f cf i di pi v cp im cs ds ev pj ex sc.
Definition codePatterns_ (v : list string) (c : t) : t :=
  let '(mk n p d dd r f cf i di pi s cp im cs ds ev pj ex sc) := c in
  mk n p d dd r f cf i di pi s v im cs ds ev pj ex sc.
Definition imports_ (v : list string) (c : t) : t :=
  let '(mk n p d dd r f cf i di pi s cp im cs ds ev pj ex sc) := c in
  mk n p d dd r f cf i di pi s cp v cs ds ev pj ex sc.
Definition connectionStrings_ (v : list string) (c : t) : t :=
  let '(mk n p d dd r f cf i di pi s cp im cs ds ev pj ex sc) := c in
  mk n p d dd r f cf i di pi s cp im v ds ev pj ex sc.
Definition dockerServices_ (v : list string) (c : t) : t :=
  let '(mk n p d dd r f cf i di pi s cp im cs ds ev pj ex sc) := c in
  mk n p d dd r f cf i di pi s cp im cs v ev pj ex sc.
Definition envVars_ (v : list string) (c : t) : t :=
  let '(mk n p d dd r f cf i di pi s cp im cs ds ev pj ex sc) := c in
  mk n p d dd r f cf i di pi s cp im cs ds v pj ex sc.
Definition packageJsonConfig_ (v : string) (c : t) : t :=
  let '(mk n p d dd r f cf i di pi s cp im cs ds ev pj ex sc) := c in
  mk n p d dd r f cf i di pi s cp im cs ds ev (Some v) ex sc.
Definition exclusiveWith_ (v : list string) (c : t) : t :=
  let '(mk n p d dd r f cf i di pi s cp im cs ds ev pj ex sc) := c in
  mk n p d dd r f cf i di pi s cp im cs ds ev pj v sc.
End Config.

Notation "c |> f" := (f c) (at level 45, left associativity, only parsing).

(** ** The registries of [initializeDetectors]

    Entries are in declaration order, the order [Object.entries] yields.
    Properties no detection loop reads ([requiredForConfidence],
    [projectFiles], [componentPatterns], [implies], [usage], [setupFiles],
    [testDirectory], [type], and [patterns] of [kubernetes], which the
    deployment loop never scans) are left out, except [exclusiveWith],
    which records what each entry declares itself exclusive with. *)

Definition javascript : Config.t :=
  Config.base "javascript" (fun e =>
    if includes "package.json" (Evidence.configs e) then 100
    else if nonEmpty (Evidence.files e) then 80 else 0)
  |> Config.patterns_ ["*.js"; "*.mjs"; "*.cjs"]
  |> Config.configs_ ["package.json"; ".npmrc"].

Definition typescript : Config.t :=
  Config.base "typescript" (fun e =>
    if includes "tsconfig.json" (Evidence.configs e) then 100
    else if nonEmpty (Evidence.packageIndicators e) then 90
    else if nonEmpty (Evidence.files e) then 70 else 0)
  |> Config.patterns_ ["*.ts"; "*.tsx"; "*.d.ts"]
  |> Config.configs_ ["tsconfig.json"; "tsconfig.*.json"]
  |> Config.packageIndicators_ ["typescript"; "@types/"].

Definition python : Config.t :=
  Config.base "python" (fun e =>
    if nonEmpty (Evidence.configs e) then 100
    else if includes "manage.py" (Evidence.indicators e) then 95
    else if 5 <? length (Evidence.files e) then 80 else 60)
  |> Config.patterns_ ["*.py"]
  |> Config.configs_ ["requirements.txt"; "setup.py"; "pyproject.toml"; "Pipfile"]
  |> Config.indicators_ ["__init__.py"; "manage.py"].

Definition java : Config.t :=
  Config.base "java" (fun e =>
    if nonEmpty (Evidence.configs e) then 100
    else if nonEmpty (Evidence.files e) then 50 else 0)
  |> Config.patterns_ ["*.java"]
  |> Config.configs_ ["pom.xml"; "build.gradle"; "build.gradle.kts"].

Definition go : Config.t :=
  Config.base "go" (fun e =>
    if includes "go.mod" (Evidence.configs e) then 100
    else if nonEmpty (Evidence.files e) then 60 else 0)
  |> Config.patterns_ ["*.go"]
  |> Config.configs_ ["go.mod"; "go.sum"].

Definition languageDetectors : list Config.t :=
  [javascript; typescript; python; java; go].

(** Frontend framework detectors. *)
Definition react : Config.t :=
  Config.base "react" (fun e =>
    if negb (Evidence.isBackendOnly e) && includes "react" (Evidence.dependencies e) then 100
    else if negb (Evidence.isBackendOnly e) && includes "react-dom" (Evidence.dependencies e) then 95
    else if Evidence.isBackendOnly e then 0
    else 0)
  |> Config.dependencies_ ["react"; "react-dom"]
  |> Config.devDependencies_ ["@types/react"; "@testing-library/react"]
  |> Config.files_ ["*.jsx"; "*.tsx"]
  |> Config.exclusiveWith_ ["vue"; "angular"; "svelte"].

Definition vue : Config.t :=
  Config.base "vue" (fun e =>
    if existsb (fun d => startsWith d "vue") (Evidence.dependencies e) then 100
    else if nonEmpty (Evidence.files e) then 90
    else 0)
  |> Config.dependencies_ ["vue"; "vue@2"; "vue@3"]
  |> Config.files_ ["*.vue"]
  |> Config.configs_ ["vue.config.js"; "vite.config.js"]
  |> Config.indicators_ ["components/"; "views/"]
  |> Config.exclusiveWith_ ["react"; "angular"; "svelte"].

Definition angular : Config.t :=
  Config.base "angular" (fun e =>
    if includes "@angular/core" (Evidence.dependencies e) then 100
    else if includes "angular.json" (Evidence.configs e) then 95
    else 0)
  |> Config.dependencies_ ["@angular/core"; "@angular/common"]
  |> Config.files_ ["*.component.ts"; "*.module.ts"; "*.service.ts"]
  |> Config.configs_ ["angular.json"; ".angular-cli.json"]
  |> Config.indicators_ ["src/app/"]
  |> Config.exclusiveWith_ ["react"; "vue"; "svelte"].

Definition nextjs : Config.t :=
  Config.base "nextjs" (fun e =>
    if includes "next" (Evidence.dependencies e) then 100
    else if nonEmpty (Evidence.scripts e)
            && existsb (fun s => strIncludes s "next") (Evidence.scripts e) then 95
    else if nonEmpty (Evidence.configs e) then 90
    else 0)
  |> Config.dependencies_ ["next"]
  |> Config.devDependencies_ ["eslint-config-next"]
  |> Config.scripts_ ["next dev"; "next build"; "next start"]
  |> Config.configs_ ["next.config.js"; "next.config.mjs"; "next.config.ts"]
  |> Config.directories_ ["pages/"; "app/"; "public/"].

Definition frontendDetectors : list Config.t := [react; vue; angular; nextjs].

(** Backend framework detectors. *)
Definition express : Config.t :=
  Config.base "express" (fun e =>
    if includes "express" (Evidence.dependencies e) then 100
    else
      let relatedCount := length (Evidence.relatedPackages e) in
      if 3 <=? relatedCount then 90
      else if 2 <=? relatedCount then 70
      else if nonEmpty (Evidence.codePatterns e) then 80
      else 0)
  |> Config.dependencies_ ["express"]
  |> Config.relatedPackages_
       ["body-parser"; "cors"; "helmet"; "morgan"; "compression"; "cookie-parser"]
  |> Config.codePatterns_ ["express()"; "app.use("; "app.get("; "app.post("; "app.listen("]
  |> Config.files_ ["app.js"; "server.js"; "index.js"]
  |> Config.exclusiveWith_ ["fastify"; "koa"; "hapi"].

Definition fastify : Config.t :=
  Config.base "fastify" (fun e =>
    if includes "fastify" (Evidence.dependencies e) then 100
    else if nonEmpty (Evidence.codePatterns e) then 70 else 0)
  |> Config.dependencies_ ["fastify"]
  |> Config.codePatterns_ ["fastify()"; "fastify.register"]
  |> Config.exclusiveWith_ ["express"; "koa"; "hapi"].

Definition koa : Config.t :=
  Config.base "koa" (fun e =>
    if includes "koa" (Evidence.dependencies e) then 100
    else if nonEmpty (Evidence.codePatterns e) then 70 else 0)
  |> Config.dependencies_ ["koa"]
  |> Config.codePatterns_ ["koa()"; "koa2"; "app.use"]
  |> Config.relatedPackages_ ["koa-router"; "koa-bodyparser"; "koa-cors"]
  |> Config.exclusiveWith_ ["express"; "fastify"; "hapi"].

Definition nestjs : Config.t :=
  Config.base "nestjs" (fun e =>
    if includes "@nestjs/core" (Evidence.dependencies e) then 100
    else if includes "nest-cli.json" (Evidence.configs e) then 90
    else if 3 <? length (Evidence.files e) then 80 else 0)
  |> Config.dependencies_ ["@nestjs/core"; "@nestjs/common"]
  |> Config.files_ ["*.controller.ts"; "*.service.ts"; "*.module.ts"]
  |> Config.configs_ ["nest-cli.json"]
  |> Config.indicators_ ["src/modules/"; "src/controllers/"].

Definition fastapi : Config.t :=
  Config.base "fastapi" (fun e =>
    if includes "fastapi" (Evidence.dependencies e) then 100
    else if includes "uvicorn" (Evidence.relatedPackages e)
            && includes "pydantic" (Evidence.relatedPackages e) then 95
    else if nonEmpty (Evidence.codePatterns e) then 90
    else if nonEmpty (Evidence.imports e) then 85
    else 0)
  |> Config.dependencies_ ["fastapi"]
  |> Config.relatedPackages_ ["uvicorn"; "starlette"; "pydantic"]
  |> Config.codePatterns_ ["FastAPI()"; "@app.get"; "@app.post"; "@app.put"; "@app.delete"]
  |> Config.files_ ["main.py"; "app.py"; "**/main.py"; "**/app.py"]
  |> Config.configs_ ["pyproject.toml"; "requirements.txt"]
  |> Config.imports_ ["from fastapi"; "import fastapi"]
  |> Config.exclusiveWith_ ["django"; "flask"].

Definition django : Config.t :=
  Config.base "django" (fun e =>
    if includes "django" (Evidence.dependencies e)
       || includes "Django" (Evidence.dependencies e) then 100
    else if includes "manage.py" (Evidence.files e) then 98
    else if existsb (fun i => includes i (Evidence.indicators e)) (Evidence.indicators e) then 95
    else if includes "djangorestframework" (Evidence.relatedPackages e) then 90
    else 0)
  |> Config.dependencies_ ["django"; "Django"]
  |> Config.relatedPackages_
       ["djangorestframework"; "django-cors-headers"; "psycopg2"; "psycopg2-binary"]
  |> Config.files_ ["manage.py"; "settings.py"; "urls.py"; "**/settings.py"; "**/urls.py"]
  |> Config.configs_ ["django.conf"; "requirements.txt"; "pyproject.toml"]
  |> Config.indicators_ ["*/migrations/"; "apps/"; "settings/"]
  |> Config.imports_ ["from django"; "import django"; "django.conf"]
  |> Config.exclusiveWith_ ["fastapi"; "flask"].

Definition flask : Config.t :=
  Config.base "flask" (fun e =>
    if includes "flask" (Evidence.dependencies e)
       || includes "Flask" (Evidence.dependencies e) then 100
    else if nonEmpty (Evidence.codePatterns e) then 90
    else if nonEmpty (Evidence.imports e) then 85
    else if existsb (fun pkg => includes pkg ["flask-restful"; "flask-cors"])
              (Evidence.relatedPackages e) then 80
    else 0)
  |> Config.dependencies_ ["flask"; "Flask"]
  |> Config.relatedPackages_ ["flask-restful"; "flask-cors"; "flask-sqlalchemy"; "gunicorn"]
  |> Config.codePatterns_ ["Flask(__name__)"; "@app.route"; "app = Flask"]
  |> Config.files_ ["app.py"; "main.py"; "run.py"; "**/app.py"]
  |> Config.configs_ ["requirements.txt"; "pyproject.toml"]
  |> Config.imports_ ["from flask"; "import flask"]
  |> Config.exclusiveWith_ ["fastapi"; "django"].

Definition backendDetectors : list Config.t :=
  [express; fastify; koa; nestjs; fastapi; django; flask].

(** Database detectors. *)
Definition mongodb : Config.t :=
  Config.base "mongodb" (fun e =>
    if includes "mongoose" (Evidence.dependencies e) then 100
    else if includes "mongodb" (Evidence.dependencies e) then 95
    else if nonEmpty (Evidence.dockerServices e) then 80
    else if nonEmpty (Evidence.connectionStrings e) then 90
    else 0)
  |> Config.dependencies_ ["mongodb"; "mongoose"]
  |> Config.connectionStrings_ ["mongodb://"; "mongodb+srv://"]
  |> Config.dockerServices_ ["mongo"; "mongodb"]
  |> Config.envVars_ ["MONGO_URI"; "MONGODB_URI"; "DATABASE_URL"].

Definition postgresql : Config.t :=
  Config.base "postgresql" (fun e =>
    if includes "pg" (Evidence.dependencies e) then 100
    else if existsb (fun d => includes d ["psycopg2"; "psycopg2-binary"; "psycopg"; "asyncpg"])
              (Evidence.dependencies e) then 100
    else if includes "sqlmodel" (Evidence.dependencies e) then 95
    else if includes "sqlalchemy" (Evidence.dependencies e) then 90
    else if includes "typeorm" (Evidence.dependencies e) then 90
    else if nonEmpty (Evidence.dockerServices e) then 85
    else 0)
  |> Config.dependencies_
       ["pg"; "postgres"; "typeorm"; "sequelize"; "prisma"; "@prisma/client";
        "psycopg2"; "psycopg2-binary"; "psycopg"; "asyncpg"; "sqlmodel"; "sqlalchemy"]
  |> Config.connectionStrings_ ["postgres://"; "postgresql://"]
  |> Config.dockerServices_ ["postgres"; "postgresql"]
  |> Config.envVars_ ["DATABASE_URL"; "POSTGRES_DB"; "PG_CONNECTION"; "POSTGRESQL_URL"].

Definition mysql : Config.t :=
  Config.base "mysql" (fun e =>
    if existsb (fun d => startsWith d "mysql") (Evidence.dependencies e) then 100
    else if nonEmpty (Evidence.dockerServices e) then 80
    else 0)
  |> Config.dependencies_ ["mysql"; "mysql2"]
  |> Config.connectionStrings_ ["mysql://"]
  |> Config.dockerServices_ ["mysql"; "mariadb"].

Definition redis : Config.t :=
  Config.base "redis" (fun e =>
    if includes "ioredis" (Evidence.dependencies e) then 100
    else if includes "redis" (Evidence.dependencies e) then 95
    else if includes "bull" (Evidence.dependencies e) then 90
    else 0)
  |> Config.dependencies_ ["redis"; "ioredis"; "bull"; "bee-queue"]
  |> Config.connectionStrings_ ["redis://"]
  |> Config.dockerServices_ ["redis"].

Definition databaseDetectors : list Config.t := [mongodb; postgresql; mysql; redis].

(** Testing framework detectors. *)
Definition jest : Config.t :=
  Config.base "jest" (fun e =>
    if includes "jest" (Evidence.dependencies e) then 100
    else if nonEmpty (Evidence.configs e) then 95
    else if Evidence.packageJsonConfig e then 95
    else if nonEmpty (Evidence.files e) then 70 else 0)
  |> Config.dependencies_ ["jest"; "@types/jest"]
  |> Config.devDependencies_ ["jest"; "ts-jest"; "babel-jest"]
  |> Config.configs_ ["jest.config.js"; "jest.config.ts"; "jest.config.json"]
  |> Config.packageJsonConfig_ "jest"
  |> Config.files_ ["*.test.js"; "*.test.ts"; "*.spec.js"; "*.spec.ts"].

Definition mocha : Config.t :=
  Config.base "mocha" (fun e =>
    if includes "mocha" (Evidence.dependencies e) then 100
    else if nonEmpty (Evidence.configs e) then 90
    else 0)
  |> Config.dependencies_ ["mocha"]
  |> Config.devDependencies_ ["mocha"; "chai"; "sinon"]
  |> Config.configs_ [".mocharc.js"; ".mocharc.json"; "mocha.opts"]
  |> Config.files_ ["*.test.js"; "*.spec.js"].

Definition cypress : Config.t :=
  Config.base "cypress" (fun e =>
    if includes "cypress" (Evidence.dependencies e) then 100
    else if nonEmpty (Evidence.configs e) then 90
    else 0)
  |> Config.dependencies_ ["cypress"]
  |> Config.configs_ ["cypress.json"; "cypress.config.js"]
  |> Config.directories_ ["cypress/integration"; "cypress/e2e"].

Definition playwright : Config.t :=
  Config.base "playwright" (fun e =>
    if includes "@playwright/test" (Evidence.dependencies e) then 100
    else if nonEmpty (Evidence.configs e) then 90 else 0)
  |> Config.dependencies_ ["@playwright/test"]
  |> Config.configs_ ["playwright.config.js"; "playwright.config.ts"].

Definition pytest : Config.t :=
  Config.base "pytest" (fun e =>
    if includes "pytest" (Evidence.dependencies e) then 100
    else if existsb (fun c => includes c ["pytest.ini"; "pyproject.toml"])
              (Evidence.configs e) then 90
    else if nonEmpty (Evidence.files e) then 80
    else if nonEmpty (Evidence.directories e) then 70
    else 0)
  |> Config.dependencies_ ["pytest"]
  |> Config.relatedPackages_ ["pytest-cov"; "pytest-asyncio"; "pytest-mock"; "httpx"]
  |> Config.configs_ ["pytest.ini"; "pyproject.toml"; "setup.cfg"]
  |> Config.files_ ["test_*.py"; "*_test.py"; "tests/*.py"]
  |> Config.directories_ ["tests/"; "test/"].

Definition unittest : Config.t :=
  Config.base "unittest" (fun e =>
    if nonEmpty (Evidence.codePatterns e) then 90
    else if nonEmpty (Evidence.files e) && nonEmpty (Evidence.directories e) then 70
    else if nonEmpty (Evidence.files e) then 50 else 0)
  |> Config.files_ ["test_*.py"; "*_test.py"; "tests/*.py"]
  |> Config.directories_ ["tests/"; "test/"]
  |> Config.codePatterns_ ["unittest.TestCase"; "import unittest"; "from unittest"].

Definition testingDetectors : list Config.t :=
  [jest; mocha; cypress; playwright; pytest; unittest].

(** Build tool detectors. *)
Definition webpack : Config.t :=
  Config.base "webpack" (fun e =>
    if includes "webpack" (Evidence.dependencies e) then 100
    else if nonEmpty (Evidence.configs e) then 80 else 0)
  |> Config.dependencies_ ["webpack"; "webpack-cli"]
  |> Config.configs_ ["webpack.config.js"; "webpack.config.ts"].

Definition vite : Config.t :=
  Config.base "vite" (fun e =>
    if includes "vite" (Evidence.dependencies e) then 100
    else if nonEmpty (Evidence.configs e) then 90 else 0)
  |> Config.dependencies_ ["vite"]
  |> Config.configs_ ["vite.config.js"; "vite.config.ts"].

Definition poetry : Config.t :=
  Config.base "poetry" (fun e =>
    if includes "poetry.lock" (Evidence.configs e) then 100
    else if includes "pyproject.toml" (Evidence.configs e) then 80
    else 0)
  |> Config.configs_ ["pyproject.toml"; "poetry.lock"]
  |> Config.indicators_ ["poetry.toml"].

Definition uv : Config.t :=
  Config.base "uv" (fun e =>
    if includes "uv.lock" (Evidence.configs e) then 100
    else if includes ".python-version" (Evidence.indicators e) then 70
    else 0)
  |> Config.configs_ ["pyproject.toml"; "uv.lock"]
  |> Config.indicators_ [".python-version"; "uv.toml"].

Definition setuptools : Config.t :=
  Config.base "setuptools" (fun e =>
    if includes "setup.py" (Evidence.configs e) then 100
    else if includes "setup.cfg" (Evidence.configs e) then 90
    else 0)
  |> Config.configs_ ["setup.py"; "setup.cfg"; "pyproject.toml"]
  |> Config.files_ ["MANIFEST.in"].

Definition buildToolDetectors : list Config.t := [webpack; vite; poetry; uv; setuptools].

(** Deployment detectors. *)
Definition docker : Config.t :=
  Config.base "docker" (fun e =>
    if includes "Dockerfile" (Evidence.files e) then 100
    else if existsb (fun f => strIncludes f "docker-compose") (Evidence.files e) then 95
    else 0)
  |> Config.files_ ["Dockerfile"; "docker-compose.yml"; "docker-compose.yaml"]
  |> Config.configs_ [".dockerignore"].

Definition kubernetes : Config.t :=
  Config.base "kubernetes" (fun e =>
    if nonEmpty (Evidence.files e) then 90
    else if nonEmpty (Evidence.patterns e) then 95
    else 0)
  |> Config.files_ ["k8s/"; "kubernetes/"]
  |> Config.configs_ ["skaffold.yaml"; "helm/Chart.yaml"].

Definition githubActions : Config.t :=
  Config.base "githubActions" (fun e =>
    if nonEmpty (Evidence.files e) then 100 else 0)
  |> Config.files_ [".github/workflows/*.yml"; ".github/workflows/*.yaml"].

Definition deploymentDetectors : list Config.t := [docker; kubernetes; githubActions].

(** The table [resolveConflicts] consults, in declaration order. *)
Definition mutualExclusions : list (string * list string) :=
  [ ("react", ["vue"; "angular"; "svelte"]);
    ("vue", ["react"; "angular"; "svelte"]);
    ("angular", ["react"; "vue"; "svelte"]);
    ("express", ["fastify"; "koa"; "hapi"]);
    ("jest", ["mocha"; "jasmine"; "ava"]);
    ("webpack", ["parcel"]) ].

(** ** The project under analysis *)

(** A value of the [scripts] object of package.json: a string, or
    anything without an [includes] method (number, boolean, null, object). *)
Inductive JsValue : Type :=
| JsString (s : string)
| JsOther.

(** A JSON object with string values, as an association list in key order. *)
Definition JsObject := list (string * string).

Fixpoint lookup (k : string) (o : JsObject) : option string :=
  match o with
  | [] => None
  | (k', v) :: o' => if String.eqb k k' then Some v else lookup k o'
  end.

(** [Object.keys(o)]. *)
Definition keys (o : JsObject) : list string := map fst o.

(** [o[k]] used as a condition: the property exists and is not the empty string. *)
Definition has (o : JsObject) (k : string) : bool :=
  match lookup k o with
  | Some EmptyString => false
  | Some _ => true
  | None => false
  end.

(** [{ ...a, ...b }]. *)
Definition spread (a b : JsObject) : JsObject :=
  map (fun kv => match lookup (fst kv) b with
                 | Some v => (fst kv, v)
                 | None => kv
                 end) a
  ++ filter (fun kv => negb (includes (fst kv) (keys a))) b.

(** The parsed package.json; absent [dependencies], [devDependencies] and
    [scripts] read as empty objects, as [x || {}] makes them. *)
Module Pkg.
Record t : Type := mk {
  dependencies : JsObject;
  devDependencies : JsObject;
  scripts : list (string * JsValue);
  (** the other top-level properties ([bin], [main], [jest], ...) with a truthy value *)
  truthyFields : list string
}.
End Pkg.

(** What the file system answers for paths relative to the project root. *)
Record Project : Type := {
  (** [fs.stat] succeeds and [isFile()] *)
  isFile : string -> bool;
  (** [fs.stat] succeeds and [isDirectory()] *)
  isDirectory : string -> bool;
  (** the matches of [glob(pattern, ...)], [None] when it rejects *)
  glob : string -> option (list string);
  (** [fs.readFile(path, 'utf-8')], [None] when it rejects *)
  readFile : string -> option string;
  (** package.json read and parsed, [None] when either step fails *)
  packageJson : option Pkg.t;
  (** the names [readPythonDependencies] extracts from pyproject.toml and
      requirements.txt; the extraction catches its own errors *)
  pythonPackages : list string
}.

Definition fileExists (p : Project) (filePath : string) : bool := isFile p filePath.
Definition dirExists (p : Project) (dirPath : string) : bool := isDirectory p dirPath.

Definition findFiles (p : Project) (pattern : string) (limit : nat) : list string :=
  match glob p pattern with
  | Some files => if limit =? 0 then files else firstn limit files
  | None => []
  end.

Definition readPackageJson (p : Project) : option Pkg.t := packageJson p.
Definition readPythonDependencies (p : Project) : list string := pythonPackages p.

(** The contents of the files of [paths] that can be read, in order: the
    body of a [try { readFile } catch { }] loop sees exactly these. *)
Definition readable (p : Project) (paths : list string) : list string :=
  flat_map (fun f => match readFile p f with Some content => [content] | None => [] end) paths.

(** ** Ranking *)

(** A scored detection: name and confidence. *)
Definition Detection := (string * confidence_t)%type.

Fixpoint insertDetection (d : Detection) (l : list Detection) : list Detection :=
  match l with
  | [] => [d]
  | d' :: l' => if snd d' <=? snd d then d :: d' :: l' else d' :: insertDetection d l'
  end.

(** [detected.sort((a, b) => b.confidence - a.confidence)]: descending,
    and stable, as [Array.prototype.sort] is. *)
Definition sortByConfidence (l : list Detection) : list Detection :=
  fold_right insertDetection [] l.

(** The shared tail of the two sorted loops: keep what is accepted, sort,
    return the names. *)
Definition rank (scored : list Detection) : list string :=
  map fst (sortByConfidence (filter (fun d => accepted (snd d)) scored)).

(** The shared tail of the unsorted loops: names of what is accepted. *)
Definition keep (scored : list Detection) : list string :=
  map fst (filter (fun d => accepted (snd d)) scored).

(** One round of a detection loop: score the evidence gathered for [config]. *)
Definition score (config : Config.t) (evidence : Evidence.t) : Detection :=
  (Config.name config, Config.confidence config evidence).

(** ** detectLanguages *)

Definition languageEvidence (p : Project) (config : Config.t) : result Evidence.t :=
  let files := flat_map (fun pattern => findFiles p pattern 100) (Config.patterns config) in
  let configs := filter (fileExists p) (Config.configs config) in
  packageIndicators <-
    match Config.packageIndicators config with
    | Some wanted =>
        if includes "package.json" configs then
          match readPackageJson p with
          | None => Threw "TypeError: Cannot read properties of null (reading 'dependencies')"
          | Some pkg =>
              let allDeps := keys (spread (Pkg.dependencies pkg) (Pkg.devDependencies pkg)) in
              Ok (filter (fun indicator =>
                            existsb (fun dep => strIncludes dep indicator) allDeps) wanted)
          end
        else Ok []
    | None => Ok []
    end ;;
  Ok {| Evidence.dependencies := []; Evidence.devDependencies := [];
        Evidence.relatedPackages := []; Evidence.files := files;
        Evidence.configs := configs; Evidence.indicators := [];
        Evidence.directories := []; Evidence.packageIndicators := packageIndicators;
        Evidence.scripts := []; Evidence.codePatterns := []; Evidence.imports := [];
        Evidence.patterns := []; Evidence.connectionStrings := [];
        Evidence.dockerServices := []; Evidence.envVars := [];
        Evidence.packageJsonConfig := false;
        Evidence.isBackendOnly := false; Evidence.isFrontendOnly := false |}.

Definition detectLanguages (p : Project) : result (list string) :=
  scored <- mapM (fun config => evidence <- languageEvidence p config ;;
                                Ok (score config evidence)) languageDetectors ;;
  Ok (rank scored).

(** ** White space

    A string holds the bytes of a text in UTF-8, the encoding in which the
    code reads every file. [String.prototype.trim] and the class [\s] of a
    regular expression take the same characters as white space, ECMAScript's
    WhiteSpace and LineTerminator: U+0009 to U+000D and U+0020 in one byte,
    U+00A0 in two, and U+1680, U+2000 to U+200A, U+2028, U+2029, U+202F,
    U+205F, U+3000 and U+FEFF in three. *)

Definition whiteSpace1 (a : ascii) : bool :=
  let x := nat_of_ascii a in (x =? 32) || ((9 <=? x) && (x <=? 13)).

(** U+00A0. *)
Definition whiteSpace2 (a b : ascii) : bool :=
  (nat_of_ascii a =? 194) && (nat_of_ascii b =? 160).

(** U+1680; U+2000 to U+200A, U+2028, U+2029, U+202F; U+205F; U+3000; U+FEFF. *)
Definition whiteSpace3 (a b c : ascii) : bool :=
  let x := nat_of_ascii a in
  let y := nat_of_ascii b in
  let z := nat_of_ascii c in
  ((x =? 225) && (y =? 154) && (z =? 128))
  || ((x =? 226) && (y =? 128)
      && (((128 <=? z) && (z <=? 138)) || (z =? 168) || (z =? 169) || (z =? 175)))
  || ((x =? 226) && (y =? 129) && (z =? 159))
  || ((x =? 227) && (y =? 128) && (z =? 128))
  || ((x =? 239) && (y =? 187) && (z =? 191)).

(** [s.trimStart()]: the leading white-space characters are dropped. *)
Fixpoint trimStart (s : string) : string :=
  match s with
  | EmptyString => s
  | String a t =>
      if whiteSpace1 a then trimStart t
      else match t with
           | EmptyString => s
           | String b u =>
               if whiteSpace2 a b then trimStart u
               else match u with
                    | EmptyString => s
                    | String c v => if whiteSpace3 a b c then trimStart v else s
                    end
           end
  end.

(** [s] consists of white-space characters only. *)
Fixpoint allWhiteSpace (s : string) : bool :=
  match s with
  | EmptyString => true
  | String a t =>
      if whiteSpace1 a then allWhiteSpace t
      else match t with
           | EmptyString => false
           | String b u =>
               if whiteSpace2 a b then allWhiteSpace u
               else match u with
                    | EmptyString => false
                    | String c v => whiteSpace3 a b c && allWhiteSpace v
                    end
           end
  end.

(** [s.trimEnd()]: the string is cut where only white space follows. *)
Fixpoint trimEnd (s : string) : string :=
  match s with
  | EmptyString => EmptyString
  | String a t => if allWhiteSpace s then EmptyString else String a (trimEnd t)
  end.

(** [s.trim()]. *)
Definition trim (s : string) : string := trimEnd (trimStart s).

(** ** analyzeProjectStructure *)

(** The line terminators at which [^] and [$] match under the [m] flag:
    U+000A, U+000D, and in three bytes U+2028 and U+2029. *)
Definition lineTerminator1 (a : ascii) : bool :=
  let x := nat_of_ascii a in (x =? 10) || (x =? 13).

Definition lineTerminator3 (a b c : ascii) : bool :=
  (nat_of_ascii a =? 226) && (nat_of_ascii b =? 128)
  && ((nat_of_ascii c =? 168) || (nat_of_ascii c =? 169)).

(** [\w]. *)
Definition isWordChar (c : ascii) : bool :=
  let n := nat_of_ascii c in
  ((48 <=? n) && (n <=? 57)) || ((65 <=? n) && (n <=? 90))
  || ((97 <=? n) && (n <=? 122)) || (n =? 95).

(** One more character in front of the first line of [ls]. *)
Definition extendFirst (a : ascii) (ls : list string) : list string :=
  match ls with
  | [] => [String a EmptyString]
  | l :: ls' => String a l :: ls'
  end.

(** The lines of [s]: what lies between its line terminators. *)
Fixpoint splitLines (s : string) : list string :=
  match s with
  | EmptyString => [EmptyString]
  | String a t =>
      if lineTerminator1 a then EmptyString :: splitLines t
      else match t with
           | String b (String c v) =>
               if lineTerminator3 a b c then EmptyString :: splitLines v
               else extendFirst a (splitLines t)
           | _ => extendFirst a (splitLines t)
           end
  end.

Fixpoint dropWhile (f : ascii -> bool) (s : string) : string :=
  match s with
  | EmptyString => EmptyString
  | String c s' => if f c then dropWhile f s' else s
  end.

(** A line of the shape white space, word characters, a colon, white space. *)
Definition serviceLine (l : string) : bool :=
  let l1 := trimStart l in
  let l2 := dropWhile isWordChar l1 in
  negb (String.length l1 =? String.length l2)
  && match l2 with
     | String c rest => (nat_of_ascii c =? 58) && allWhiteSpace rest
     | EmptyString => false
     end.

(** [(content.match(/^\s*\w+:\s*$/gm) || []).length]: every match of the
    multi-line pattern covers exactly one such line, and every such line is
    covered by a match. The white space before the word may reach back over
    blank lines and the white space after the colon forward over them, which
    changes what a match spans, not how many there are. *)
Definition serviceCount (content : string) : nat :=
  length (filter serviceLine (splitLines content)).

Module Architecture.
Record t : Type := mk {
  type : string;
  patterns : list string
}.
End Architecture.

Module Structure.
Record t : Type := mk {
  hasApi : bool;
  hasControllers : bool;
  hasRoutes : bool;
  hasModels : bool;
  hasServices : bool;
  hasComponents : bool;
  hasPages : bool;
  hasViews : bool;
  hasPublic : bool;
  hasSrc : bool;
  hasTests : bool;
  hasDocker : bool;
  hasKubernetes : bool;
  architecture : Architecture.t
}.
End Structure.

Definition detectArchitecture (p : Project) : Architecture.t :=
  let monorepo :=
    fileExists p "lerna.json" || fileExists p "turbo.json" || fileExists p "rush.json" in
  let microservices :=
    fileExists p "docker-compose.yml"
    && match readFile p "docker-compose.yml" with
       | Some content => 3 <? serviceCount content
       | None => false
       end in
  {| Architecture.type := if monorepo then "monorepo" else "standard";
     Architecture.patterns :=
       (if monorepo then ["monorepo"] else [])
       ++ (if microservices then ["microservices"] else []) |}.

Definition analyzeProjectStructure (p : Project) : Structure.t :=
  {| Structure.hasApi := dirExists p "api";
     Structure.hasControllers := dirExists p "controllers";
     Structure.hasRoutes := dirExists p "routes";
     Structure.hasModels := dirExists p "models";
     Structure.hasServices := dirExists p "services";
     Structure.hasComponents := dirExists p "components" || dirExists p "src/components";
     Structure.hasPages := dirExists p "pages" || dirExists p "src/pages";
     Structure.hasViews := dirExists p "views" || dirExists p "src/views";
     Structure.hasPublic := dirExists p "public";
     Structure.hasSrc := dirExists p "src";
     Structure.hasTests :=
       dirExists p "tests" || dirExists p "test" || dirExists p "__tests__";
     Structure.hasDocker := fileExists p "Dockerfile";
     Structure.hasKubernetes := dirExists p "k8s" || dirExists p "kubernetes";
     Structure.architecture := detectArchitecture p |}.

(** ** determineProjectType *)

Module Indicators.
Record t : Type := mk {
  backendOnly : nat;
  frontendOnly : nat;
  fullstack : nat;
  library : nat;
  cli : nat
}.
End Indicators.

Module ProjectType.
Record t : Type := mk {
  type : string;
  primary : string;
  isBackendOnly : bool;
  isFrontendOnly : bool;
  scores : Indicators.t
}.
End ProjectType.

Definition backendPackages : list string :=
  ["express"; "fastify"; "koa"; "nestjs"; "hapi"; "mongoose"; "typeorm"; "sequelize"].
Definition frontendPackages : list string :=
  ["react"; "vue"; "angular"; "svelte"; "next"; "gatsby"; "nuxt"].
Definition pythonBackendPackages : list string :=
  ["fastapi"; "django"; "flask"; "tornado"; "aiohttp"; "sanic"].

Definition computeIndicators (p : Project) (structure : Structure.t)
    (packageData : option Pkg.t) : Indicators.t :=
  let s := structure in
  let backend0 :=
    if Structure.hasApi s || Structure.hasControllers s
       || Structure.hasRoutes s || Structure.hasModels s then 3 else 0 in
  let frontend0 :=
    if Structure.hasComponents s || Structure.hasPages s || Structure.hasViews s
    then 3 else 0 in
  let fromPackage :=
    match packageData with
    | Some pkg =>
        let allDeps := keys (Pkg.dependencies pkg) ++ keys (Pkg.devDependencies pkg) in
        let backendCount :=
          length (filter (fun pkg' => includes pkg' allDeps) backendPackages) in
        let frontendCount :=
          length (filter (fun pkg' => existsb (fun dep => strIncludes dep pkg') allDeps)
                         frontendPackages) in
        (backendCount * 2, frontendCount * 2,
         if includes "bin" (Pkg.truthyFields pkg) then 5 else 0,
         if includes "main" (Pkg.truthyFields pkg)
            && negb (Structure.hasApi s) && negb (Structure.hasComponents s)
         then 3 else 0)
    | None => (0, 0, 0, 0)
    end in
  let '(backend1, frontend1, cli, library) := fromPackage in
  let pythonDeps := readPythonDependencies p in
  let pythonBackendCount :=
    length (filter (fun pkg' => includes pkg' pythonDeps) pythonBackendPackages) in
  {| Indicators.backendOnly := backend0 + backend1 + pythonBackendCount * 3;
     Indicators.frontendOnly := frontend0 + frontend1;
     Indicators.fullstack := 0;
     Indicators.library := library;
     Indicators.cli := cli |}.

Definition primaryBackend (p : Project) (packageData : option Pkg.t) : string :=
  let fromPackage :=
    match packageData with
    | Some pkg =>
        let deps := Pkg.dependencies pkg in
        if has deps "express" then "express"
        else if has deps "fastify" then "fastify"
        else if has deps "@nestjs/core" then "nestjs"
        else if has deps "koa" then "koa"
        else EmptyString
    | None => EmptyString
    end in
  let pythonDeps := readPythonDependencies p in
  if includes "fastapi" pythonDeps then "fastapi"
  else if includes "django" pythonDeps then "django"
  else if includes "flask" pythonDeps then "flask"
  else fromPackage.

Definition primaryFrontend (packageData : option Pkg.t) : string :=
  match packageData with
  | Some pkg =>
      let deps := spread (Pkg.dependencies pkg) (Pkg.devDependencies pkg) in
      if has deps "react" then "react"
      else if has deps "vue" then "vue"
      else if has deps "@angular/core" then "angular"
      else if has deps "svelte" then "svelte"
      else EmptyString
  | None => EmptyString
  end.

Definition determineProjectType (p : Project) (structure : Structure.t)
    (packageData : option Pkg.t) : ProjectType.t :=
  let indicators := computeIndicators p structure packageData in
  let backendOnly := Indicators.backendOnly indicators in
  let frontendOnly := Indicators.frontendOnly indicators in
  let '(type, primary) :=
    if 3 <? Indicators.cli indicators then ("cli-tool", EmptyString)
    else if (0 <? backendOnly) && (0 <? frontendOnly) then
      ("full-stack-application", EmptyString)
    else if frontendOnly <? backendOnly then ("backend-api", primaryBackend p packageData)
    else if backendOnly <? frontendOnly then
      ("frontend-application", primaryFrontend packageData)
    else if 0 <? Indicators.library indicators then ("library", EmptyString)
    else ("unknown", EmptyString) in
  {| ProjectType.type := type;
     ProjectType.primary := primary;
     ProjectType.isBackendOnly := (0 <? backendOnly) && (frontendOnly =? 0);
     ProjectType.isFrontendOnly := (0 <? frontendOnly) && (backendOnly =? 0);
     ProjectType.scores := indicators |}.

(** ** detectFrameworks *)

(** [arr.some(f)] with a callback that may throw: stops at the first hit. *)
Fixpoint someM {A} (f : A -> result bool) (l : list A) : result bool :=
  match l with
  | [] => Ok false
  | x :: l' => b <- f x ;; if b then Ok true else someM f l'
  end.

(** [arr.filter(f)] with a callback that may throw. *)
Fixpoint filterM {A} (f : A -> result bool) (l : list A) : result (list A) :=
  match l with
  | [] => Ok []
  | x :: l' => b <- f x ;; rest <- filterM f l' ;; Ok (if b then x :: rest else rest)
  end.

(** [config.scripts.filter(script =>
       scripts.some(s => s.includes(script.split(' ')[0])))]. *)
Definition matchScripts (wanted : list string) (scripts : list JsValue)
    : result (list string) :=
  filterM (fun script =>
    someM (fun s => match s with
                    | JsString text => Ok (strIncludes text (firstWord script))
                    | JsOther => Threw "TypeError: s.includes is not a function"
                    end) scripts) wanted.

(** The scan of the sampled files: what of [wanted] occurs in each readable
    file, file after file, then without duplicates. With nothing to look
    for, or no file, the result is empty, as when the scan is skipped. *)
Definition scanFiles (p : Project) (sample : list string) (wanted : list string)
    : list string :=
  dedupe (flat_map (fun content => filter (strIncludes content) wanted)
                   (readable p sample)).

Definition frameworkEvidence (p : Project) (packageData : option Pkg.t)
    (projectType : ProjectType.t) (pythonDependencies : list string)
    (config : Config.t) : result Evidence.t :=
  fromPackage <-
    match packageData, Config.dependencies config with
    | Some pkg, Some wanted =>
        let deps := Pkg.dependencies pkg in
        let devDeps := Pkg.devDependencies pkg in
        scripts <- matchScripts (Config.scripts config) (map snd (Pkg.scripts pkg)) ;;
        Ok (filter (has deps) wanted,
            filter (has devDeps) (Config.devDependencies config),
            filter (fun pkg' => has deps pkg' || has devDeps pkg')
                   (Config.relatedPackages config),
            scripts)
    | _, _ => Ok ([], [], [], [])
    end ;;
  let '(dependencies, devDependencies, relatedPackages, scripts) := fromPackage in
  let fromPython :=
    match Config.dependencies config with
    | Some wanted =>
        if nonEmpty pythonDependencies then
          (filter (fun dep => includes dep pythonDependencies) wanted,
           filter (fun pkg' => includes pkg' pythonDependencies)
                  (Config.relatedPackages config))
        else ([], [])
    | None => ([], [])
    end in
  let files := flat_map (fun pattern => findFiles p pattern 100) (Config.files config) in
  let sampleFiles := firstn 3 files in
  Ok {| Evidence.dependencies := dependencies ++ fst fromPython;
        Evidence.devDependencies := devDependencies;
        Evidence.relatedPackages := relatedPackages ++ snd fromPython;
        Evidence.files := files;
        Evidence.configs := filter (fileExists p) (Config.configs config);
        Evidence.indicators := filter (dirExists p) (Config.indicators config);
        Evidence.directories := [];
        Evidence.packageIndicators := [];
        Evidence.scripts := scripts;
        Evidence.codePatterns := scanFiles p sampleFiles (Config.codePatterns config);
        Evidence.imports := scanFiles p sampleFiles (Config.imports config);
        Evidence.patterns := [];
        Evidence.connectionStrings := []; Evidence.dockerServices := [];
        Evidence.envVars := [];
        Evidence.packageJsonConfig := false;
        Evidence.isBackendOnly := ProjectType.isBackendOnly projectType;
        Evidence.isFrontendOnly := ProjectType.isFrontendOnly projectType |}.

Definition detectFrameworks (p : Project) (detectors : list Config.t)
    (packageData : option Pkg.t) (projectType : ProjectType.t)
    : result (list string) :=
  let pythonDependencies := readPythonDependencies p in
  scored <- mapM (fun config =>
                    evidence <- frameworkEvidence p packageData projectType
                                  pythonDependencies config ;;
                    Ok (score config evidence)) detectors ;;
  Ok (rank scored).

(** ** detectDatabases *)

Definition dockerComposeFiles : list string :=
  ["docker-compose.yml"; "docker-compose.yaml";
   "docker/docker-compose.yml"; "docker/docker-compose.yaml"].

(** The compose files that exist and can be read. *)
Definition existingContents (p : Project) (paths : list string) : list string :=
  readable p (filter (fileExists p) paths).

(** Each readable env file overwrites what the previous one gave. *)
Definition envEvidence (p : Project) (config : Config.t) : list string * list string :=
  fold_left (fun acc content =>
               (filter (strIncludes content) (Config.connectionStrings config),
                filter (strIncludes content) (Config.envVars config)))
            (existingContents p [".env"; ".env.example"]) ([], []).

Definition databaseEvidence (p : Project) (packageData : option Pkg.t)
    (pythonDependencies : list string) (config : Config.t) : Evidence.t :=
  let fromPackage :=
    match packageData, Config.dependencies config with
    | Some pkg, Some wanted =>
        let allDeps := keys (spread (Pkg.dependencies pkg) (Pkg.devDependencies pkg)) in
        filter (fun dep => includes dep allDeps) wanted
    | _, _ => []
    end in
  let fromPython :=
    match Config.dependencies config with
    | Some wanted =>
        if nonEmpty pythonDependencies
        then filter (fun dep => includes dep pythonDependencies) wanted else []
    | None => []
    end in
  let dockerServices :=
    dedupe (flat_map (fun content =>
                        filter (fun service =>
                                  strIncludes content (service ++ ":")%string
                                  || strIncludes content ("image: " ++ service)%string)
                               (Config.dockerServices config))
                     (existingContents p dockerComposeFiles)) in
  let env := envEvidence p config in
  {| Evidence.dependencies := fromPackage ++ fromPython;
     Evidence.devDependencies := []; Evidence.relatedPackages := [];
     Evidence.files := []; Evidence.configs := []; Evidence.indicators := [];
     Evidence.directories := []; Evidence.packageIndicators := [];
     Evidence.scripts := []; Evidence.codePatterns := []; Evidence.imports := [];
     Evidence.patterns := [];
     Evidence.connectionStrings := fst env;
     Evidence.dockerServices := dockerServices;
     Evidence.envVars := snd env;
     Evidence.packageJsonConfig := false;
     Evidence.isBackendOnly := false; Evidence.isFrontendOnly := false |}.

Definition detectDatabases (p : Project) (packageData : option Pkg.t) : list string :=
  let pythonDependencies := readPythonDependencies p in
  keep (map (fun config =>
               score config (databaseEvidence p packageData pythonDependencies config))
            databaseDetectors).

(** ** detectTesting *)

Definition testingEvidence (p : Project) (packageData : option Pkg.t)
    (pythonDependencies : list string) (config : Config.t) : Evidence.t :=
  let wanted := match Config.dependencies config with Some l => l | None => [] end in
  let '(dependencies, devDependencies, packageJsonConfig) :=
    match packageData with
    | Some pkg =>
        let deps := Pkg.dependencies pkg in
        let devDeps := Pkg.devDependencies pkg in
        (filter (fun dep => has deps dep || has devDeps dep) wanted,
         filter (has devDeps) (Config.devDependencies config),
         match Config.packageJsonConfig config with
         | Some key => includes key (Pkg.truthyFields pkg)
         | None => false
         end)
    | None => ([], [], false)
    end in
  let fromPython :=
    match Config.dependencies config with
    | Some wanted' =>
        if nonEmpty pythonDependencies then
          (filter (fun dep => includes dep pythonDependencies) wanted',
           filter (fun pkg' => includes pkg' pythonDependencies)
                  (Config.relatedPackages config))
        else ([], [])
    | None => ([], [])
    end in
  let files := flat_map (fun pattern => findFiles p pattern 5) (Config.files config) in
  {| Evidence.dependencies := dependencies ++ fst fromPython;
     Evidence.devDependencies := devDependencies;
     Evidence.relatedPackages := snd fromPython;
     Evidence.files := files;
     Evidence.configs := filter (fileExists p) (Config.configs config);
     Evidence.indicators := [];
     Evidence.directories := filter (dirExists p) (Config.directories config);
     Evidence.packageIndicators := []; Evidence.scripts := [];
     Evidence.codePatterns := scanFiles p (firstn 2 files) (Config.codePatterns config);
     Evidence.imports := []; Evidence.patterns := [];
     Evidence.connectionStrings := []; Evidence.dockerServices := [];
     Evidence.envVars := [];
     Evidence.packageJsonConfig := packageJsonConfig;
     Evidence.isBackendOnly := false; Evidence.isFrontendOnly := false |}.

Definition detectTesting (p : Project) (packageData : option Pkg.t) : list string :=
  let pythonDependencies := readPythonDependencies p in
  keep (map (fun config =>
               score config (testingEvidence p packageData pythonDependencies config))
            testingDetectors).

(** ** detectBuildTools *)

Definition buildToolEvidence (p : Project) (packageData : option Pkg.t)
    (config : Config.t) : Evidence.t :=
  let dependencies :=
    match packageData, Config.dependencies config with
    | Some pkg, Some wanted =>
        let allDeps := keys (spread (Pkg.dependencies pkg) (Pkg.devDependencies pkg)) in
        filter (fun dep => includes dep allDeps) wanted
    | _, _ => []
    end in
  {| Evidence.dependencies := dependencies;
     Evidence.devDependencies := []; Evidence.relatedPackages := [];
     Evidence.files := filter (fileExists p) (Config.files config);
     Evidence.configs := filter (fileExists p) (Config.configs config);
     Evidence.indicators := filter (fileExists p) (Config.indicators config);
     Evidence.directories := []; Evidence.packageIndicators := [];
     Evidence.scripts := []; Evidence.codePatterns := []; Evidence.imports := [];
     Evidence.patterns := []; Evidence.connectionStrings := [];
     Evidence.dockerServices := []; Evidence.envVars := [];
     Evidence.packageJsonConfig := false;
     Evidence.isBackendOnly := false; Evidence.isFrontendOnly := false |}.

Definition detectBuildTools (p : Project) (packageData : option Pkg.t) : list string :=
  keep (map (fun config => score config (buildToolEvidence p packageData config))
            buildToolDetectors).

(** ** detectDeployment *)

Definition deploymentEvidence (p : Project) (config : Config.t) : Evidence.t :=
  let files :=
    flat_map (fun file =>
                if strIncludes file "*" then findFiles p file 100
                else if fileExists p file then [file] else [])
             (Config.files config) in
  {| Evidence.dependencies := [];
     Evidence.devDependencies := []; Evidence.relatedPackages := [];
     Evidence.files := files;
     Evidence.configs := filter (fileExists p) (Config.configs config);
     Evidence.indicators := []; Evidence.directories := [];
     Evidence.packageIndicators := []; Evidence.scripts := [];
     Evidence.codePatterns := []; Evidence.imports := [];
     Evidence.patterns := []; Evidence.connectionStrings := [];
     Evidence.dockerServices := []; Evidence.envVars := [];
     Evidence.packageJsonConfig := false;
     Evidence.isBackendOnly := false; Evidence.isFrontendOnly := false |}.

Definition detectDeployment (p : Project) : list string :=
  keep (map (fun config => score config (deploymentEvidence p config))
            deploymentDetectors).

(** ** performTargetedDetection *)

Module Results.
Record t : Type := mk {
  frontend : list string;
  backend : list string;
  databases : list string;
  testing : list string;
  buildTools : list string;
  deployment : list string;
  patterns : list string;
  (** [confidence: {}], never written to *)
  confidence : list (string * confidence_t)
}.
End Results.

Definition performTargetedDetection (p : Project) (projectType : ProjectType.t)
    (packageData : option Pkg.t) (structure : Structure.t) : result Results.t :=
  frontend <-
    (if negb (ProjectType.isBackendOnly projectType)
     then detectFrameworks p frontendDetectors packageData projectType
     else Ok []) ;;
  backend <-
    (if negb (ProjectType.isFrontendOnly projectType)
     then detectFrameworks p backendDetectors packageData projectType
     else Ok []) ;;
  let databases := detectDatabases p packageData in
  let testing := detectTesting p packageData in
  let buildTools := detectBuildTools p packageData in
  let deployment := detectDeployment p in
  Ok {| Results.frontend := frontend;
        Results.backend := backend;
        Results.databases := databases;
        Results.testing := testing;
        Results.buildTools := buildTools;
        Results.deployment := deployment;
        Results.patterns :=
          frontend ++ backend ++ databases ++ testing ++ buildTools ++ deployment;
        Results.confidence := [] |}.

(** ** resolveConflicts *)

(** The categories the resolver walks through. *)
Inductive Category : Type := Frontend | Backend | Testing | BuildTools.

Definition getCategory (c : Category) (r : Results.t) : list string :=
  match c with
  | Frontend => Results.frontend r
  | Backend => Results.backend r
  | Testing => Results.testing r
  | BuildTools => Results.buildTools r
  end.

Definition setCategory (c : Category) (v : list string) (r : Results.t) : Results.t :=
  let '(Results.mk fe be db te bt de pa co) := r in
  match c with
  | Frontend => Results.mk v be db te bt de pa co
  | Backend => Results.mk fe v db te bt de pa co
  | Testing => Results.mk fe be db v bt de pa co
  | BuildTools => Results.mk fe be db te v de pa co
  end.

(** The body of the inner loop for one table entry and one category. *)
Definition exclude (entry : string * list string) (resolved : Results.t)
    (category : Category) : Results.t :=
  let '(tech, exclusions) := entry in
  if includes tech (getCategory category resolved) then
    setCategory category
      (filter (fun t => negb (includes t exclusions)) (getCategory category resolved))
      resolved
  else resolved.

(** The inner loop: one table entry over the four categories. *)
Definition resolveRound (resolved : Results.t) (entry : string * list string)
    : Results.t :=
  fold_left (exclude entry) [Frontend; Backend; Testing; BuildTools] resolved.

Definition resolveConflicts (detectionResults : Results.t) : Results.t :=
  fold_left resolveRound mutualExclusions detectionResults.

(** ** detectPackageManagers *)

Definition packageManagerChecks : list (string * string) :=
  [("npm", "package-lock.json"); ("yarn", "yarn.lock");
   ("pnpm", "pnpm-lock.yaml"); ("bun", "bun.lockb")].

Definition detectPackageManagers (p : Project) : list string :=
  map fst (filter (fun check => fileExists p (snd check)) packageManagerChecks).

(** ** detect *)

Module Stack.
Record t : Type := mk {
  languages : list string;
  type : string;
  primary : string;
  frameworks : list string;
  databases : list string;
  testing : list string;
  buildTools : list string;
  deployment : list string;
  patterns : list string;
  architecture : Architecture.t;
  packageManagers : list string;
  (** present (and empty) on the regular path, absent from the empty result *)
  confidence : option (list (string * confidence_t))
}.
End Stack.

Definition getEmptyResult : Stack.t :=
  {| Stack.languages := [];
     Stack.type := "unknown";
     Stack.primary := EmptyString;
     Stack.frameworks := [];
     Stack.databases := [];
     Stack.testing := [];
     Stack.buildTools := [];
     Stack.deployment := [];
     Stack.patterns := [];
     Stack.architecture := {| Architecture.type := "unknown"; Architecture.patterns := [] |};
     Stack.packageManagers := [];
     Stack.confidence := None |}.

(** The [try] block of [detect]. *)
Definition detectBody (p : Project) : result Stack.t :=
  languages <- detectLanguages p ;;
  let projectAnalysis := analyzeProjectStructure p in
  let packageData := readPackageJson p in
  let projectType := determineProjectType p projectAnalysis packageData in
  detectionResults <-
    performTargetedDetection p projectType packageData projectAnalysis ;;
  let resolved := resolveConflicts detectionResults in
  let finalFrameworks := Results.frontend resolved ++ Results.backend resolved in
  let primaryLanguage :=
    match languages with
    | first :: _ => first
    | [] => EmptyString
    end in
  Ok {| Stack.languages := languages;
        Stack.type := ProjectType.type projectType;
        Stack.primary := primaryLanguage;
        Stack.frameworks := finalFrameworks;
        Stack.databases := Results.databases resolved;
        Stack.testing := Results.testing resolved;
        Stack.buildTools := Results.buildTools resolved;
        Stack.deployment := Results.deployment resolved;
        Stack.patterns := Results.patterns resolved;
        Stack.architecture := Structure.architecture projectAnalysis;
        Stack.packageManagers := detectPackageManagers p;
        Stack.confidence := Some (Results.confidence resolved) |}.

(** [detect]: the [catch] clause logs the error and returns the empty result. *)
Definition detect (p : Project) : Stack.t :=
  match detectBody p with
  | Ok result => result
  | Threw _ => getEmptyResult
  end.

(** ** readPythonDependencies: the requirements list

    The loop over the lines of requirements.txt. *)

(** The character class of the version-specifier pattern: one of > = < ~ ! and
    the opening square bracket. *)
Definition isSpecifier (c : ascii) : bool :=
  let n := nat_of_ascii c in
  (n =? 62) || (n =? 61) || (n =? 60) || (n =? 126) || (n =? 33) || (n =? 91).

(** [s.split(pattern)[0]] for that pattern: what precedes the first specifier. *)
Fixpoint beforeSpecifier (s : string) : string :=
  match s with
  | EmptyString => EmptyString
  | String c s' => if isSpecifier c then EmptyString else String c (beforeSpecifier s')
  end.

Definition isEmpty (s : string) : bool :=
  match s with EmptyString => true | String _ _ => false end.

(** The body of the loop: the package name a line contributes, if any. *)
Definition requirementName (line : string) : option string :=
  let cleaned := trim line in
  if negb (isEmpty cleaned) && negb (startsWith cleaned "#")
     && negb (startsWith cleaned "-")
  then
    let name := trim (beforeSpecifier cleaned) in
    if isEmpty name then None else Some name
  else None.

(** [content.split(newline)]. *)
Fixpoint splitNewline (s : string) : list string :=
  match s with
  | EmptyString => [EmptyString]
  | String c s' =>
      if nat_of_ascii c =? 10 then EmptyString :: splitNewline s'
      else match splitNewline s' with
           | [] => [String c EmptyString]
           | l :: ls => String c l :: ls
           end
  end.

(** The names the loop adds, line after line. *)
Definition requirementNames (content : string) : list string :=
  flat_map (fun line => match requirementName line with
                        | Some name => [name]
                        | None => []
                        end) (splitNewline content).

(** [f] holds of every character of [s]. *)
Fixpoint allChars (f : ascii -> bool) (s : string) : bool :=
  match s with
  | EmptyString => true
  | String c s' => f c && allChars f s'
  end.

(** ** extractProjectInfo (the analyzer's reading of a result)

    From [src/lib/analyzer/index.js]. [toLowerCase] is modelled on ASCII
    strings, which the names handled here are. *)

Definition lowerChar (c : ascii) : ascii :=
  let n := nat_of_ascii c in
  if (65 <=? n) && (n <=? 90) then ascii_of_nat (n + 32) else c.

Fixpoint toLowerCase (s : string) : string :=
  match s with
  | EmptyString => EmptyString
  | String c s' => String (lowerChar c) (toLowerCase s')
  end.

(** [a || b] on strings: the empty string is falsy. *)
Definition orElse (a b : string) : string := if isEmpty a then b else a.

(** [projectPath.split('/').pop()]: what follows the last slash. *)
Fixpoint lastSegment (path : string) : string :=
  match path with
  | EmptyString => EmptyString
  | String c path' =>
      if (nat_of_ascii c =? 47) then lastSegment path'
      else if existsb (fun d => nat_of_ascii d =? 47) (list_ascii_of_string path')
           then lastSegment path'
           else path
  end.

Definition frontendFrameworkNames : list string :=
  ["react"; "vue"; "angular"; "svelte"; "nextjs"; "gatsby"; "nuxt"; "astro";
   "remix"; "solidjs"].

Definition backendFrameworkNames : list string :=
  ["express"; "fastify"; "nestjs"; "koa"; "hapi"; "fastapi"; "django"; "flask";
   "rails"; "laravel"; "spring"].

Module ProjectInfo.
Record t : Type := mk {
  name : string;
  type : string;
  primaryLanguage : string;
  languages : list string;
  frontend : list string;
  backend : list string;
  database : list string;
  testing : list string;
  deployment : list string;
  tools : list string;
  cloud : list string;
  api : list string;
  styling : list string;
  monitoring : list string;
  stateManagement : list string;
  linting : list string;
  architecture : Architecture.t;
  packageManagers : list string
}.
End ProjectInfo.

Definition extractProjectInfo (techStack : Stack.t) (projectPath : string)
    : ProjectInfo.t :=
  {| ProjectInfo.name := orElse (lastSegment projectPath) "unknown";
     ProjectInfo.type := orElse (Stack.type techStack) "Application";
     ProjectInfo.primaryLanguage :=
       orElse (Stack.primary techStack)
              (orElse (hd EmptyString (Stack.languages techStack)) "unknown");
     ProjectInfo.languages := Stack.languages techStack;
     ProjectInfo.frontend :=
       filter (fun f => includes (toLowerCase f) frontendFrameworkNames)
              (Stack.frameworks techStack);
     ProjectInfo.backend :=
       filter (fun f => includes (toLowerCase f) backendFrameworkNames)
              (Stack.frameworks techStack);
     ProjectInfo.database := Stack.databases techStack;
     ProjectInfo.testing := Stack.testing techStack;
     ProjectInfo.deployment := Stack.deployment techStack;
     ProjectInfo.tools := Stack.buildTools techStack;
     (* the detector's results carry none of these six properties *)
     ProjectInfo.cloud := [];
     ProjectInfo.api := [];
     ProjectInfo.styling := [];
     ProjectInfo.monitoring := [];
     ProjectInfo.stateManagement := [];
     ProjectInfo.linting := [];
     ProjectInfo.architecture := Stack.architecture techStack;
     ProjectInfo.packageManagers := Stack.packageManagers techStack |}.

(** ** Sample projects *)

(** A project given by its files (path and content), its directories, its
    parsed package.json and its Python package names; no glob pattern
    matches beyond the listed files whose path is the pattern itself. *)
Definition mkProject (files : JsObject) (dirs : list string)
    (pkg : option Pkg.t) (py : list string) : Project :=
  {| isFile := fun path => includes path (keys files);
     isDirectory := fun path => includes path dirs;
     glob := fun pattern => Some (filter (String.eqb pattern) (keys files));
     readFile := fun path => lookup path files;
     packageJson := pkg;
     pythonPackages := py |}.

Definition nl : string := String (ascii_of_nat 10) EmptyString.

(** A compose file declaring a [redis] service, and nothing else. *)
Definition redisComposeProject : Project :=
  mkProject
    [("docker-compose.yml",
      ("services:" ++ nl ++ "  redis:" ++ nl ++ "    image: redis" ++ nl)%string)]
    [] None [].

(** package.json with [express] as only dependency. *)
Definition expressProject : Project :=
  mkProject [("package.json", "{}")] []
    (Some {| Pkg.dependencies := [("express", "^4.18.2")];
             Pkg.devDependencies := []; Pkg.scripts := []; Pkg.truthyFields := [] |})
    [].

(** package.json depending on both [fastify] and [koa]. *)
Definition fastifyKoaProject : Project :=
  mkProject [("package.json", "{}")] []
    (Some {| Pkg.dependencies := [("fastify", "^4.0.0"); ("koa", "^2.14.0")];
             Pkg.devDependencies := []; Pkg.scripts := []; Pkg.truthyFields := [] |})
    [].

(** package.json depending on both [react] and [vue]. *)
Definition reactVueProject : Project :=
  mkProject [("package.json", "{}")] []
    (Some {| Pkg.dependencies := [("react", "^18.2.0"); ("vue", "^3.3.0")];
             Pkg.devDependencies := []; Pkg.scripts := []; Pkg.truthyFields := [] |})
    [].

(** package.json whose [scripts] object holds a number. *)
Definition brokenScriptsProject : Project :=
  mkProject [("package.json", "{}")] []
    (Some {| Pkg.dependencies := []; Pkg.devDependencies := [];
             Pkg.scripts := [("build", JsOther)]; Pkg.truthyFields := [] |})
    [].

(** A project holding one TypeScript source file and nothing else. *)
Definition typescriptFilesProject : Project :=
  {| isFile := fun path => String.eqb path "index.ts";
     isDirectory := fun _ => false;
     glob := fun pattern =>
               Some (if String.eqb pattern "*.ts" then ["index.ts"] else []);
     readFile := fun path =>
                   if String.eqb path "index.ts" then Some "export {};" else None;
     packageJson := None;
     pythonPackages := [] |}.

(** A Flask application in one source file. *)
Definition flaskSourceProject : Project :=
  mkProject
    [("app.py",
      ("from flask import Flask" ++ nl ++ "app = Flask(__name__)" ++ nl)%string)]
    [] None [].

(** A MongoDB connection string in [.env], none in [.env.example]. *)
Definition envFilesProject : Project :=
  mkProject
    [(".env", "MONGO_URI=mongodb://localhost:27017/app");
     (".env.example", "PORT=3000")]
    [] None [].

(** The three bytes of a byte-order mark, U+FEFF. *)
Definition byteOrderMark : string :=
  String (ascii_of_nat 239) (String (ascii_of_nat 187) (String (ascii_of_nat 191)
    EmptyString)).

(** The two bytes of a no-break space, U+00A0. *)
Definition noBreakSpace : string :=
  String (ascii_of_nat 194) (String (ascii_of_nat 160) EmptyString).

(** A compose file of four services, saved with a byte-order mark. *)
Definition markedComposeFile : string :=
  (byteOrderMark ++ "services:" ++ nl ++ "  web:" ++ nl ++ "    image: nginx" ++ nl
   ++ "  api:" ++ nl ++ "  db:" ++ nl)%string.


(** ** Sample evidence bags *)

(** What the framework loop gathers for flask in [flaskSourceProject]. *)
Definition flaskEvidence : Evidence.t :=
  {| Evidence.dependencies := []; Evidence.devDependencies := [];
     Evidence.relatedPackages := [];
     Evidence.files := ["app.py"];
     Evidence.configs := []; Evidence.indicators := [];
     Evidence.directories := []; Evidence.packageIndicators := [];
     Evidence.scripts := [];
     Evidence.codePatterns := ["Flask(__name__)"; "app = Flask"];
     Evidence.imports := ["from flask"];
     Evidence.patterns := []; Evidence.connectionStrings := [];
     Evidence.dockerServices := []; Evidence.envVars := [];
     Evidence.packageJsonConfig := false;
     Evidence.isBackendOnly := false; Evidence.isFrontendOnly := false |}.


(** An evidence bag with [react] among the dependencies, any gate unset. *)
Definition reactEvidence : Evidence.t :=
  Evidence.mk ["react"] [] [] [] [] [] [] [] [] [] [] [] [] [] [] false false false.

(** An evidence bag with [react] among the dependencies, backend-only asserted. *)
Definition reactBackendOnlyEvidence : Evidence.t :=
  Evidence.mk ["react"] [] [] [] [] [] [] [] [] [] [] [] [] [] [] false true false.



(** Accepted names in which vue is listed before react. *)
Definition vueReactResults : Results.t :=
  {| Results.frontend := ["vue"; "react"]; Results.backend := [];
     Results.databases := []; Results.testing := []; Results.buildTools := [];
     Results.deployment := []; Results.patterns := ["vue"; "react"];
     Results.confidence := [] |}.

(** ** Vocabulary of the properties *)

(** One table entry applied to one list of names. *)
Definition applyExclusion (entry : string * list string) (l : list string)
    : list string :=
  if includes (fst entry) l
  then filter (fun t => negb (includes t (snd entry))) l
  else l.

Definition applyTable (table : list (string * list string)) (l : list string)
    : list string :=
  fold_left (fun acc entry => applyExclusion entry acc) table l.

(** [n] names a detector of [detectors] whose evidence, as [gather] collects
    it, is scored at least 0.7. *)
Definition acceptedFrom (detectors : list Config.t)
    (gather : Config.t -> result Evidence.t) (n : string) : Prop :=
  exists config evidence,
    In config detectors /\ Config.name config = n
    /\ gather config = Ok evidence /\ 70 <= Config.confidence config evidence.

Definition allDetectors : list Config.t :=
  languageDetectors ++ frontendDetectors ++ backendDetectors ++ databaseDetectors
  ++ testingDetectors ++ buildToolDetectors ++ deploymentDetectors.

(** The canonical dependency of a detector: the manifest entry its scoring
    function tests first and scores 1.0. The language detectors, unittest,
    poetry, uv, setuptools and the deployment detectors score no dependency
    and have none. *)
Definition canonicalDependencies : JsObject :=
  [ ("react", "react"); ("vue", "vue"); ("angular", "@angular/core");
    ("nextjs", "next"); ("express", "express"); ("fastify", "fastify");
    ("koa", "koa"); ("nestjs", "@nestjs/core"); ("fastapi", "fastapi");
    ("django", "django"); ("flask", "flask"); ("mongodb", "mongoose");
    ("postgresql", "pg"); ("mysql", "mysql"); ("redis", "ioredis");
    ("jest", "jest"); ("mocha", "mocha"); ("cypress", "cypress");
    ("playwright", "@playwright/test"); ("pytest", "pytest");
    ("webpack", "webpack"); ("vite", "vite") ].

Definition canonicalDependency (config : Config.t) : option string :=
  lookup (Config.name config) canonicalDependencies.

(** The evidence bag the language loop gathers when nothing throws: the
    matched files and the existing configuration files, nothing else. *)
Definition languageBag (p : Project) (config : Config.t) : Evidence.t :=
  {| Evidence.dependencies := []; Evidence.devDependencies := [];
     Evidence.relatedPackages := [];
     Evidence.files :=
       flat_map (fun pattern => findFiles p pattern 100) (Config.patterns config);
     Evidence.configs := filter (fileExists p) (Config.configs config);
     Evidence.indicators := [];
     Evidence.directories := []; Evidence.packageIndicators := [];
     Evidence.scripts := []; Evidence.codePatterns := []; Evidence.imports := [];
     Evidence.patterns := []; Evidence.connectionStrings := [];
     Evidence.dockerServices := []; Evidence.envVars := [];
     Evidence.packageJsonConfig := false;
     Evidence.isBackendOnly := false; Evidence.isFrontendOnly := false |}.


(** What follows the first character of [s], when that character is white
    space. *)
Definition afterWhiteSpace (s : string) : option string :=
  match s with
  | EmptyString => None
  | String a t =>
      if whiteSpace1 a then Some t
      else match t with
           | EmptyString => None
           | String b u =>
               if whiteSpace2 a b then Some u
               else match u with
                    | EmptyString => None
                    | String c v => if whiteSpace3 a b c then Some v else None
                    end
           end
  end.

(** No character of [s] is a slash. *)
Definition noSlash (s : string) : bool :=
  allChars (fun c => negb (nat_of_ascii c =? 47)) s.

(** * Properties *)

(** ** Helper lemmas on the JavaScript helpers *)

Lemma includes_In (x : string) (l : list string) : includes x l = true <-> In x l.
Proof.
  unfold includes. rewrite existsb_exists. split.
  - intros [y [Hy Heq]]. apply String.eqb_eq in Heq. now subst.
  - intros H. exists x. split; [assumption | apply String.eqb_refl].
Qed.

Lemma includes_false_not_In (x : string) (l : list string) :
  includes x l = false <-> ~ In x l.
Proof.
  rewrite <- includes_In. destruct (includes x l); split; congruence.
Qed.

Lemma bind_Ok {A B} (c : result A) (k : A -> result B) (b : B) :
  bind c k = Ok b -> exists a, c = Ok a /\ k a = Ok b.
Proof.
  destruct c as [a | m]; simpl; intros H; [now exists a | discriminate].
Qed.

Lemma Ok_inj {A} (a b : A) : Ok a = Ok b -> a = b.
Proof. intros H. now injection H. Qed.

Lemma mapM_In {A B} (f : A -> result B) (l : list A) (ys : list B) :
  mapM f l = Ok ys -> forall y, In y ys -> exists x, In x l /\ f x = Ok y.
Proof.
  revert ys. induction l as [| x l IH]; simpl; intros ys H y Hy.
  - injection H as <-. contradiction.
  - apply bind_Ok in H as [y0 [Hy0 H]].
    apply bind_Ok in H as [ys0 [Hys0 H]].
    injection H as <-. destruct Hy as [<- | Hy].
    + exists x. now split; [left |].
    + destruct (IH ys0 Hys0 y Hy) as [x' [Hx' Hf]].
      exists x'. now split; [right |].
Qed.

(** ** Ranking keeps exactly the accepted detections *)

Lemma insertDetection_In (d x : Detection) (l : list Detection) :
  In x (insertDetection d l) <-> x = d \/ In x l.
Proof.
  induction l as [| d' l IH]; simpl.
  - intuition congruence.
  - destruct (snd d' <=? snd d); simpl; rewrite ?IH; intuition congruence.
Qed.

Lemma sortByConfidence_In (x : Detection) (l : list Detection) :
  In x (sortByConfidence l) <-> In x l.
Proof.
  induction l as [| d l IH]; simpl; [tauto |].
  rewrite insertDetection_In, IH. intuition congruence.
Qed.

Lemma keep_In (n : string) (scored : list Detection) :
  In n (keep scored) <-> exists c, In (n, c) scored /\ 70 <= c.
Proof.
  unfold keep. rewrite in_map_iff. split.
  - intros [[n' c] [Hn Hin]]. simpl in Hn. subst n'.
    apply filter_In in Hin as [Hin Hacc]. exists c. split; [assumption |].
    simpl in Hacc. unfold accepted in Hacc. now apply Nat.leb_le.
  - intros [c [Hin Hc]]. exists (n, c). split; [reflexivity |].
    apply filter_In. split; [assumption |]. simpl. unfold accepted.
    now apply Nat.leb_le.
Qed.

Lemma rank_In (n : string) (scored : list Detection) :
  In n (rank scored) <-> exists c, In (n, c) scored /\ 70 <= c.
Proof.
  rewrite <- keep_In. unfold rank, keep. rewrite !in_map_iff.
  split; intros [d [Hd Hin]]; exists d; (split; [assumption |]);
    now apply sortByConfidence_In.
Qed.

(** ** What the resolver does to one category *)

Lemma exclude_same (entry : string * list string) (r : Results.t) (c : Category) :
  getCategory c (exclude entry r c) = applyExclusion entry (getCategory c r).
Proof.
  destruct entry as [tech exclusions], r as [fe be db te bt de pa co].
  unfold applyExclusion, exclude.
  destruct c; cbn [getCategory fst snd Results.frontend Results.backend
                   Results.testing Results.buildTools];
    match goal with |- context [includes tech ?l] => destruct (includes tech l) end;
    reflexivity.
Qed.

Lemma exclude_other (entry : string * list string) (r : Results.t) (c c' : Category) :
  c <> c' -> getCategory c' (exclude entry r c) = getCategory c' r.
Proof.
  intros Hne. destruct entry as [tech exclusions], r as [fe be db te bt de pa co].
  unfold exclude.
  destruct c; cbn [getCategory Results.frontend Results.backend
                   Results.testing Results.buildTools];
    match goal with |- context [includes tech ?l] => destruct (includes tech l) end;
    destruct c'; try reflexivity; contradiction.
Qed.

Lemma exclude_untouched (entry : string * list string) (r : Results.t) (c : Category) :
  Results.databases (exclude entry r c) = Results.databases r
  /\ Results.deployment (exclude entry r c) = Results.deployment r
  /\ Results.patterns (exclude entry r c) = Results.patterns r
  /\ Results.confidence (exclude entry r c) = Results.confidence r.
Proof.
  destruct entry as [tech exclusions], r as [fe be db te bt de pa co].
  unfold exclude.
  destruct c; cbn [getCategory Results.frontend Results.backend
                   Results.testing Results.buildTools];
    match goal with |- context [includes tech ?l] => destruct (includes tech l) end;
    repeat split; reflexivity.
Qed.

Lemma resolveRound_category (entry : string * list string) (r : Results.t)
    (c : Category) :
  getCategory c (resolveRound r entry) = applyExclusion entry (getCategory c r).
Proof.
  unfold resolveRound. cbn [fold_left].
  destruct c; rewrite ?exclude_other by discriminate; rewrite exclude_same;
    rewrite ?exclude_other by discriminate; reflexivity.
Qed.

Lemma resolveRound_untouched (entry : string * list string) (r : Results.t) :
  Results.databases (resolveRound r entry) = Results.databases r
  /\ Results.deployment (resolveRound r entry) = Results.deployment r
  /\ Results.patterns (resolveRound r entry) = Results.patterns r
  /\ Results.confidence (resolveRound r entry) = Results.confidence r.
Proof.
  unfold resolveRound. cbn [fold_left].
  repeat match goal with
         | |- context [exclude entry ?x ?c] =>
             destruct (exclude_untouched entry x c) as (-> & -> & -> & ->)
         end.
  repeat split; reflexivity.
Qed.

Lemma resolve_table_category (table : list (string * list string))
    (r : Results.t) (c : Category) :
  getCategory c (fold_left resolveRound table r) = applyTable table (getCategory c r).
Proof.
  revert r. induction table as [| entry table IH]; intros r; [reflexivity |].
  cbn [fold_left applyTable]. rewrite IH, resolveRound_category. reflexivity.
Qed.

Lemma resolveConflicts_category (r : Results.t) (c : Category) :
  getCategory c (resolveConflicts r) = applyTable mutualExclusions (getCategory c r).
Proof. apply resolve_table_category. Qed.

Lemma resolve_table_untouched (table : list (string * list string)) (r : Results.t) :
  Results.databases (fold_left resolveRound table r) = Results.databases r
  /\ Results.deployment (fold_left resolveRound table r) = Results.deployment r
  /\ Results.patterns (fold_left resolveRound table r) = Results.patterns r
  /\ Results.confidence (fold_left resolveRound table r) = Results.confidence r.
Proof.
  revert r. induction table as [| entry table IH]; intros r.
  - repeat split; reflexivity.
  - cbn [fold_left].
    destruct (IH (resolveRound r entry)) as (-> & -> & -> & ->).
    apply resolveRound_untouched.
Qed.

Lemma resolveConflicts_untouched (r : Results.t) :
  Results.databases (resolveConflicts r) = Results.databases r
  /\ Results.deployment (resolveConflicts r) = Results.deployment r
  /\ Results.patterns (resolveConflicts r) = Results.patterns r
  /\ Results.confidence (resolveConflicts r) = Results.confidence r.
Proof. apply resolve_table_untouched. Qed.

Lemma applyExclusion_subset (entry : string * list string) (l : list string) (x : string) :
  In x (applyExclusion entry l) -> In x l.
Proof.
  unfold applyExclusion. destruct (includes (fst entry) l); [| tauto].
  intros H. now apply filter_In in H.
Qed.

Lemma applyTable_subset (table : list (string * list string)) (l : list string)
    (x : string) :
  In x (applyTable table l) -> In x l.
Proof.
  revert l. induction table as [| entry table IH]; intros l; [tauto |].
  cbn [applyTable fold_left]. intros H. apply IH in H.
  now apply applyExclusion_subset in H.
Qed.

Lemma resolveConflicts_subset (r : Results.t) (c : Category) (x : string) :
  In x (getCategory c (resolveConflicts r)) -> In x (getCategory c r).
Proof. rewrite resolveConflicts_category. apply applyTable_subset. Qed.

(** Once an entry of the table has been applied, its key and any of its
    exclusions are never both left, whatever is applied afterwards. *)
Lemma applyTable_excludes (table : list (string * list string)) (l : list string)
    (tech other : string) (exclusions : list string) :
  In (tech, exclusions) table -> In other exclusions ->
  ~ (In tech (applyTable table l) /\ In other (applyTable table l)).
Proof.
  revert l. induction table as [| entry table IH]; intros l Hin Hother; [contradiction |].
  cbn [applyTable fold_left]. destruct Hin as [-> | Hin]; [| now apply IH].
  intros [Htech Hoth].
  apply applyTable_subset in Htech. apply applyTable_subset in Hoth.
  unfold applyExclusion in Htech, Hoth. cbn [fst snd] in Htech, Hoth.
  destruct (includes tech l) eqn:E.
  - apply filter_In in Hoth as [_ Hoth].
    apply negb_true_iff, includes_false_not_In in Hoth. contradiction.
  - apply includes_false_not_In in E. contradiction.
Qed.

(** The pairs of the resolver's own table never both survive in a category. *)
Lemma table_pairs_resolved (r : Results.t) (c : Category)
    (tech other : string) (exclusions : list string) :
  In (tech, exclusions) mutualExclusions -> In other exclusions ->
  ~ (In tech (getCategory c (resolveConflicts r))
     /\ In other (getCategory c (resolveConflicts r))).
Proof.
  intros Hin Hother. rewrite resolveConflicts_category.
  now apply applyTable_excludes with (exclusions := exclusions).
Qed.

(** ** The gates of the project type *)

(** C9: for every project structure and manifest, hence for every invocation
    of [detect], the derived gates [isBackendOnly] and [isFrontendOnly] are
    never both true. *)
Theorem gates_never_both_true (p : Project) (structure : Structure.t)
    (packageData : option Pkg.t) :
  let projectType := determineProjectType p structure packageData in
  ProjectType.isBackendOnly projectType && ProjectType.isFrontendOnly projectType
  = false.
Proof.
  cbv zeta. unfold determineProjectType.
  set (indicators := computeIndicators p structure packageData).
  destruct (if 3 <? Indicators.cli indicators then _ else _) as [type primary].
  cbn [ProjectType.isBackendOnly ProjectType.isFrontendOnly].
  destruct (Indicators.backendOnly indicators) as [| b];
    destruct (Indicators.frontendOnly indicators) as [| f]; reflexivity.
Qed.

(** ** The exception boundary of detect *)

Lemma detectBody_Ok (p : Project) (r : Stack.t) :
  detectBody p = Ok r ->
  exists languages detectionResults,
    detectLanguages p = Ok languages
    /\ performTargetedDetection p
         (determineProjectType p (analyzeProjectStructure p) (readPackageJson p))
         (readPackageJson p) (analyzeProjectStructure p) = Ok detectionResults
    /\ Stack.languages r = languages
    /\ Stack.type r
       = ProjectType.type
           (determineProjectType p (analyzeProjectStructure p) (readPackageJson p))
    /\ Stack.primary r = hd EmptyString languages
    /\ Stack.frameworks r
       = Results.frontend (resolveConflicts detectionResults)
         ++ Results.backend (resolveConflicts detectionResults)
    /\ Stack.databases r = Results.databases (resolveConflicts detectionResults)
    /\ Stack.testing r = Results.testing (resolveConflicts detectionResults)
    /\ Stack.buildTools r = Results.buildTools (resolveConflicts detectionResults)
    /\ Stack.deployment r = Results.deployment (resolveConflicts detectionResults)
    /\ Stack.patterns r = Results.patterns (resolveConflicts detectionResults)
    /\ Stack.architecture r = detectArchitecture p.
Proof.
  unfold detectBody. intros H.
  apply bind_Ok in H as [languages [Hl H]].
  apply bind_Ok in H as [detectionResults [Hd H]].
  apply Ok_inj in H. subst r. exists languages, detectionResults.
  cbn [Stack.languages Stack.type Stack.primary Stack.frameworks Stack.databases
       Stack.testing Stack.buildTools Stack.deployment Stack.patterns
       Stack.architecture Structure.architecture analyzeProjectStructure].
  repeat split; assumption.
Qed.

(** C8: [detect] is a total function of the project, so nothing is raised
    to the caller; whenever the body of its [try] block throws, whatever the
    error, it returns the empty result, whose list fields are all empty and
    whose [type] is "unknown". *)
Theorem detect_failure_yields_empty_result (p : Project) (msg : string) :
  detectBody p = Threw msg ->
  detect p = getEmptyResult
  /\ Stack.languages (detect p) = []
  /\ Stack.frameworks (detect p) = []
  /\ Stack.databases (detect p) = []
  /\ Stack.testing (detect p) = []
  /\ Stack.buildTools (detect p) = []
  /\ Stack.deployment (detect p) = []
  /\ Stack.patterns (detect p) = []
  /\ Architecture.patterns (Stack.architecture (detect p)) = []
  /\ Stack.packageManagers (detect p) = []
  /\ Stack.type (detect p) = "unknown".
Proof.
  intros H. unfold detect. rewrite H. repeat split; reflexivity.
Qed.

Lemma detect_failure_yields_empty_result_witness :
  detectBody brokenScriptsProject = Threw "TypeError: s.includes is not a function"
  /\ detect brokenScriptsProject = getEmptyResult
  /\ Stack.type (detect brokenScriptsProject) = "unknown".
Proof.
  assert (Hthrows : detectBody brokenScriptsProject
                    = Threw "TypeError: s.includes is not a function")
    by (vm_compute; reflexivity).
  split; [exact Hthrows |].
  pose proof (detect_failure_yields_empty_result brokenScriptsProject _ Hthrows) as H.
  split; apply H.
Defined.

(** C10: the empty result carries the architecture type "unknown", while
    every result the [try] block computes carries "standard" or "monorepo";
    the failure value is therefore outside what the regular path produces. *)
Theorem failure_architecture_outside_enum (p : Project) (r : Stack.t) :
  detectBody p = Ok r ->
  Architecture.type (Stack.architecture getEmptyResult) = "unknown"
  /\ (Architecture.type (Stack.architecture r) = "standard"
      \/ Architecture.type (Stack.architecture r) = "monorepo")
  /\ Architecture.type (Stack.architecture r)
     <> Architecture.type (Stack.architecture getEmptyResult).
Proof.
  intros H. apply detectBody_Ok in H as (ls & dr & _ & _ & H).
  destruct H as (_ & _ & _ & _ & _ & _ & _ & _ & _ & ->).
  unfold detectArchitecture. cbn [Architecture.type Stack.architecture getEmptyResult].
  destruct (fileExists p "lerna.json" || fileExists p "turbo.json"
            || fileExists p "rush.json");
    (split; [reflexivity |]); split; auto; discriminate.
Qed.

Lemma failure_architecture_outside_enum_witness :
  detectBody expressProject = Ok (detect expressProject)
  /\ Architecture.type (Stack.architecture (detect expressProject)) = "standard"
  /\ Architecture.type (Stack.architecture (detect expressProject))
     <> Architecture.type (Stack.architecture getEmptyResult).
Proof.
  assert (Hreturns : detectBody expressProject = Ok (detect expressProject))
    by (vm_compute; reflexivity).
  split; [exact Hreturns |].
  split; [vm_compute; reflexivity |].
  apply (failure_architecture_outside_enum expressProject _ Hreturns).
Defined.

(** ** Every detection loop keeps what its detectors score at 0.7 or more *)

Lemma acceptedFrom_app_l (ds ds' : list Config.t) gather n :
  acceptedFrom ds gather n -> acceptedFrom (ds ++ ds') gather n.
Proof.
  intros (config & evidence & Hin & H). exists config, evidence.
  split; [apply in_or_app; now left | exact H].
Qed.

Lemma acceptedFrom_app_r (ds ds' : list Config.t) gather n :
  acceptedFrom ds' gather n -> acceptedFrom (ds ++ ds') gather n.
Proof.
  intros (config & evidence & Hin & H). exists config, evidence.
  split; [apply in_or_app; now right | exact H].
Qed.

(** The loops whose evidence gathering may throw. *)
Lemma ranked_loop_accepted (detectors : list Config.t)
    (gather : Config.t -> result Evidence.t) (names : list string) :
  (scored <- mapM (fun config => evidence <- gather config ;;
                                 Ok (score config evidence)) detectors ;;
   Ok (rank scored)) = Ok names ->
  forall n, In n names -> acceptedFrom detectors gather n.
Proof.
  intros H n Hn. apply bind_Ok in H as [scored [Hscored H]].
  apply Ok_inj in H. subst names.
  apply rank_In in Hn as [c [Hin Hc]].
  destruct (mapM_In _ _ _ Hscored _ Hin) as [config [Hconfig Hgather]].
  apply bind_Ok in Hgather as [evidence [Hev Hscore]].
  apply Ok_inj in Hscore. unfold score in Hscore.
  exists config, evidence. repeat split; try assumption; congruence.
Qed.

(** The loops whose evidence gathering is total. *)
Lemma kept_loop_accepted (detectors : list Config.t)
    (gather : Config.t -> Evidence.t) (n : string) :
  In n (keep (map (fun config => score config (gather config)) detectors)) ->
  acceptedFrom detectors (fun config => Ok (gather config)) n.
Proof.
  intros Hn. apply keep_In in Hn as [c [Hin Hc]].
  apply in_map_iff in Hin as [config [Hscore Hconfig]].
  unfold score in Hscore. exists config, (gather config).
  repeat split; try assumption; congruence.
Qed.

Lemma detectLanguages_accepted (p : Project) (languages : list string) :
  detectLanguages p = Ok languages ->
  forall n, In n languages -> acceptedFrom languageDetectors (languageEvidence p) n.
Proof. apply ranked_loop_accepted. Qed.

Lemma detectFrameworks_accepted (p : Project) (detectors : list Config.t)
    (packageData : option Pkg.t) (projectType : ProjectType.t) (names : list string) :
  detectFrameworks p detectors packageData projectType = Ok names ->
  forall n, In n names ->
    acceptedFrom detectors
      (frameworkEvidence p packageData projectType (readPythonDependencies p)) n.
Proof. apply ranked_loop_accepted. Qed.

(** ** The redis detector and the docker-service signal *)

(** The redis scoring function looks at dependencies only. *)
Lemma redis_ignores_docker_services (e : Evidence.t) :
  Evidence.dependencies e = [] -> Config.confidence redis e = 0.
Proof. intros H. cbn. rewrite H. reflexivity. Qed.

(** Without a client package among the gathered dependencies, redis is not
    among the detected databases, whatever the compose files declare. *)
Lemma redis_undetected_without_client (p : Project) (packageData : option Pkg.t) :
  Evidence.dependencies
    (databaseEvidence p packageData (readPythonDependencies p) redis) = [] ->
  ~ In "redis" (detectDatabases p packageData).
Proof.
  intros Hdeps Hin. unfold detectDatabases in Hin.
  apply kept_loop_accepted in Hin as (config & evidence & Hconfig & Hname & Hev & Hc).
  apply Ok_inj in Hev. subst evidence.
  unfold databaseDetectors in Hconfig. cbn [In] in Hconfig.
  destruct Hconfig as [<- | [<- | [<- | [<- | []]]]];
    try (vm_compute in Hname; discriminate Hname).
  rewrite (redis_ignores_docker_services _ Hdeps) in Hc. lia.
Qed.

(** C1, evaluated on a compose file declaring a [redis] service with no
    manifest at all: the docker-service signal is gathered, the scoring
    function of redis returns 0 all the same, and the result lists no
    database; the sibling detector mongodb scores the same signal 0.8. *)
Theorem redis_docker_service_not_detected :
  let evidence :=
    databaseEvidence redisComposeProject (readPackageJson redisComposeProject)
      (readPythonDependencies redisComposeProject) redis in
  Evidence.dockerServices evidence = ["redis"]
  /\ Evidence.dependencies evidence = []
  /\ Config.confidence redis evidence = 0
  /\ Stack.databases (detect redisComposeProject) = []
  /\ Config.confidence mongodb evidence = 80.
Proof. vm_compute. repeat split. Qed.

(** ** Mutual exclusion *)

(** C3, evaluated on a manifest depending on both fastify and koa: each
    declares the other in its [exclusiveWith], neither is a key of the
    resolver's table, and both are in the final [frameworks]. *)
Theorem exclusive_backend_pair_survives :
  In "koa" (Config.exclusiveWith fastify)
  /\ In "fastify" (Config.exclusiveWith koa)
  /\ ~ In "fastify" (map fst mutualExclusions)
  /\ ~ In "koa" (map fst mutualExclusions)
  /\ Stack.frameworks (detect fastifyKoaProject) = ["fastify"; "koa"].
Proof.
  split; [right; left; reflexivity |].
  split; [right; left; reflexivity |].
  split; [rewrite <- includes_false_not_In; vm_compute; reflexivity |].
  split; [rewrite <- includes_false_not_In; vm_compute; reflexivity |].
  vm_compute. reflexivity.
Qed.

(** ** The patterns list *)

Lemma performTargetedDetection_Ok (p : Project) (projectType : ProjectType.t)
    (packageData : option Pkg.t) (structure : Structure.t) (r : Results.t) :
  performTargetedDetection p projectType packageData structure = Ok r ->
  (if negb (ProjectType.isBackendOnly projectType)
   then detectFrameworks p frontendDetectors packageData projectType
   else Ok []) = Ok (Results.frontend r)
  /\ (if negb (ProjectType.isFrontendOnly projectType)
      then detectFrameworks p backendDetectors packageData projectType
      else Ok []) = Ok (Results.backend r)
  /\ Results.databases r = detectDatabases p packageData
  /\ Results.testing r = detectTesting p packageData
  /\ Results.buildTools r = detectBuildTools p packageData
  /\ Results.deployment r = detectDeployment p
  /\ Results.patterns r
     = Results.frontend r ++ Results.backend r ++ Results.databases r
       ++ Results.testing r ++ Results.buildTools r ++ Results.deployment r.
Proof.
  unfold performTargetedDetection. intros H.
  apply bind_Ok in H as [frontend [Hf H]].
  apply bind_Ok in H as [backend [Hb H]].
  apply Ok_inj in H. subst r.
  cbn [Results.frontend Results.backend Results.databases Results.testing
       Results.buildTools Results.deployment Results.patterns].
  repeat split; assumption.
Qed.

(** [patterns] is what the category loops accepted, before the resolver ran. *)
Lemma patterns_before_resolution (p : Project) (r : Stack.t) :
  detectBody p = Ok r ->
  exists detectionResults,
    performTargetedDetection p
      (determineProjectType p (analyzeProjectStructure p) (readPackageJson p))
      (readPackageJson p) (analyzeProjectStructure p) = Ok detectionResults
    /\ Stack.patterns r
       = Results.frontend detectionResults ++ Results.backend detectionResults
         ++ Results.databases detectionResults ++ Results.testing detectionResults
         ++ Results.buildTools detectionResults ++ Results.deployment detectionResults.
Proof.
  intros H. apply detectBody_Ok in H as (ls & dr & _ & Hdr & H).
  destruct H as (_ & _ & _ & _ & _ & _ & _ & _ & Hpat & _).
  exists dr. split; [exact Hdr |].
  pose proof (performTargetedDetection_Ok _ _ _ _ _ Hdr) as (_ & _ & _ & _ & _ & _ & Hp).
  destruct (resolveConflicts_untouched dr) as (_ & _ & E & _).
  rewrite Hpat, E. exact Hp.
Qed.

(** C6, evaluated on a manifest depending on both react and vue: the
    resolver removes vue from the frameworks, and [patterns], assembled
    before it ran, still lists vue; [patterns] is not the union of the final
    lists. *)
Theorem patterns_keep_removed_names :
  Stack.frameworks (detect reactVueProject) = ["react"]
  /\ Stack.databases (detect reactVueProject) = []
  /\ Stack.testing (detect reactVueProject) = []
  /\ Stack.buildTools (detect reactVueProject) = []
  /\ Stack.deployment (detect reactVueProject) = []
  /\ Stack.patterns (detect reactVueProject) = ["react"; "vue"]
  /\ ~ In "vue" (Stack.frameworks (detect reactVueProject)).
Proof.
  vm_compute. repeat split. intros [H | []]. discriminate.
Qed.

(** ** Gating by project type *)







(** ** Canonical dependencies *)

Lemma existsb_In {A} (f : A -> bool) (x : A) (l : list A) :
  In x l -> f x = true -> existsb f l = true.
Proof. intros Hin Hf. apply existsb_exists. now exists x. Qed.

Ltac score_canonical Hdep :=
  cbn;
  first
    [ rewrite (proj2 (includes_In _ _) Hdep); reflexivity
    | rewrite (existsb_In _ _ _ Hdep eq_refl); reflexivity ].

(** C5, as the code has it: for every registered detector, when its
    canonical dependency is among the dependencies of the evidence bag the
    scoring function returns exactly 1.0, for react provided the bag does
    not assert backend-only. *)
Theorem canonical_dependency_scores_one (config : Config.t) (dep : string)
    (e : Evidence.t) :
  In config allDetectors ->
  canonicalDependency config = Some dep ->
  In dep (Evidence.dependencies e) ->
  (Config.name config = "react" -> Evidence.isBackendOnly e = false) ->
  Config.confidence config e = 100.
Proof.
  intros Hin Hcanon Hdep Hreact.
  unfold allDetectors, languageDetectors, frontendDetectors, backendDetectors,
    databaseDetectors, testingDetectors, buildToolDetectors, deploymentDetectors in Hin.
  cbn [app In] in Hin.
  repeat match type of Hin with
         | _ \/ _ => destruct Hin as [Hin | Hin]
         end;
    try contradiction; subst config;
    vm_compute in Hcanon; try discriminate Hcanon;
    apply (f_equal (fun o => match o with Some d => d | None => EmptyString end)) in Hcanon;
    cbn beta iota in Hcanon; subst dep;
    try (score_canonical Hdep).
  cbn. rewrite (Hreact eq_refl). cbn.
  rewrite (proj2 (includes_In _ _) Hdep). reflexivity.
Qed.

Lemma canonical_dependency_scores_one_witness :
  In react allDetectors
  /\ canonicalDependency react = Some "react"
  /\ Config.confidence react reactEvidence = 100.
Proof.
  assert (Hin : In react allDetectors) by (vm_compute; tauto).
  split; [exact Hin |]. split; [vm_compute; reflexivity |].
  apply (canonical_dependency_scores_one react "react" reactEvidence Hin).
  - vm_compute; reflexivity.
  - simpl. left. reflexivity.
  - intros _. reflexivity.
Defined.

(** C5, as stated, fails: with its canonical dependency in the evidence and
    backend-only asserted, the scoring function of react returns 0. *)
Lemma canonical_dependency_scores_one_counterexample :
  In react allDetectors
  /\ canonicalDependency react = Some "react"
  /\ In "react" (Evidence.dependencies reactBackendOnlyEvidence)
  /\ Config.confidence react reactBackendOnlyEvidence = 0
  /\ Config.confidence react reactBackendOnlyEvidence <> 100.
Proof.
  split; [vm_compute; tauto |]. split; [vm_compute; reflexivity |].
  split; [left; reflexivity |]. split; [vm_compute; reflexivity |].
  vm_compute. discriminate.
Qed.

(** * Further properties of the detector *)

(** ** The resolver *)

Lemma applyExclusion_In (entry : string * list string) (l : list string) (x : string) :
  In x (applyExclusion entry l)
  <-> In x l /\ (In (fst entry) l -> ~ In x (snd entry)).
Proof.
  unfold applyExclusion. destruct (includes (fst entry) l) eqn:E.
  - apply includes_In in E. rewrite filter_In, negb_true_iff, includes_false_not_In.
    tauto.
  - apply includes_false_not_In in E. tauto.
Qed.

Lemma filter_all {A} (f : A -> bool) (l : list A) :
  (forall x, In x l -> f x = true) -> filter f l = l.
Proof.
  induction l as [| a l IH]; intros H; [reflexivity |].
  cbn [filter]. rewrite (H a (or_introl eq_refl)). f_equal.
  apply IH. intros x Hx. apply H. now right.
Qed.

Lemma applyExclusion_noop (entry : string * list string) (l : list string) :
  (forall other, In other (snd entry) -> ~ (In (fst entry) l /\ In other l)) ->
  applyExclusion entry l = l.
Proof.
  intros H. unfold applyExclusion. destruct (includes (fst entry) l) eqn:E; [| reflexivity].
  apply includes_In in E. apply filter_all. intros x Hx.
  apply negb_true_iff, includes_false_not_In. intros Hex. exact (H x Hex (conj E Hx)).
Qed.

Lemma applyTable_noop (table : list (string * list string)) (l : list string) :
  (forall tech exclusions other,
     In (tech, exclusions) table -> In other exclusions ->
     ~ (In tech l /\ In other l)) ->
  applyTable table l = l.
Proof.
  induction table as [| entry table IH]; intros H; [reflexivity |].
  cbn [applyTable fold_left]. rewrite applyExclusion_noop.
  - apply IH. intros tech exclusions other Hin. apply H. now right.
  - intros other Hother. destruct entry as [tech exclusions].
    apply (H tech exclusions other); [now left | exact Hother].
Qed.

Lemma applyTable_cons (entry : string * list string)
    (table : list (string * list string)) (l : list string) :
  applyTable (entry :: table) l = applyTable table (applyExclusion entry l).
Proof. reflexivity. Qed.

Lemma applyTable_idempotent (table : list (string * list string)) (l : list string) :
  applyTable table (applyTable table l) = applyTable table l.
Proof.
  apply applyTable_noop. intros tech exclusions other Hin Hother.
  exact (applyTable_excludes table l tech other exclusions Hin Hother).
Qed.

Lemma Results_ext (r1 r2 : Results.t) :
  (forall c, getCategory c r1 = getCategory c r2) ->
  Results.databases r1 = Results.databases r2 ->
  Results.deployment r1 = Results.deployment r2 ->
  Results.patterns r1 = Results.patterns r2 ->
  Results.confidence r1 = Results.confidence r2 ->
  r1 = r2.
Proof.
  destruct r1, r2. intros Hc Hdb Hde Hpa Hco.
  pose proof (Hc Frontend) as H1. pose proof (Hc Backend) as H2.
  pose proof (Hc Testing) as H3. pose proof (Hc BuildTools) as H4.
  cbn in *. congruence.
Qed.

Lemma getCategory_frontend (r : Results.t) :
  getCategory Frontend r = Results.frontend r.
Proof. reflexivity. Qed.

Lemma getCategory_backend (r : Results.t) :
  getCategory Backend r = Results.backend r.
Proof. reflexivity. Qed.

Lemma resolveConflicts_frontend (r : Results.t) :
  Results.frontend (resolveConflicts r)
  = applyTable mutualExclusions (Results.frontend r).
Proof. rewrite <- !getCategory_frontend. apply resolveConflicts_category. Qed.

Lemma resolveConflicts_backend (r : Results.t) :
  Results.backend (resolveConflicts r)
  = applyTable mutualExclusions (Results.backend r).
Proof. rewrite <- !getCategory_backend. apply resolveConflicts_category. Qed.

(** A name the table never lists as excluded by a key still present
    survives the whole table. *)
Lemma applyTable_survives (table : list (string * list string)) (l : list string)
    (x : string) :
  In x l ->
  (forall tech exclusions, In (tech, exclusions) table -> In x exclusions -> ~ In tech l) ->
  In x (applyTable table l).
Proof.
  revert l. induction table as [| entry table IH]; intros l Hx H; [exact Hx |].
  cbn [applyTable fold_left]. apply IH.
  - apply applyExclusion_In. split; [exact Hx |].
    intros Hkey Hex. destruct entry as [tech exclusions].
    exact (H tech exclusions (or_introl eq_refl) Hex Hkey).
  - intros tech exclusions Hin Hex Htech.
    apply applyExclusion_subset in Htech.
    exact (H tech exclusions (or_intror Hin) Hex Htech).
Qed.

(** X1: the resolver only ever removes names: each of the four lists it
    walks shrinks to a part of itself, and [databases], [deployment],
    [patterns] and [confidence] are handed through unchanged. *)
Theorem resolver_only_removes (r : Results.t) :
  (forall c x, In x (getCategory c (resolveConflicts r)) -> In x (getCategory c r))
  /\ Results.databases (resolveConflicts r) = Results.databases r
  /\ Results.deployment (resolveConflicts r) = Results.deployment r
  /\ Results.patterns (resolveConflicts r) = Results.patterns r
  /\ Results.confidence (resolveConflicts r) = Results.confidence r.
Proof.
  split; [intros c x; apply resolveConflicts_subset |].
  apply resolveConflicts_untouched.
Qed.

(** X2: resolving twice changes nothing more: [resolveConflicts] is
    idempotent. *)
Theorem resolveConflicts_idempotent (r : Results.t) :
  resolveConflicts (resolveConflicts r) = resolveConflicts r.
Proof.
  destruct (resolveConflicts_untouched (resolveConflicts r)) as (Hdb & Hde & Hpa & Hco).
  apply Results_ext; try assumption.
  intros c. rewrite (resolveConflicts_category (resolveConflicts r)).
  rewrite resolveConflicts_category. apply applyTable_idempotent.
Qed.

(** X3: declaration order decides the winner: once react is among the
    accepted frontend names it survives the resolver and vue and angular do
    not, whatever the three scored. *)
Theorem react_always_wins (r : Results.t) :
  In "react" (Results.frontend r) ->
  In "react" (Results.frontend (resolveConflicts r))
  /\ ~ In "vue" (Results.frontend (resolveConflicts r))
  /\ ~ In "angular" (Results.frontend (resolveConflicts r)).
Proof.
  intros Hreact.
  rewrite resolveConflicts_frontend.
  set (l := Results.frontend r) in *.
  unfold mutualExclusions. rewrite applyTable_cons.
  set (l1 := applyExclusion ("react", ["vue"; "angular"; "svelte"]) l).
  set (rest := [("vue", ["react"; "angular"; "svelte"]);
                ("angular", ["react"; "vue"; "svelte"]);
                ("express", ["fastify"; "koa"; "hapi"]);
                ("jest", ["mocha"; "jasmine"; "ava"]);
                ("webpack", ["parcel"])]).
  assert (H1 : In "react" l1).
  { apply applyExclusion_In. split; [exact Hreact |]. cbn [fst snd In].
    intros _ [H | [H | [H | []]]]; discriminate H. }
  assert (Hvue : ~ In "vue" l1).
  { intros H. apply applyExclusion_In in H as [_ H]. apply (H Hreact). now left. }
  assert (Hang : ~ In "angular" l1).
  { intros H. apply applyExclusion_In in H as [_ H]. apply (H Hreact). right. now left. }
  split; [| split].
  - apply (applyTable_survives rest l1 "react" H1).
    intros tech exclusions Hin Hex. unfold rest in Hin. cbn [In] in Hin.
    destruct Hin as [E | [E | [E | [E | [E | []]]]]];
      injection E as <- <-; cbn [In] in Hex;
      try exact Hvue; try exact Hang;
      repeat (destruct Hex as [Hex | Hex]; [discriminate Hex |]); contradiction.
  - intros H. apply applyTable_subset in H. exact (Hvue H).
  - intros H. apply applyTable_subset in H. exact (Hang H).
Qed.

Lemma react_always_wins_witness :
  In "react" (Results.frontend vueReactResults)
  /\ In "react" (Results.frontend (resolveConflicts vueReactResults))
  /\ ~ In "vue" (Results.frontend (resolveConflicts vueReactResults)).
Proof.
  assert (Hin : In "react" (Results.frontend vueReactResults))
    by (right; left; reflexivity).
  split; [exact Hin |].
  destruct (react_always_wins vueReactResults Hin) as (H1 & H2 & _).
  split; [exact H1 | exact H2].
Defined.

(** ** The project type *)

Lemma cli_indicator (p : Project) (structure : Structure.t) (packageData : option Pkg.t) :
  Indicators.cli (computeIndicators p structure packageData)
  = match packageData with
    | Some pkg => if includes "bin" (Pkg.truthyFields pkg) then 5 else 0
    | None => 0
    end.
Proof. destruct packageData as [pkg |]; reflexivity. Qed.

(** X4: the derived type is one of the six documented values, and it agrees
    with the gates: a backend-only project is typed backend-api (or cli-tool),
    a frontend-only one frontend-application (or cli-tool), a full-stack one
    has neither gate set, and a framework is picked as [primary] only for
    backend-api and frontend-application. *)
Theorem project_type_agrees_with_gates (p : Project) (structure : Structure.t)
    (packageData : option Pkg.t) :
  let projectType := determineProjectType p structure packageData in
  In (ProjectType.type projectType)
     ["unknown"; "cli-tool"; "full-stack-application"; "backend-api";
      "frontend-application"; "library"]
  /\ (ProjectType.isBackendOnly projectType = true ->
      ProjectType.type projectType = "backend-api"
      \/ ProjectType.type projectType = "cli-tool")
  /\ (ProjectType.isFrontendOnly projectType = true ->
      ProjectType.type projectType = "frontend-application"
      \/ ProjectType.type projectType = "cli-tool")
  /\ (ProjectType.type projectType = "full-stack-application" ->
      ProjectType.isBackendOnly projectType = false
      /\ ProjectType.isFrontendOnly projectType = false)
  /\ (ProjectType.primary projectType <> EmptyString ->
      ProjectType.type projectType = "backend-api"
      \/ ProjectType.type projectType = "frontend-application").
Proof.
  cbv zeta. unfold determineProjectType.
  set (indicators := computeIndicators p structure packageData).
  destruct (3 <? Indicators.cli indicators);
    destruct (Indicators.backendOnly indicators) as [| b];
    destruct (Indicators.frontendOnly indicators) as [| f];
    destruct (0 <? Indicators.library indicators);
    cbn [Nat.ltb Nat.leb Nat.eqb andb ProjectType.type ProjectType.primary
         ProjectType.isBackendOnly ProjectType.isFrontendOnly In];
    repeat split; intros; try discriminate; try congruence; tauto.
Qed.

Lemma determineProjectType_type (p : Project) (structure : Structure.t)
    (packageData : option Pkg.t) :
  let indicators := computeIndicators p structure packageData in
  ProjectType.type (determineProjectType p structure packageData)
  = if 3 <? Indicators.cli indicators then "cli-tool"
    else if (0 <? Indicators.backendOnly indicators)
            && (0 <? Indicators.frontendOnly indicators)
    then "full-stack-application"
    else if Indicators.frontendOnly indicators <? Indicators.backendOnly indicators
    then "backend-api"
    else if Indicators.backendOnly indicators <? Indicators.frontendOnly indicators
    then "frontend-application"
    else if 0 <? Indicators.library indicators then "library"
    else "unknown".
Proof.
  cbv zeta. unfold determineProjectType.
  set (indicators := computeIndicators p structure packageData).
  destruct (3 <? Indicators.cli indicators); [reflexivity |].
  destruct ((0 <? Indicators.backendOnly indicators)
            && (0 <? Indicators.frontendOnly indicators)); [reflexivity |].
  destruct (Indicators.frontendOnly indicators <? Indicators.backendOnly indicators);
    [reflexivity |].
  destruct (Indicators.backendOnly indicators <? Indicators.frontendOnly indicators);
    [reflexivity |].
  destruct (0 <? Indicators.library indicators); reflexivity.
Qed.

(** X5: a project is typed cli-tool exactly when its package.json has a
    truthy [bin] field, whatever directories and dependencies it has. *)
Theorem cli_tool_iff_bin (p : Project) (structure : Structure.t)
    (packageData : option Pkg.t) :
  ProjectType.type (determineProjectType p structure packageData) = "cli-tool"
  <-> exists pkg, packageData = Some pkg /\ In "bin" (Pkg.truthyFields pkg).
Proof.
  rewrite determineProjectType_type. cbv zeta. rewrite cli_indicator.
  set (indicators := computeIndicators p structure packageData).
  assert (Hother :
    (if (0 <? Indicators.backendOnly indicators)
        && (0 <? Indicators.frontendOnly indicators)
     then "full-stack-application"
     else if Indicators.frontendOnly indicators <? Indicators.backendOnly indicators
     then "backend-api"
     else if Indicators.backendOnly indicators <? Indicators.frontendOnly indicators
     then "frontend-application"
     else if 0 <? Indicators.library indicators then "library"
     else "unknown") <> "cli-tool").
  { destruct ((0 <? Indicators.backendOnly indicators)
              && (0 <? Indicators.frontendOnly indicators)); [discriminate |].
    destruct (Indicators.frontendOnly indicators <? Indicators.backendOnly indicators);
      [discriminate |].
    destruct (Indicators.backendOnly indicators <? Indicators.frontendOnly indicators);
      [discriminate |].
    destruct (0 <? Indicators.library indicators); discriminate. }
  split.
  - destruct packageData as [pkg |].
    + destruct (includes "bin" (Pkg.truthyFields pkg)) eqn:E.
      * intros _. exists pkg. split; [reflexivity | now apply includes_In].
      * change (3 <? 0) with false. cbv iota. intros H. contradiction.
    + change (3 <? 0) with false. cbv iota. intros H. contradiction.
  - intros (pkg & -> & Hbin). apply includes_In in Hbin. rewrite Hbin. reflexivity.
Qed.

(** ** The architecture record *)

(** The white space of the pattern is that of the language: a byte-order
    mark in front of the first service line is skipped, as is a no-break
    space, and a line separator ends a line. *)
Example marked_compose_file_services :
  serviceCount markedComposeFile = 4
  /\ serviceLine (noBreakSpace ++ "web:" ++ noBreakSpace)%string = true
  /\ serviceLine "  image: nginx" = false
  /\ serviceLine "# web:" = false
  /\ serviceCount ("web:" ++ nl ++ nl ++ "  api:  " ++ nl)%string = 2.
Proof. vm_compute. repeat split. Qed.

(** X6: the architecture record is consistent: its type is monorepo exactly
    when its patterns list monorepo, the patterns are drawn from monorepo and
    microservices, and microservices is listed exactly for a readable
    docker-compose.yml with more than three service lines. *)
Theorem architecture_consistent (p : Project) :
  let architecture := Structure.architecture (analyzeProjectStructure p) in
  (Architecture.type architecture = "monorepo"
   <-> In "monorepo" (Architecture.patterns architecture))
  /\ incl (Architecture.patterns architecture) ["monorepo"; "microservices"]
  /\ (In "microservices" (Architecture.patterns architecture)
      <-> fileExists p "docker-compose.yml" = true
          /\ exists content,
               readFile p "docker-compose.yml" = Some content
               /\ 3 < serviceCount content).
Proof.
  cbv zeta. cbn [analyzeProjectStructure Structure.architecture].
  unfold detectArchitecture. cbn [Architecture.type Architecture.patterns].
  set (monorepo := fileExists p "lerna.json" || fileExists p "turbo.json"
                   || fileExists p "rush.json").
  set (microservices :=
         fileExists p "docker-compose.yml"
         && match readFile p "docker-compose.yml" with
            | Some content => 3 <? serviceCount content
            | None => false
            end).
  assert (Hms : microservices = true <->
                fileExists p "docker-compose.yml" = true
                /\ exists content,
                     readFile p "docker-compose.yml" = Some content
                     /\ 3 < serviceCount content).
  { unfold microservices. rewrite andb_true_iff. split.
    - intros [H1 H2]. split; [exact H1 |].
      destruct (readFile p "docker-compose.yml") as [content |]; [| discriminate H2].
      exists content. split; [reflexivity | now apply Nat.ltb_lt].
    - intros [H1 [content [Hread Hcount]]]. split; [exact H1 |].
      rewrite Hread. now apply Nat.ltb_lt. }
  clearbody monorepo microservices.
  split; [| split].
  - destruct monorepo, microservices; cbn [app In]; split; intros H;
      try reflexivity; try discriminate H; try (left; reflexivity);
      repeat (destruct H as [H | H]; [discriminate H |]); contradiction.
  - intros x Hx. destruct monorepo, microservices; cbn [app In] in Hx |- *;
      repeat (destruct Hx as [Hx | Hx]; [subst x; auto |]); contradiction.
  - rewrite <- Hms. destruct monorepo, microservices; cbn [app In]; split; intros H;
      try reflexivity; try discriminate H; auto;
      repeat (destruct H as [H | H]; [discriminate H |]); contradiction.
Qed.

(** ** A declared dependency is detected *)

Lemma mapM_Ok_In {A B} (f : A -> result B) (l : list A) (ys : list B) :
  mapM f l = Ok ys -> forall x, In x l -> exists y, f x = Ok y /\ In y ys.
Proof.
  revert ys. induction l as [| a l IH]; intros ys H x Hx; [contradiction |].
  cbn [mapM] in H. apply bind_Ok in H as [y0 [Hy0 H]].
  apply bind_Ok in H as [ys0 [Hys0 H]]. apply Ok_inj in H. subst ys.
  destruct Hx as [<- | Hx].
  - exists y0. split; [exact Hy0 | now left].
  - destruct (IH ys0 Hys0 x Hx) as [y [Hy Hin]]. exists y. split; [exact Hy | now right].
Qed.

Lemma has_true_keys (o : JsObject) (k : string) : has o k = true -> In k (keys o).
Proof.
  unfold has. induction o as [| [k' v] o IH]; cbn [lookup keys map fst In].
  - discriminate.
  - destruct (String.eqb k k') eqn:E.
    + apply String.eqb_eq in E. intros _. left. now symmetry.
    + intros H. right. exact (IH H).
Qed.

Lemma determineProjectType_gates (p : Project) (structure : Structure.t)
    (packageData : option Pkg.t) :
  let indicators := computeIndicators p structure packageData in
  ProjectType.isBackendOnly (determineProjectType p structure packageData)
  = (0 <? Indicators.backendOnly indicators) && (Indicators.frontendOnly indicators =? 0)
  /\ ProjectType.isFrontendOnly (determineProjectType p structure packageData)
     = (0 <? Indicators.frontendOnly indicators)
       && (Indicators.backendOnly indicators =? 0).
Proof.
  cbv zeta. unfold determineProjectType.
  set (indicators := computeIndicators p structure packageData).
  destruct (if 3 <? Indicators.cli indicators then _ else _) as [type primary].
  split; reflexivity.
Qed.

Lemma backend_package_counts (p : Project) (structure : Structure.t) (pkg : Pkg.t)
    (name : string) :
  In name backendPackages ->
  In name (keys (Pkg.dependencies pkg) ++ keys (Pkg.devDependencies pkg)) ->
  0 < Indicators.backendOnly (computeIndicators p structure (Some pkg)).
Proof.
  intros Hname Hdep.
  assert (Hfilter : In name (filter (fun pkg' =>
                       includes pkg' (keys (Pkg.dependencies pkg)
                                      ++ keys (Pkg.devDependencies pkg)))
                     backendPackages)).
  { apply filter_In. split; [exact Hname | now apply includes_In]. }
  unfold computeIndicators. cbn [Indicators.backendOnly].
  destruct (filter _ backendPackages) as [| x l]; [contradiction |].
  cbn [length]. lia.
Qed.

Lemma frameworkEvidence_dependency (p : Project) (pkg : Pkg.t)
    (projectType : ProjectType.t) (python : list string) (config : Config.t)
    (wanted : list string) (e : Evidence.t) (dep : string) :
  frameworkEvidence p (Some pkg) projectType python config = Ok e ->
  Config.dependencies config = Some wanted ->
  In dep wanted -> has (Pkg.dependencies pkg) dep = true ->
  In dep (Evidence.dependencies e)
  /\ Evidence.isBackendOnly e = ProjectType.isBackendOnly projectType.
Proof.
  unfold frameworkEvidence. intros H Hwanted Hdep Hhas. rewrite Hwanted in H.
  apply bind_Ok in H as [fromPackage [H1 H2]].
  apply bind_Ok in H1 as [scripts [_ H1]]. apply Ok_inj in H1. subst fromPackage.
  cbv beta iota zeta in H2. apply Ok_inj in H2. subst e.
  cbn [Evidence.dependencies Evidence.isBackendOnly]. split; [| reflexivity].
  apply in_or_app. left. apply filter_In. split; assumption.
Qed.

Lemma express_not_excluded (tech : string) (exclusions : list string) :
  In (tech, exclusions) mutualExclusions -> ~ In "express" exclusions.
Proof.
  unfold mutualExclusions. cbn [In]. intros Hin Hex.
  repeat (destruct Hin as [Hin | Hin];
          [apply pair_equal_spec in Hin as [_ <-]; cbn [In] in Hex;
           repeat (destruct Hex as [Hex | Hex]; [discriminate Hex |]); contradiction |]).
  contradiction.
Qed.

(** X7: whenever [detect] completes its [try] block on a project whose
    package.json lists [express] among the dependencies with a non-empty
    version, express is in the final [frameworks]: the dependency makes the
    backend indicator positive, so the backend detectors run, express scores
    1.0, and no entry of the resolver's table removes it. *)
Theorem express_dependency_detected (p : Project) (r : Stack.t) (pkg : Pkg.t) :
  detectBody p = Ok r ->
  readPackageJson p = Some pkg ->
  has (Pkg.dependencies pkg) "express" = true ->
  In "express" (Stack.frameworks r).
Proof.
  intros Hbody Hpkg Hhas.
  apply detectBody_Ok in Hbody as (ls & dr & _ & Hdr & H).
  destruct H as (_ & _ & _ & Hfw & _).
  rewrite Hpkg in Hdr.
  pose proof (performTargetedDetection_Ok _ _ _ _ _ Hdr) as (_ & Hbe & _).
  set (projectType := determineProjectType p (analyzeProjectStructure p) (Some pkg)) in *.
  assert (Hgate : ProjectType.isFrontendOnly projectType = false).
  { unfold projectType.
    destruct (determineProjectType_gates p (analyzeProjectStructure p) (Some pkg))
      as [_ ->].
    assert (Hpos : 0 < Indicators.backendOnly
                         (computeIndicators p (analyzeProjectStructure p) (Some pkg))).
    { apply (backend_package_counts p _ pkg "express"); [now left |].
      apply in_or_app. left. now apply has_true_keys. }
    destruct (Indicators.backendOnly _) as [| b]; [lia |].
    cbn [Nat.eqb]. apply andb_false_r. }
  rewrite Hgate in Hbe. cbn [negb] in Hbe.
  unfold detectFrameworks in Hbe.
  apply bind_Ok in Hbe as [scored [Hscored Hrank]]. apply Ok_inj in Hrank.
  assert (Hexpress : In express backendDetectors) by (left; reflexivity).
  destruct (mapM_Ok_In _ _ _ Hscored express Hexpress) as [y [Hy Hin]].
  apply bind_Ok in Hy as [evidence [Hev Hy]]. apply Ok_inj in Hy. subst y.
  destruct (frameworkEvidence_dependency _ _ _ _ express ["express"] _ "express"
              Hev eq_refl (or_introl eq_refl) Hhas) as [Hdep _].
  assert (Hscore : score express evidence = ("express", 100)).
  { unfold score. f_equal. cbn. rewrite (proj2 (includes_In _ _) Hdep). reflexivity. }
  rewrite Hscore in Hin.
  assert (Hbackend : In "express" (Results.backend dr)).
  { rewrite <- Hrank. apply rank_In. exists 100. split; [exact Hin | lia]. }
  rewrite Hfw. apply in_or_app. right.
  rewrite resolveConflicts_backend.
  apply applyTable_survives; [exact Hbackend |].
  intros tech exclusions Hin' Hex. exfalso.
  exact (express_not_excluded tech exclusions Hin' Hex).
Qed.

Lemma express_dependency_detected_witness :
  detectBody expressProject = Ok (detect expressProject)
  /\ In "express" (Stack.frameworks (detect expressProject)).
Proof.
  assert (Hreturns : detectBody expressProject = Ok (detect expressProject))
    by (vm_compute; reflexivity).
  split; [exact Hreturns |].
  apply (express_dependency_detected expressProject _
           {| Pkg.dependencies := [("express", "^4.18.2")];
              Pkg.devDependencies := []; Pkg.scripts := []; Pkg.truthyFields := [] |}
           Hreturns).
  - reflexivity.
  - vm_compute. reflexivity.
Defined.

Lemma frontend_package_counts (p : Project) (structure : Structure.t) (pkg : Pkg.t)
    (name dep : string) :
  In name frontendPackages ->
  In dep (keys (Pkg.dependencies pkg) ++ keys (Pkg.devDependencies pkg)) ->
  strIncludes dep name = true ->
  0 < Indicators.frontendOnly (computeIndicators p structure (Some pkg)).
Proof.
  intros Hname Hdep Hsub.
  assert (Hfilter : In name (filter (fun pkg' =>
                       existsb (fun dep' => strIncludes dep' pkg')
                               (keys (Pkg.dependencies pkg)
                                ++ keys (Pkg.devDependencies pkg)))
                     frontendPackages)).
  { apply filter_In. split; [exact Hname |]. apply existsb_exists. now exists dep. }
  unfold computeIndicators. cbn [Indicators.frontendOnly].
  destruct (filter _ frontendPackages) as [| x l]; [contradiction |].
  cbn [length]. lia.
Qed.

Lemma react_survives_table (l : list string) :
  In "react" l -> In "react" (applyTable mutualExclusions l).
Proof.
  intros Hreact. unfold mutualExclusions. rewrite applyTable_cons.
  set (l1 := applyExclusion ("react", ["vue"; "angular"; "svelte"]) l).
  assert (H1 : In "react" l1).
  { apply applyExclusion_In. split; [exact Hreact |]. cbn [fst snd In].
    intros _ [H | [H | [H | []]]]; discriminate H. }
  assert (Hvue : ~ In "vue" l1).
  { intros H. apply applyExclusion_In in H as [_ H]. apply (H Hreact). now left. }
  assert (Hang : ~ In "angular" l1).
  { intros H. apply applyExclusion_In in H as [_ H]. apply (H Hreact). right. now left. }
  apply applyTable_survives; [exact H1 |].
  intros tech exclusions Hin Hex. cbn [In] in Hin.
  destruct Hin as [E | [E | [E | [E | [E | []]]]]];
    apply pair_equal_spec in E as [<- <-]; cbn [In] in Hex.
  - exact Hvue.
  - exact Hang.
  - destruct Hex as [Hex | [Hex | [Hex | []]]]; discriminate Hex.
  - destruct Hex as [Hex | [Hex | [Hex | []]]]; discriminate Hex.
  - destruct Hex as [Hex | []]; discriminate Hex.
Qed.

(** X8: whenever [detect] completes its [try] block on a project whose
    package.json lists [react] among the dependencies with a non-empty
    version, react is in the final [frameworks]: the dependency makes the
    frontend indicator positive, so the project is never backend-only, the
    guard in the scoring function of react does not fire, and the resolver
    keeps react whatever else was accepted. *)
Theorem react_dependency_detected (p : Project) (r : Stack.t) (pkg : Pkg.t) :
  detectBody p = Ok r ->
  readPackageJson p = Some pkg ->
  has (Pkg.dependencies pkg) "react" = true ->
  In "react" (Stack.frameworks r).
Proof.
  intros Hbody Hpkg Hhas.
  apply detectBody_Ok in Hbody as (ls & dr & _ & Hdr & H).
  destruct H as (_ & _ & _ & Hfw & _).
  rewrite Hpkg in Hdr.
  pose proof (performTargetedDetection_Ok _ _ _ _ _ Hdr) as (Hfe & _).
  set (projectType := determineProjectType p (analyzeProjectStructure p) (Some pkg)) in *.
  assert (Hgate : ProjectType.isBackendOnly projectType = false).
  { unfold projectType.
    destruct (determineProjectType_gates p (analyzeProjectStructure p) (Some pkg))
      as [-> _].
    assert (Hpos : 0 < Indicators.frontendOnly
                         (computeIndicators p (analyzeProjectStructure p) (Some pkg))).
    { apply (frontend_package_counts p _ pkg "react" "react"); [now left | | reflexivity].
      apply in_or_app. left. now apply has_true_keys. }
    destruct (Indicators.frontendOnly _) as [| f]; [lia |].
    cbn [Nat.eqb]. apply andb_false_r. }
  rewrite Hgate in Hfe. cbn [negb] in Hfe.
  unfold detectFrameworks in Hfe.
  apply bind_Ok in Hfe as [scored [Hscored Hrank]]. apply Ok_inj in Hrank.
  assert (Hreact : In react frontendDetectors) by (left; reflexivity).
  destruct (mapM_Ok_In _ _ _ Hscored react Hreact) as [y [Hy Hin]].
  apply bind_Ok in Hy as [evidence [Hev Hy]]. apply Ok_inj in Hy. subst y.
  destruct (frameworkEvidence_dependency _ _ _ _ react ["react"; "react-dom"] _ "react"
              Hev eq_refl (or_introl eq_refl) Hhas) as [Hdep Hflag].
  rewrite Hgate in Hflag.
  assert (Hscore : score react evidence = ("react", 100)).
  { unfold score. f_equal. cbn. rewrite Hflag. cbn [negb andb].
    rewrite (proj2 (includes_In _ _) Hdep). reflexivity. }
  rewrite Hscore in Hin.
  assert (Hfrontend : In "react" (Results.frontend dr)).
  { rewrite <- Hrank. apply rank_In. exists 100. split; [exact Hin | lia]. }
  rewrite Hfw. apply in_or_app. left.
  rewrite resolveConflicts_frontend.
  exact (react_survives_table _ Hfrontend).
Qed.

Lemma react_dependency_detected_witness :
  detectBody reactVueProject = Ok (detect reactVueProject)
  /\ In "react" (Stack.frameworks (detect reactVueProject)).
Proof.
  assert (Hreturns : detectBody reactVueProject = Ok (detect reactVueProject))
    by (vm_compute; reflexivity).
  split; [exact Hreturns |].
  apply (react_dependency_detected reactVueProject _
           {| Pkg.dependencies := [("react", "^18.2.0"); ("vue", "^3.3.0")];
              Pkg.devDependencies := []; Pkg.scripts := []; Pkg.truthyFields := [] |}
           Hreturns).
  - reflexivity.
  - vm_compute. reflexivity.
Defined.

(** ** Language detection *)

Lemma mapM_map {A B} (f : A -> result B) (g : A -> B) (l : list A) :
  (forall x, In x l -> f x = Ok (g x)) -> mapM f l = Ok (map g l).
Proof.
  induction l as [| a l IH]; intros H; [reflexivity |].
  cbn [mapM map]. rewrite (H a (or_introl eq_refl)). cbn [bind].
  rewrite IH; [reflexivity |]. intros x Hx. apply H. now right.
Qed.

Lemma NoDup_map_inj {A B} (f : A -> B) (l : list A) (a b : A) :
  NoDup (map f l) -> In a l -> In b l -> f a = f b -> a = b.
Proof.
  induction l as [| x l IH]; intros Hnd Ha Hb Hf; [contradiction |].
  cbn [map] in Hnd. apply NoDup_cons_iff in Hnd as [Hx Hnd].
  destruct Ha as [-> | Ha], Hb as [-> | Hb].
  - reflexivity.
  - exfalso. apply Hx. rewrite Hf. now apply in_map.
  - exfalso. apply Hx. rewrite <- Hf. now apply in_map.
  - now apply IH.
Qed.

(** In a loop over detectors with distinct names, a detector's name is
    ranked exactly when its own score reaches the threshold. *)
Lemma rank_registry_iff (ds : list Config.t) (g : Config.t -> Evidence.t)
    (d : Config.t) :
  NoDup (map Config.name ds) -> In d ds ->
  In (Config.name d) (rank (map (fun config => score config (g config)) ds))
  <-> 70 <= Config.confidence d (g d).
Proof.
  intros Hnd Hd. rewrite rank_In. split.
  - intros [c [Hin Hc]]. apply in_map_iff in Hin as [d' [Hscore Hd']].
    unfold score in Hscore. apply pair_equal_spec in Hscore as [Hname <-].
    assert (E : d' = d) by exact (NoDup_map_inj Config.name ds d' d Hnd Hd' Hd Hname).
    subst d'. exact Hc.
  - intros Hc. exists (Config.confidence d (g d)). split; [| exact Hc].
    apply in_map_iff. now exists d.
Qed.

Lemma keep_registry_iff (ds : list Config.t) (g : Config.t -> Evidence.t)
    (d : Config.t) :
  NoDup (map Config.name ds) -> In d ds ->
  In (Config.name d) (keep (map (fun config => score config (g config)) ds))
  <-> 70 <= Config.confidence d (g d).
Proof.
  intros Hnd Hd. rewrite keep_In. split.
  - intros [c [Hin Hc]]. apply in_map_iff in Hin as [d' [Hscore Hd']].
    unfold score in Hscore. apply pair_equal_spec in Hscore as [Hname <-].
    assert (E : d' = d) by exact (NoDup_map_inj Config.name ds d' d Hnd Hd' Hd Hname).
    subst d'. exact Hc.
  - intros Hc. exists (Config.confidence d (g d)). split; [| exact Hc].
    apply in_map_iff. now exists d.
Qed.

Ltac distinct_names :=
  vm_compute;
  repeat (apply NoDup_cons;
          [cbn [In]; intros H;
           repeat (destruct H as [H | H]; [discriminate H |]); contradiction |]);
  apply NoDup_nil.

Lemma languageDetectors_distinct : NoDup (map Config.name languageDetectors).
Proof. distinct_names. Qed.

Lemma languageEvidence_registry (p : Project) (config : Config.t) :
  In config languageDetectors -> languageEvidence p config = Ok (languageBag p config).
Proof.
  unfold languageDetectors. cbn [In].
  intros [<- | [<- | [<- | [<- | [<- | []]]]]]; try reflexivity.
  unfold languageEvidence, languageBag.
  cbn [typescript Config.base Config.patterns_ Config.configs_ Config.packageIndicators_
       Config.packageIndicators Config.configs Config.patterns filter].
  destruct (fileExists p "tsconfig.json"), (fileExists p "tsconfig.*.json"); reflexivity.
Qed.

Lemma detectLanguages_registry (p : Project) :
  detectLanguages p
  = Ok (rank (map (fun config => score config (languageBag p config)) languageDetectors)).
Proof.
  unfold detectLanguages.
  rewrite (mapM_map _ (fun config => score config (languageBag p config))).
  - reflexivity.
  - intros config Hin. rewrite (languageEvidence_registry p config Hin). reflexivity.
Qed.

Lemma nonEmpty_iff {A} (l : list A) : nonEmpty l = true <-> l <> [].
Proof. destruct l; cbn; split; intros H; congruence. Qed.

Lemma config_found (p : Project) (config : Config.t) (c : string) :
  includes c (Evidence.configs (languageBag p config)) = true
  <-> In c (Config.configs config) /\ fileExists p c = true.
Proof. cbn [languageBag Evidence.configs]. now rewrite includes_In, filter_In. Qed.

Lemma some_config_found (p : Project) (config : Config.t) :
  nonEmpty (Evidence.configs (languageBag p config)) = true
  <-> exists c, In c (Config.configs config) /\ fileExists p c = true.
Proof.
  cbn [languageBag Evidence.configs]. rewrite nonEmpty_iff. split.
  - destruct (filter (fileExists p) (Config.configs config)) as [| c l] eqn:E;
      [congruence |].
    intros _. exists c. apply filter_In. rewrite E. now left.
  - intros [c Hc] E. apply filter_In in Hc. rewrite E in Hc. contradiction.
Qed.

Lemma javascript_score (e : Evidence.t) :
  70 <= Config.confidence javascript e
  <-> includes "package.json" (Evidence.configs e) = true \/ Evidence.files e <> [].
Proof.
  rewrite <- nonEmpty_iff. cbn.
  destruct (includes "package.json" (Evidence.configs e)), (nonEmpty (Evidence.files e));
    split; intros H; try lia; auto; destruct H; discriminate.
Qed.

Lemma typescript_score (e : Evidence.t) :
  Evidence.packageIndicators e = [] ->
  70 <= Config.confidence typescript e
  <-> includes "tsconfig.json" (Evidence.configs e) = true \/ Evidence.files e <> [].
Proof.
  intros Hnone. rewrite <- nonEmpty_iff. cbn. rewrite Hnone. cbn [nonEmpty].
  destruct (includes "tsconfig.json" (Evidence.configs e)), (nonEmpty (Evidence.files e));
    split; intros H; try lia; auto; destruct H; discriminate.
Qed.

Lemma python_score (e : Evidence.t) :
  Evidence.indicators e = [] ->
  70 <= Config.confidence python e
  <-> nonEmpty (Evidence.configs e) = true \/ 5 < length (Evidence.files e).
Proof.
  intros Hnone.
  cbn [Config.confidence python Config.base Config.patterns_ Config.configs_
       Config.indicators_].
  rewrite Hnone. cbn [includes existsb].
  destruct (nonEmpty (Evidence.configs e)).
  - split; intros _; [now left | lia].
  - destruct (5 <? length (Evidence.files e)) eqn:E.
    + apply Nat.ltb_lt in E. split; intros _; [now right | lia].
    + apply Nat.ltb_ge in E. split; intros H; [lia | destruct H; [discriminate | lia]].
Qed.

Lemma java_score (e : Evidence.t) :
  70 <= Config.confidence java e <-> nonEmpty (Evidence.configs e) = true.
Proof.
  cbn. destruct (nonEmpty (Evidence.configs e)), (nonEmpty (Evidence.files e));
    split; intros H; try lia; auto; discriminate.
Qed.

Lemma go_score (e : Evidence.t) :
  70 <= Config.confidence go e <-> includes "go.mod" (Evidence.configs e) = true.
Proof.
  cbn. destruct (includes "go.mod" (Evidence.configs e)), (nonEmpty (Evidence.files e));
    split; intros H; try lia; auto; discriminate.
Qed.

(** X9: language detection never throws (the package-indicator lookup, the
    only step that could, is guarded by a test no registry entry passes), and
    each language is listed under exactly these conditions: javascript for a
    package.json or a matching source file; typescript for a tsconfig.json or
    a matching source file, never for a dependency alone; python for one of
    its four manifests or more than five matching files; java only for one of
    its three build files; go only for a go.mod. *)
Theorem language_detection_conditions (p : Project) :
  exists languages,
    detectLanguages p = Ok languages
    /\ (In "javascript" languages
        <-> fileExists p "package.json" = true
            \/ Evidence.files (languageBag p javascript) <> [])
    /\ (In "typescript" languages
        <-> fileExists p "tsconfig.json" = true
            \/ Evidence.files (languageBag p typescript) <> [])
    /\ (In "python" languages
        <-> (exists c, In c ["requirements.txt"; "setup.py"; "pyproject.toml"; "Pipfile"]
                       /\ fileExists p c = true)
            \/ 5 < length (Evidence.files (languageBag p python)))
    /\ (In "java" languages
        <-> exists c, In c ["pom.xml"; "build.gradle"; "build.gradle.kts"]
                      /\ fileExists p c = true)
    /\ (In "go" languages <-> fileExists p "go.mod" = true).
Proof.
  eexists. split; [apply detectLanguages_registry |].
  pose proof languageDetectors_distinct as Hnd.
  split; [| split; [| split; [| split]]].
  - rewrite (rank_registry_iff languageDetectors (languageBag p) javascript Hnd);
      [| now left].
    rewrite javascript_score, config_found. cbn [Config.configs javascript Config.base
      Config.patterns_ Config.configs_ In].
    split; (intros [H | H]; [left | right; exact H]); [apply H | split; [now left | exact H]].
  - rewrite (rank_registry_iff languageDetectors (languageBag p) typescript Hnd);
      [| right; now left].
    rewrite typescript_score by reflexivity. rewrite config_found.
    cbn [Config.configs typescript Config.base Config.patterns_ Config.configs_
         Config.packageIndicators_ In].
    split; (intros [H | H]; [left | right; exact H]); [apply H | split; [now left | exact H]].
  - rewrite (rank_registry_iff languageDetectors (languageBag p) python Hnd);
      [| right; right; now left].
    rewrite python_score by reflexivity. rewrite some_config_found. reflexivity.
  - rewrite (rank_registry_iff languageDetectors (languageBag p) java Hnd);
      [| right; right; right; now left].
    rewrite java_score, some_config_found. reflexivity.
  - rewrite (rank_registry_iff languageDetectors (languageBag p) go Hnd);
      [| right; right; right; right; now left].
    rewrite go_score, config_found.
    cbn [Config.configs go Config.base Config.patterns_ Config.configs_ In].
    split; [intros H; apply H | intros H; split; [now left | exact H]].
Qed.

(** ** File probes and content scans *)

(** X10: with a positive limit [findFiles] returns at most [limit] paths,
    each of them a match of the glob; a glob that rejects yields no path. *)
Theorem findFiles_bounded (p : Project) (pattern : string) (limit : nat) :
  0 < limit ->
  length (findFiles p pattern limit) <= limit
  /\ (forall f, In f (findFiles p pattern limit) ->
        exists matches, glob p pattern = Some matches /\ In f matches)
  /\ (glob p pattern = None -> findFiles p pattern limit = []).
Proof.
  intros Hlimit. unfold findFiles.
  destruct (glob p pattern) as [files |].
  - destruct (limit =? 0) eqn:E; [apply Nat.eqb_eq in E; lia |].
    split; [| split].
    + rewrite length_firstn. lia.
    + intros f Hf. exists files. split; [reflexivity |].
      rewrite <- (firstn_skipn limit files). apply in_or_app. now left.
    + discriminate.
  - split; [cbn; lia |]. split; [intros f [] | reflexivity].
Qed.

Lemma findFiles_bounded_witness :
  0 < 100
  /\ findFiles typescriptFilesProject "*.ts" 100 = ["index.ts"]
  /\ length (findFiles typescriptFilesProject "*.ts" 100) <= 100.
Proof.
  assert (Hlimit : 0 < 100) by lia.
  split; [exact Hlimit |]. split; [reflexivity |].
  apply (findFiles_bounded typescriptFilesProject "*.ts" 100 Hlimit).
Defined.

Lemma dedupe_In (x : string) (l : list string) : In x (dedupe l) <-> In x l.
Proof.
  induction l as [| a l IH]; cbn [dedupe In]; [tauto |].
  rewrite filter_In, IH, negb_true_iff.
  destruct (String.eqb_spec a x) as [-> | Hne]; [tauto |].
  split; [intros [H | [H _]]; auto | intros [H | H]; auto].
Qed.

Lemma dedupe_NoDup (l : list string) : NoDup (dedupe l).
Proof.
  induction l as [| a l IH]; cbn [dedupe]; [constructor |].
  constructor.
  - rewrite filter_In, negb_true_iff. intros [_ H]. now rewrite String.eqb_refl in H.
  - now apply NoDup_filter.
Qed.

Lemma readable_In (p : Project) (paths : list string) (content : string) :
  In content (readable p paths)
  <-> exists f, In f paths /\ readFile p f = Some content.
Proof.
  unfold readable. rewrite in_flat_map. split.
  - intros [f [Hf Hc]]. exists f. split; [exact Hf |].
    destruct (readFile p f) as [c |]; [| contradiction].
    destruct Hc as [-> | []]. reflexivity.
  - intros [f [Hf Hc]]. exists f. split; [exact Hf |]. rewrite Hc. now left.
Qed.

Lemma scanFiles_In (p : Project) (sample wanted : list string) (x : string) :
  In x (scanFiles p sample wanted)
  <-> In x wanted
      /\ exists f content,
           In f sample /\ readFile p f = Some content /\ strIncludes content x = true.
Proof.
  unfold scanFiles. rewrite dedupe_In, in_flat_map. split.
  - intros [content [Hc Hx]]. apply filter_In in Hx as [Hx Hsub].
    apply readable_In in Hc as [f [Hf Hc]]. split; [exact Hx |].
    now exists f, content.
  - intros [Hx [f [content [Hf [Hc Hsub]]]]]. exists content. split.
    + apply readable_In. now exists f.
    + apply filter_In. now split.
Qed.

Lemma frameworkEvidence_scan (p : Project) (packageData : option Pkg.t)
    (projectType : ProjectType.t) (python : list string) (config : Config.t)
    (e : Evidence.t) :
  frameworkEvidence p packageData projectType python config = Ok e ->
  Evidence.codePatterns e
  = scanFiles p (firstn 3 (Evidence.files e)) (Config.codePatterns config)
  /\ Evidence.imports e
     = scanFiles p (firstn 3 (Evidence.files e)) (Config.imports config).
Proof.
  unfold frameworkEvidence. intros H.
  apply bind_Ok in H as [[[[deps devDeps] related] scripts] [_ H]].
  cbv beta iota zeta in H. apply Ok_inj in H. subst e.
  cbn [Evidence.codePatterns Evidence.imports Evidence.files]. split; reflexivity.
Qed.

(** X11: the code patterns and imports a framework detector is scored on
    are duplicate-free, and a pattern is among them exactly when the
    detector declares it and it occurs in one of the first three matched
    files that can be read; later files are never looked at. *)
Theorem framework_scan_sound (p : Project) (packageData : option Pkg.t)
    (projectType : ProjectType.t) (python : list string) (config : Config.t)
    (e : Evidence.t) :
  frameworkEvidence p packageData projectType python config = Ok e ->
  NoDup (Evidence.codePatterns e) /\ NoDup (Evidence.imports e)
  /\ (forall x, In x (Evidence.codePatterns e)
        <-> In x (Config.codePatterns config)
            /\ exists f content,
                 In f (firstn 3 (Evidence.files e))
                 /\ readFile p f = Some content /\ strIncludes content x = true)
  /\ (forall x, In x (Evidence.imports e)
        <-> In x (Config.imports config)
            /\ exists f content,
                 In f (firstn 3 (Evidence.files e))
                 /\ readFile p f = Some content /\ strIncludes content x = true).
Proof.
  intros H. destruct (frameworkEvidence_scan _ _ _ _ _ _ H) as [-> ->].
  split; [apply dedupe_NoDup |]. split; [apply dedupe_NoDup |].
  split; intros x; apply scanFiles_In.
Qed.

Lemma framework_scan_sound_witness :
  frameworkEvidence flaskSourceProject None
    (determineProjectType flaskSourceProject
       (analyzeProjectStructure flaskSourceProject) None) [] flask
  = Ok flaskEvidence
  /\ NoDup (Evidence.codePatterns flaskEvidence)
  /\ NoDup (Evidence.imports flaskEvidence).
Proof.
  assert (Hev : frameworkEvidence flaskSourceProject None
                  (determineProjectType flaskSourceProject
                     (analyzeProjectStructure flaskSourceProject) None) [] flask
                = Ok flaskEvidence)
    by (vm_compute; reflexivity).
  split; [exact Hev |].
  destruct (framework_scan_sound _ _ _ _ _ _ Hev) as (H1 & H2 & _).
  split; [exact H1 | exact H2].
Defined.

(** ** Environment files *)

(** X12: when [.env.example] exists and can be read, the connection strings
    and environment variables a database detector sees are those of
    [.env.example] alone: what [.env] contains is overwritten. *)
Theorem env_example_overrides (p : Project) (config : Config.t) (content : string) :
  fileExists p ".env.example" = true ->
  readFile p ".env.example" = Some content ->
  envEvidence p config
  = (filter (strIncludes content) (Config.connectionStrings config),
     filter (strIncludes content) (Config.envVars config)).
Proof.
  intros Hexists Hread. unfold envEvidence, existingContents, readable.
  cbn [filter]. rewrite Hexists.
  destruct (fileExists p ".env"); cbn [flat_map]; rewrite Hread;
    [destruct (readFile p ".env") |]; reflexivity.
Qed.

Lemma env_example_overrides_witness :
  fileExists envFilesProject ".env.example" = true
  /\ readFile envFilesProject ".env.example" = Some "PORT=3000"
  /\ readFile envFilesProject ".env" = Some "MONGO_URI=mongodb://localhost:27017/app"
  /\ envEvidence envFilesProject mongodb = ([], []).
Proof.
  assert (Hexists : fileExists envFilesProject ".env.example" = true)
    by (vm_compute; reflexivity).
  assert (Hread : readFile envFilesProject ".env.example" = Some "PORT=3000")
    by (vm_compute; reflexivity).
  split; [exact Hexists |]. split; [exact Hread |].
  split; [vm_compute; reflexivity |].
  rewrite (env_example_overrides envFilesProject mongodb "PORT=3000" Hexists Hread).
  vm_compute. reflexivity.
Defined.

(** ** Ranking *)

Lemma insertDetection_perm (d : Detection) (l : list Detection) :
  Permutation (d :: l) (insertDetection d l).
Proof.
  induction l as [| d' l IH]; cbn [insertDetection]; [apply Permutation_refl |].
  destruct (snd d' <=? snd d); [apply Permutation_refl |].
  eapply Permutation_trans; [apply perm_swap |]. now apply perm_skip.
Qed.

Lemma sortByConfidence_perm (l : list Detection) :
  Permutation l (sortByConfidence l).
Proof.
  induction l as [| d l IH]; cbn [sortByConfidence fold_right]; [apply Permutation_refl |].
  eapply Permutation_trans; [apply perm_skip, IH |]. apply insertDetection_perm.
Qed.

Lemma insertDetection_sorted (d : Detection) (l : list Detection) :
  StronglySorted (fun a b => snd b <= snd a) l ->
  StronglySorted (fun a b => snd b <= snd a) (insertDetection d l).
Proof.
  induction l as [| d' l IH]; intros Hs; cbn [insertDetection].
  - constructor; constructor.
  - apply StronglySorted_inv in Hs as [Hs Hall].
    destruct (snd d' <=? snd d) eqn:E.
    + apply Nat.leb_le in E. constructor.
      * now constructor.
      * constructor; [exact E |].
        apply Forall_forall. intros x Hx.
        rewrite Forall_forall in Hall. specialize (Hall x Hx).
        cbn beta in Hall |- *. exact (Nat.le_trans _ _ _ Hall E).
    + apply Nat.leb_gt in E. constructor; [now apply IH |].
      apply Forall_forall. intros x Hx. apply insertDetection_In in Hx as [-> | Hx].
      * cbn beta. exact (Nat.lt_le_incl _ _ E).
      * rewrite Forall_forall in Hall. exact (Hall x Hx).
Qed.

Lemma insertDetection_stable (c : confidence_t) (d : Detection) (l : list Detection) :
  filter (fun x => snd x =? c) (insertDetection d l)
  = filter (fun x => snd x =? c) (d :: l).
Proof.
  induction l as [| d' l IH]; cbn [insertDetection]; [reflexivity |].
  destruct (snd d' <=? snd d) eqn:E; [reflexivity |].
  apply Nat.leb_gt in E. cbn [filter]. rewrite IH. cbn [filter].
  repeat match goal with
         | |- context [if ?b then _ else _] => destruct b eqn:?
         end; try reflexivity.
  repeat match goal with
         | H : (_ =? _) = true |- _ => apply Nat.eqb_eq in H
         end.
  unfold Detection, confidence_t in *. lia.
Qed.

Lemma sortByConfidence_sorted (l : list Detection) :
  StronglySorted (fun a b => snd b <= snd a) (sortByConfidence l).
Proof.
  induction l as [| d l IH]; cbn [sortByConfidence fold_right]; [constructor |].
  now apply insertDetection_sorted.
Qed.

(** X13: the sort of the two ranked loops puts the detections in
    non-increasing order of confidence, keeps every one of them, and leaves
    detections of equal confidence in the order the registry declares them. *)
Theorem ranking_sorted_stable (l : list Detection) :
  Permutation l (sortByConfidence l)
  /\ StronglySorted (fun a b => snd b <= snd a) (sortByConfidence l)
  /\ (forall c, filter (fun d => snd d =? c) (sortByConfidence l)
                = filter (fun d => snd d =? c) l).
Proof.
  split; [apply sortByConfidence_perm |]. split.
  - induction l as [| d l IH]; cbn [sortByConfidence fold_right]; [constructor |].
    now apply insertDetection_sorted.
  - intros c. induction l as [| d l IH]; [reflexivity |].
    cbn [sortByConfidence fold_right]. rewrite insertDetection_stable.
    cbn [filter]. fold (sortByConfidence l). rewrite IH. reflexivity.
Qed.

(** ** The primary field *)

(** In a ranked loop over detectors with distinct names, the first name
    returned is that of a detector whose score no listed detector exceeds. *)
Lemma rank_head_highest (ds : list Config.t) (g : Config.t -> Evidence.t)
    (first : string) (rest : list string) :
  NoDup (map Config.name ds) ->
  rank (map (fun config => score config (g config)) ds) = first :: rest ->
  exists d0, In d0 ds /\ Config.name d0 = first
    /\ forall d, In d ds -> In (Config.name d) (first :: rest) ->
         Config.confidence d (g d) <= Config.confidence d0 (g d0).
Proof.
  intros Hnd. unfold rank.
  set (scored := map (fun config => score config (g config)) ds).
  pose proof (sortByConfidence_sorted (filter (fun d => accepted (snd d)) scored)) as Hs.
  assert (Hmem : forall x,
            In x (sortByConfidence (filter (fun d => accepted (snd d)) scored)) ->
            exists d, In d ds /\ x = score d (g d)).
  { intros x Hx. apply sortByConfidence_In, filter_In in Hx as [Hx _].
    apply in_map_iff in Hx as [d [Hd Hin]]. now exists d. }
  destruct (sortByConfidence (filter (fun d => accepted (snd d)) scored))
    as [| [n0 c0] sorted]; [discriminate |].
  cbn [map fst]. intros Hlist.
  assert (Hfirst : n0 = first) by congruence.
  assert (Hrest : map fst sorted = rest) by congruence.
  apply StronglySorted_inv in Hs as [_ Hall]. rewrite Forall_forall in Hall.
  destruct (Hmem (n0, c0) (or_introl eq_refl)) as [d0 [Hd0 E0]].
  unfold score in E0. apply pair_equal_spec in E0 as [En0 Ec0].
  exists d0. split; [exact Hd0 |]. split; [congruence |].
  intros d Hd Hlisted. rewrite <- Hfirst, <- Hrest in Hlisted.
  change (n0 :: map fst sorted) with (map fst ((n0, c0) :: sorted)) in Hlisted.
  apply in_map_iff in Hlisted as [x [Hname Hx]].
  destruct (Hmem x Hx) as [d' [Hd' Ex]].
  assert (E : d' = d).
  { apply (NoDup_map_inj Config.name ds d' d Hnd Hd' Hd).
    rewrite Ex in Hname. exact Hname. }
  subst d'. rewrite <- Ec0.
  destruct Hx as [Hx | Hx].
  - rewrite <- Hx in Ex. apply pair_equal_spec in Ex as [_ Ex]. rewrite <- Ex.
    apply Nat.le_refl.
  - specialize (Hall x Hx). rewrite Ex in Hall. exact Hall.
Qed.

(** The language names and the empty string are no framework names. *)
Lemma language_names_not_frameworks (n : string) :
  In n (EmptyString :: map Config.name languageDetectors) ->
  ~ In n (map Config.name (frontendDetectors ++ backendDetectors)).
Proof.
  intros H Hfw. vm_compute in H.
  repeat (destruct H as [<- | H];
          [vm_compute in Hfw;
           repeat (destruct Hfw as [Hfw | Hfw]; [discriminate Hfw |]); contradiction |]).
  contradiction.
Qed.

(** C2, as the code has it: the [primary] field of the result of [detect] is
    the first entry of its [languages] list, the empty string when there is
    none; it is therefore the name of a language detector or empty, never
    that of a framework detector, whatever framework [determineProjectType]
    picked; and it is the highest-confidence detected language: no language
    listed in the result scores the evidence gathered for it higher than the
    detector [primary] names scores its own. *)
Theorem primary_is_first_language (p : Project) :
  Stack.primary (detect p) = hd EmptyString (Stack.languages (detect p))
  /\ In (Stack.primary (detect p)) (EmptyString :: map Config.name languageDetectors)
  /\ ~ In (Stack.primary (detect p))
         (map Config.name (frontendDetectors ++ backendDetectors))
  /\ (forall config,
        In config languageDetectors ->
        In (Config.name config) (Stack.languages (detect p)) ->
        exists first evidence evidence',
          In first languageDetectors
          /\ Config.name first = Stack.primary (detect p)
          /\ languageEvidence p first = Ok evidence
          /\ languageEvidence p config = Ok evidence'
          /\ Config.confidence config evidence' <= Config.confidence first evidence).
Proof.
  assert (Hname : Stack.primary (detect p) = hd EmptyString (Stack.languages (detect p))
                  /\ In (Stack.primary (detect p))
                        (EmptyString :: map Config.name languageDetectors)).
  { unfold detect. destruct (detectBody p) as [r | msg] eqn:Hbody.
    - apply detectBody_Ok in Hbody
        as (languages & dr & Hl & _ & Hlang & _ & Hprimary & _).
      rewrite Hprimary, Hlang. split; [reflexivity |].
      destruct languages as [| first rest]; [now left |].
      right. cbn [hd].
      destruct (detectLanguages_accepted p _ Hl first (or_introl eq_refl))
        as (config & evidence & Hin & Hname & _).
      rewrite <- Hname. now apply in_map.
    - split; [reflexivity | now left]. }
  destruct Hname as [Hhd Hname].
  split; [exact Hhd |]. split; [exact Hname |].
  split; [exact (language_names_not_frameworks _ Hname) |].
  intros config Hconfig Hlisted. rewrite Hhd. revert Hlisted.
  unfold detect. destruct (detectBody p) as [r | msg] eqn:Hbody; [| intros []].
  apply detectBody_Ok in Hbody as (languages & dr & Hl & _ & Hlang & _).
  rewrite Hlang. clear Hlang. rewrite detectLanguages_registry in Hl.
  apply Ok_inj in Hl. intros Hlisted.
  destruct languages as [| first rest]; [contradiction |].
  destruct (rank_head_highest languageDetectors (languageBag p) first rest
              languageDetectors_distinct Hl) as (d0 & Hd0 & Hfirst & Hmax).
  exists d0, (languageBag p d0), (languageBag p config).
  split; [exact Hd0 |]. split; [exact Hfirst |].
  split; [exact (languageEvidence_registry p d0 Hd0) |].
  split; [exact (languageEvidence_registry p config Hconfig) |].
  exact (Hmax config Hconfig Hlisted).
Qed.

(** C2, as stated, fails: with [express] as only dependency the type is
    backend-api and the framework picked is express, yet [primary] is the
    language javascript. *)
Lemma primary_is_first_language_counterexample :
  Stack.type (detect expressProject) = "backend-api"
  /\ ProjectType.primary
       (determineProjectType expressProject (analyzeProjectStructure expressProject)
          (readPackageJson expressProject)) = "express"
  /\ Stack.frameworks (detect expressProject) = ["express"]
  /\ Stack.primary (detect expressProject) = "javascript"
  /\ Stack.primary (detect expressProject) <> "express".
Proof. vm_compute. repeat split; discriminate. Qed.

(** ** No name is listed twice *)

Lemma NoDup_map_fst_filter {A B} (q : A * B -> bool) (l : list (A * B)) :
  NoDup (map fst l) -> NoDup (map fst (filter q l)).
Proof.
  induction l as [| x l IH]; intros H; [constructor |].
  cbn [map] in H. apply NoDup_cons_iff in H as [Hx H].
  cbn [filter]. destruct (q x); [| now apply IH].
  cbn [map]. constructor; [| now apply IH].
  intros Hin. apply Hx. apply in_map_iff in Hin as [y [Hy Hin]].
  apply filter_In in Hin as [Hin _]. apply in_map_iff. now exists y.
Qed.

Lemma keep_NoDup (scored : list Detection) :
  NoDup (map fst scored) -> NoDup (keep scored).
Proof. apply NoDup_map_fst_filter. Qed.

Lemma rank_NoDup (scored : list Detection) :
  NoDup (map fst scored) -> NoDup (rank scored).
Proof.
  intros H. unfold rank.
  eapply Permutation_NoDup;
    [apply Permutation_map, sortByConfidence_perm | now apply NoDup_map_fst_filter].
Qed.

Lemma scored_names (ds : list Config.t) (g : Config.t -> Evidence.t) :
  map fst (map (fun config => score config (g config)) ds) = map Config.name ds.
Proof. rewrite map_map. reflexivity. Qed.

Lemma mapM_scored_names (ds : list Config.t) (gather : Config.t -> result Evidence.t)
    (scored : list Detection) :
  mapM (fun config => evidence <- gather config ;; Ok (score config evidence)) ds
  = Ok scored ->
  map fst scored = map Config.name ds.
Proof.
  revert scored. induction ds as [| d ds IH]; intros scored H; cbn [mapM] in H.
  - apply Ok_inj in H. now subst.
  - apply bind_Ok in H as [y [Hy H]]. apply bind_Ok in H as [ys [Hys H]].
    apply Ok_inj in H. subst scored.
    apply bind_Ok in Hy as [evidence [_ Hy]]. apply Ok_inj in Hy. subst y.
    cbn [map fst score]. f_equal. now apply IH.
Qed.

Lemma keep_names (ds : list Config.t) (g : Config.t -> Evidence.t) :
  incl (keep (map (fun config => score config (g config)) ds)) (map Config.name ds).
Proof.
  intros n Hn. apply keep_In in Hn as [c [Hin _]].
  rewrite <- (scored_names ds g). apply in_map_iff. now exists (n, c).
Qed.

Lemma ranked_names (p : Project) (ds : list Config.t) (packageData : option Pkg.t)
    (projectType : ProjectType.t) (gate : bool) (names : list string) :
  (if gate then detectFrameworks p ds packageData projectType else Ok []) = Ok names ->
  NoDup (map Config.name ds) ->
  NoDup names /\ incl names (map Config.name ds).
Proof.
  destruct gate; intros H Hnd.
  - unfold detectFrameworks in H. apply bind_Ok in H as [scored [Hscored H]].
    apply Ok_inj in H. subst names.
    pose proof (mapM_scored_names _ _ _ Hscored) as Hnames. split.
    + apply rank_NoDup. now rewrite Hnames.
    + intros n Hn. apply rank_In in Hn as [c [Hin _]].
      rewrite <- Hnames. apply in_map_iff. now exists (n, c).
  - apply Ok_inj in H. subst names. split; [constructor | intros n []].
Qed.

Lemma applyTable_NoDup (table : list (string * list string)) (l : list string) :
  NoDup l -> NoDup (applyTable table l).
Proof.
  revert l. induction table as [| entry table IH]; intros l H; [exact H |].
  rewrite applyTable_cons. apply IH. unfold applyExclusion.
  destruct (includes (fst entry) l); [now apply NoDup_filter | exact H].
Qed.

(** Lists drawn without repetition from disjoint supplies concatenate
    without repetition. *)
Lemma NoDup_app_within {A} (l1 l2 a1 a2 : list A) :
  NoDup l1 -> NoDup l2 -> incl l1 a1 -> incl l2 a2 -> NoDup (a1 ++ a2) ->
  NoDup (l1 ++ l2) /\ incl (l1 ++ l2) (a1 ++ a2).
Proof.
  intros H1 H2 I1 I2 Ha. split.
  - apply NoDup_app; [exact H1 | exact H2 |].
    intros x Hx1 Hx2. apply I1 in Hx1. apply I2 in Hx2.
    revert Hx1 Hx2. clear - Ha. induction a1 as [| a a1 IH]; [contradiction |].
    cbn [app] in Ha. apply NoDup_cons_iff in Ha as [Ha Hnd].
    intros [-> | Hx1] Hx2.
    + apply Ha. apply in_or_app. now right.
    + now apply IH.
  - intros x Hx. apply in_app_or in Hx as [Hx | Hx]; apply in_or_app;
      [left; now apply I1 | right; now apply I2].
Qed.

Lemma frontendDetectors_distinct : NoDup (map Config.name frontendDetectors).
Proof. distinct_names. Qed.

Lemma backendDetectors_distinct : NoDup (map Config.name backendDetectors).
Proof. distinct_names. Qed.

Lemma databaseDetectors_distinct : NoDup (map Config.name databaseDetectors).
Proof. distinct_names. Qed.

Lemma testingDetectors_distinct : NoDup (map Config.name testingDetectors).
Proof. distinct_names. Qed.

Lemma buildToolDetectors_distinct : NoDup (map Config.name buildToolDetectors).
Proof. distinct_names. Qed.

Lemma deploymentDetectors_distinct : NoDup (map Config.name deploymentDetectors).
Proof. distinct_names. Qed.

Lemma category_names_distinct :
  NoDup (map Config.name frontendDetectors ++ map Config.name backendDetectors
         ++ map Config.name databaseDetectors ++ map Config.name testingDetectors
         ++ map Config.name buildToolDetectors ++ map Config.name deploymentDetectors).
Proof. distinct_names. Qed.

Lemma getCategory_testing (r : Results.t) : getCategory Testing r = Results.testing r.
Proof. reflexivity. Qed.

Lemma getCategory_buildTools (r : Results.t) :
  getCategory BuildTools r = Results.buildTools r.
Proof. reflexivity. Qed.

Lemma resolveConflicts_testing (r : Results.t) :
  Results.testing (resolveConflicts r)
  = applyTable mutualExclusions (Results.testing r).
Proof. rewrite <- !getCategory_testing. apply resolveConflicts_category. Qed.

Lemma resolveConflicts_buildTools (r : Results.t) :
  Results.buildTools (resolveConflicts r)
  = applyTable mutualExclusions (Results.buildTools r).
Proof. rewrite <- !getCategory_buildTools. apply resolveConflicts_category. Qed.

Lemma framework_names_distinct :
  NoDup (map Config.name frontendDetectors ++ map Config.name backendDetectors).
Proof. distinct_names. Qed.

Lemma packageManagers_distinct : NoDup (map fst packageManagerChecks).
Proof. distinct_names. Qed.

(** X14: no list of a result of [detect] names a technology twice:
    [languages], [frameworks], [databases], [testing], [buildTools],
    [deployment], [patterns] and [packageManagers] are all duplicate-free. *)
Theorem result_lists_duplicate_free (p : Project) :
  NoDup (Stack.languages (detect p))
  /\ NoDup (Stack.frameworks (detect p))
  /\ NoDup (Stack.databases (detect p))
  /\ NoDup (Stack.testing (detect p))
  /\ NoDup (Stack.buildTools (detect p))
  /\ NoDup (Stack.deployment (detect p))
  /\ NoDup (Stack.patterns (detect p))
  /\ NoDup (Stack.packageManagers (detect p)).
Proof.
  unfold detect. destruct (detectBody p) as [r | msg] eqn:Hbody;
    [| cbn; repeat split; constructor].
  assert (Hpm : Stack.packageManagers r = detectPackageManagers p).
  { unfold detectBody in Hbody. apply bind_Ok in Hbody as [ls [_ Hbody]].
    apply bind_Ok in Hbody as [dr [_ Hbody]]. apply Ok_inj in Hbody. now subst r. }
  apply detectBody_Ok in Hbody as (ls & dr & Hl & Hdr & H).
  destruct H as (Hlang & _ & _ & Hfw & Hdb & Hte & Hbt & Hde & Hpat & _).
  pose proof (performTargetedDetection_Ok _ _ _ _ _ Hdr)
    as (Hfe & Hbe & Edb & Ete & Ebt & Ede & Epat).
  destruct (resolveConflicts_untouched dr) as (Udb & Ude & Upat & _).
  destruct (ranked_names _ _ _ _ _ _ Hfe frontendDetectors_distinct) as [Nfe Ife].
  destruct (ranked_names _ _ _ _ _ _ Hbe backendDetectors_distinct) as [Nbe Ibe].
  assert (Ndb : NoDup (Results.databases dr)).
  { rewrite Edb. apply keep_NoDup. rewrite scored_names. apply databaseDetectors_distinct. }
  assert (Idb : incl (Results.databases dr) (map Config.name databaseDetectors)).
  { rewrite Edb. apply keep_names. }
  assert (Nte : NoDup (Results.testing dr)).
  { rewrite Ete. apply keep_NoDup. rewrite scored_names. apply testingDetectors_distinct. }
  assert (Ite : incl (Results.testing dr) (map Config.name testingDetectors)).
  { rewrite Ete. apply keep_names. }
  assert (Nbt : NoDup (Results.buildTools dr)).
  { rewrite Ebt. apply keep_NoDup. rewrite scored_names.
    apply buildToolDetectors_distinct. }
  assert (Ibt : incl (Results.buildTools dr) (map Config.name buildToolDetectors)).
  { rewrite Ebt. apply keep_names. }
  assert (Nde : NoDup (Results.deployment dr)).
  { rewrite Ede. apply keep_NoDup. rewrite scored_names.
    apply deploymentDetectors_distinct. }
  assert (Ide : incl (Results.deployment dr) (map Config.name deploymentDetectors)).
  { rewrite Ede. apply keep_names. }
  split; [| split; [| split; [| split; [| split; [| split; [| split]]]]]].
  - rewrite Hlang. unfold detectLanguages in Hl.
    apply bind_Ok in Hl as [scored [Hscored Hl]]. apply Ok_inj in Hl. subst ls.
    apply rank_NoDup. rewrite (mapM_scored_names _ _ _ Hscored).
    apply languageDetectors_distinct.
  - rewrite Hfw, resolveConflicts_frontend, resolveConflicts_backend.
    apply (NoDup_app_within _ _ (map Config.name frontendDetectors)
             (map Config.name backendDetectors)).
    + now apply applyTable_NoDup.
    + now apply applyTable_NoDup.
    + intros x Hx. apply Ife. now apply applyTable_subset in Hx.
    + intros x Hx. apply Ibe. now apply applyTable_subset in Hx.
    + apply framework_names_distinct.
  - rewrite Hdb, Udb. exact Ndb.
  - rewrite Hte, resolveConflicts_testing. now apply applyTable_NoDup.
  - rewrite Hbt, resolveConflicts_buildTools. now apply applyTable_NoDup.
  - rewrite Hde, Ude. exact Nde.
  - rewrite Hpat, Upat, Epat.
    pose proof category_names_distinct as D0.
    pose proof (NoDup_app_remove_l _ _ D0) as D1.
    pose proof (NoDup_app_remove_l _ _ D1) as D2.
    pose proof (NoDup_app_remove_l _ _ D2) as D3.
    pose proof (NoDup_app_remove_l _ _ D3) as D4.
    destruct (NoDup_app_within _ _ _ _ Nbt Nde Ibt Ide D4) as [N4 I4].
    destruct (NoDup_app_within _ _ _ _ Nte N4 Ite I4 D3) as [N3 I3].
    destruct (NoDup_app_within _ _ _ _ Ndb N3 Idb I3 D2) as [N2 I2].
    destruct (NoDup_app_within _ _ _ _ Nbe N2 Ibe I2 D1) as [N1 I1].
    destruct (NoDup_app_within _ _ _ _ Nfe N1 Ife I1 D0) as [N0 _].
    exact N0.
  - rewrite Hpm. unfold detectPackageManagers.
    apply NoDup_map_fst_filter. apply packageManagers_distinct.
Qed.

(** ** Categories the resolver leaves alone *)

(** X15: in every result the [try] block computes, a database detector is
    listed in [databases] exactly when it scores the evidence gathered for it
    at 0.7 or more, and likewise a deployment detector in [deployment]: for
    these two categories nothing accepted is dropped later. *)
Theorem databases_deployment_exact (p : Project) (r : Stack.t) :
  detectBody p = Ok r ->
  (forall config, In config databaseDetectors ->
     In (Config.name config) (Stack.databases r)
     <-> 70 <= Config.confidence config
                 (databaseEvidence p (readPackageJson p) (readPythonDependencies p)
                    config))
  /\ (forall config, In config deploymentDetectors ->
        In (Config.name config) (Stack.deployment r)
        <-> 70 <= Config.confidence config (deploymentEvidence p config)).
Proof.
  intros Hbody.
  apply detectBody_Ok in Hbody as (ls & dr & _ & Hdr & H).
  destruct H as (_ & _ & _ & _ & Hdb & _ & _ & Hde & _).
  pose proof (performTargetedDetection_Ok _ _ _ _ _ Hdr)
    as (_ & _ & Edb & _ & _ & Ede & _).
  destruct (resolveConflicts_untouched dr) as (Udb & Ude & _).
  split; intros config Hconfig.
  - rewrite Hdb, Udb, Edb. unfold detectDatabases.
    apply (keep_registry_iff databaseDetectors
             (databaseEvidence p (readPackageJson p) (readPythonDependencies p)) config
             databaseDetectors_distinct Hconfig).
  - rewrite Hde, Ude, Ede. unfold detectDeployment.
    apply (keep_registry_iff deploymentDetectors (deploymentEvidence p) config
             deploymentDetectors_distinct Hconfig).
Qed.

Lemma databases_deployment_exact_witness :
  detectBody redisComposeProject = Ok (detect redisComposeProject)
  /\ In docker deploymentDetectors
  /\ (In (Config.name docker) (Stack.deployment (detect redisComposeProject))
      <-> 70 <= Config.confidence docker (deploymentEvidence redisComposeProject docker)).
Proof.
  assert (Hreturns : detectBody redisComposeProject = Ok (detect redisComposeProject))
    by (vm_compute; reflexivity).
  assert (Hin : In docker deploymentDetectors) by (left; reflexivity).
  split; [exact Hreturns |]. split; [exact Hin |].
  exact (proj2 (databases_deployment_exact redisComposeProject _ Hreturns) docker Hin).
Defined.

(** ** The pairs of the resolver's table *)

Lemma table_pair_same_side (tech other : string) (exclusions : list string) :
  In (tech, exclusions) mutualExclusions -> In other exclusions ->
  ~ (In tech (map Config.name frontendDetectors)
     /\ In other (map Config.name backendDetectors))
  /\ ~ (In tech (map Config.name backendDetectors)
        /\ In other (map Config.name frontendDetectors)).
Proof.
  unfold mutualExclusions. cbn [In]. intros Hin Hother.
  repeat (destruct Hin as [Hin | Hin];
          [apply pair_equal_spec in Hin as [<- <-]; cbn [In] in Hother;
           repeat (destruct Hother as [<- | Hother];
                   [split; intros [Ht Ho]; vm_compute in Ht, Ho;
                    repeat (destruct Ho as [Ho | Ho]; [discriminate Ho |]);
                    try contradiction;
                    repeat (destruct Ht as [Ht | Ht]; [discriminate Ht |]);
                    contradiction |]);
           contradiction |]).
  contradiction.
Qed.

(** X16: for every key of the resolver's table and every name the table
    excludes for it, no result of [detect] lists both in [frameworks], nor
    both in [testing], nor both in [buildTools]. *)
Theorem table_pairs_never_both (p : Project) (tech other : string)
    (exclusions : list string) :
  In (tech, exclusions) mutualExclusions -> In other exclusions ->
  ~ (In tech (Stack.frameworks (detect p)) /\ In other (Stack.frameworks (detect p)))
  /\ ~ (In tech (Stack.testing (detect p)) /\ In other (Stack.testing (detect p)))
  /\ ~ (In tech (Stack.buildTools (detect p))
        /\ In other (Stack.buildTools (detect p))).
Proof.
  intros Hin Hother. unfold detect.
  destruct (detectBody p) as [r | msg] eqn:Hbody;
    [| cbn; repeat split; intros [[] _]].
  apply detectBody_Ok in Hbody as (ls & dr & _ & Hdr & H).
  destruct H as (_ & _ & _ & Hfw & _ & Hte & Hbt & _).
  pose proof (performTargetedDetection_Ok _ _ _ _ _ Hdr) as (Hfe & Hbe & _).
  destruct (ranked_names _ _ _ _ _ _ Hfe frontendDetectors_distinct) as [_ Ife].
  destruct (ranked_names _ _ _ _ _ _ Hbe backendDetectors_distinct) as [_ Ibe].
  pose proof (table_pairs_resolved dr Frontend tech other exclusions Hin Hother) as Pfe.
  pose proof (table_pairs_resolved dr Backend tech other exclusions Hin Hother) as Pbe.
  pose proof (table_pairs_resolved dr Testing tech other exclusions Hin Hother) as Pte.
  pose proof (table_pairs_resolved dr BuildTools tech other exclusions Hin Hother) as Pbt.
  rewrite getCategory_frontend in Pfe. rewrite getCategory_backend in Pbe.
  rewrite getCategory_testing in Pte. rewrite getCategory_buildTools in Pbt.
  destruct (table_pair_same_side tech other exclusions Hin Hother) as [Hfb Hbf].
  split; [| split].
  - rewrite Hfw. intros [Ht Ho].
    apply in_app_or in Ht. apply in_app_or in Ho.
    destruct Ht as [Ht | Ht], Ho as [Ho | Ho].
    + exact (Pfe (conj Ht Ho)).
    + rewrite resolveConflicts_frontend in Ht. apply applyTable_subset in Ht.
      rewrite resolveConflicts_backend in Ho. apply applyTable_subset in Ho.
      exact (Hfb (conj (Ife tech Ht) (Ibe other Ho))).
    + rewrite resolveConflicts_backend in Ht. apply applyTable_subset in Ht.
      rewrite resolveConflicts_frontend in Ho. apply applyTable_subset in Ho.
      exact (Hbf (conj (Ibe tech Ht) (Ife other Ho))).
    + exact (Pbe (conj Ht Ho)).
  - rewrite Hte. exact Pte.
  - rewrite Hbt. exact Pbt.
Qed.

Lemma table_pairs_never_both_witness :
  In ("react", ["vue"; "angular"; "svelte"]) mutualExclusions
  /\ In "vue" ["vue"; "angular"; "svelte"]
  /\ ~ (In "react" (Stack.frameworks (detect reactVueProject))
        /\ In "vue" (Stack.frameworks (detect reactVueProject))).
Proof.
  assert (Hin : In ("react", ["vue"; "angular"; "svelte"]) mutualExclusions)
    by (left; reflexivity).
  assert (Hother : In "vue" ["vue"; "angular"; "svelte"]) by (left; reflexivity).
  split; [exact Hin |]. split; [exact Hother |].
  exact (proj1 (table_pairs_never_both reactVueProject "react" "vue" _ Hin Hother)).
Defined.

(** ** The acceptance threshold *)

(** A ranked loop over detectors with distinct names lists a detector
    exactly when its evidence could be gathered and scores 0.7 or more. *)
Lemma ranked_loop_iff (detectors : list Config.t)
    (gather : Config.t -> result Evidence.t) (names : list string) (d : Config.t) :
  (scored <- mapM (fun config => evidence <- gather config ;;
                                 Ok (score config evidence)) detectors ;;
   Ok (rank scored)) = Ok names ->
  NoDup (map Config.name detectors) -> In d detectors ->
  In (Config.name d) names
  <-> exists evidence, gather d = Ok evidence /\ 70 <= Config.confidence d evidence.
Proof.
  intros H Hnd Hd. split.
  - intros Hin.
    destruct (ranked_loop_accepted detectors gather names H _ Hin)
      as (config & evidence & Hconfig & Hname & Hev & Hc).
    assert (E : config = d)
      by exact (NoDup_map_inj Config.name detectors config d Hnd Hconfig Hd Hname).
    subst config. now exists evidence.
  - intros (evidence & Hev & Hc).
    apply bind_Ok in H as [scored [Hscored H]]. apply Ok_inj in H. subst names.
    destruct (mapM_Ok_In _ _ _ Hscored d Hd) as [y [Hy Hin]].
    rewrite Hev in Hy. cbn [bind] in Hy. apply Ok_inj in Hy. subst y.
    apply rank_In. exists (Config.confidence d evidence). split; [exact Hin | exact Hc].
Qed.

Lemma detectFrameworks_iff (p : Project) (detectors : list Config.t)
    (packageData : option Pkg.t) (projectType : ProjectType.t) (names : list string)
    (d : Config.t) :
  detectFrameworks p detectors packageData projectType = Ok names ->
  NoDup (map Config.name detectors) -> In d detectors ->
  In (Config.name d) names
  <-> exists evidence,
        frameworkEvidence p packageData projectType (readPythonDependencies p) d
        = Ok evidence
        /\ 70 <= Config.confidence d evidence.
Proof. apply ranked_loop_iff. Qed.

Lemma kept_loop_iff (detectors : list Config.t) (g : Config.t -> Evidence.t)
    (d : Config.t) :
  NoDup (map Config.name detectors) -> In d detectors ->
  In (Config.name d) (keep (map (fun config => score config (g config)) detectors))
  <-> exists evidence, Ok (g d) = Ok evidence /\ 70 <= Config.confidence d evidence.
Proof.
  intros Hnd Hd. rewrite (keep_registry_iff detectors g d Hnd Hd). split.
  - intros Hc. now exists (g d).
  - intros (evidence & Hev & Hc). apply Ok_inj in Hev. now subst evidence.
Qed.

Lemma NoDup_app_disjoint {A} (l l' : list A) (x : A) :
  NoDup (l ++ l') -> In x l -> In x l' -> False.
Proof.
  induction l as [| a l IH]; intros Hnd Hl Hl'; [contradiction |].
  cbn [app] in Hnd. apply NoDup_cons_iff in Hnd as [Ha Hnd].
  destruct Hl as [-> | Hl]; [| now apply IH].
  apply Ha. apply in_or_app. now right.
Qed.

(** [patterns] concatenates six lists drawn from registries whose names are
    all distinct, so a name of one registry is in [patterns] exactly when it
    is in the list of that registry. *)
Lemma patterns_by_category (fe be db te bt de : list string) (n : string) :
  incl fe (map Config.name frontendDetectors) ->
  incl be (map Config.name backendDetectors) ->
  incl db (map Config.name databaseDetectors) ->
  incl te (map Config.name testingDetectors) ->
  incl bt (map Config.name buildToolDetectors) ->
  incl de (map Config.name deploymentDetectors) ->
  (In n (map Config.name frontendDetectors) ->
   In n (fe ++ be ++ db ++ te ++ bt ++ de) <-> In n fe)
  /\ (In n (map Config.name backendDetectors) ->
      In n (fe ++ be ++ db ++ te ++ bt ++ de) <-> In n be)
  /\ (In n (map Config.name testingDetectors) ->
      In n (fe ++ be ++ db ++ te ++ bt ++ de) <-> In n te)
  /\ (In n (map Config.name buildToolDetectors) ->
      In n (fe ++ be ++ db ++ te ++ bt ++ de) <-> In n bt).
Proof.
  intros Ife Ibe Idb Ite Ibt Ide.
  pose proof category_names_distinct as D0.
  pose proof (NoDup_app_remove_l _ _ D0) as D1.
  pose proof (NoDup_app_remove_l _ _ D1) as D2.
  pose proof (NoDup_app_remove_l _ _ D2) as D3.
  pose proof (NoDup_app_remove_l _ _ D3) as D4.
  set (A1 := map Config.name frontendDetectors) in *.
  set (A2 := map Config.name backendDetectors) in *.
  set (A3 := map Config.name databaseDetectors) in *.
  set (A4 := map Config.name testingDetectors) in *.
  set (A5 := map Config.name buildToolDetectors) in *.
  set (A6 := map Config.name deploymentDetectors) in *.
  clearbody A1 A2 A3 A4 A5 A6.
  assert (X12 : In n A1 -> In n A2 -> False).
  { intros H H'. apply (NoDup_app_disjoint _ _ n D0 H). apply in_or_app. now left. }
  assert (X13 : In n A1 -> In n A3 -> False).
  { intros H H'. apply (NoDup_app_disjoint _ _ n D0 H).
    apply in_or_app. right. apply in_or_app. now left. }
  assert (X14 : In n A1 -> In n A4 -> False).
  { intros H H'. apply (NoDup_app_disjoint _ _ n D0 H).
    do 2 (apply in_or_app; right). apply in_or_app. now left. }
  assert (X15 : In n A1 -> In n A5 -> False).
  { intros H H'. apply (NoDup_app_disjoint _ _ n D0 H).
    do 3 (apply in_or_app; right). apply in_or_app. now left. }
  assert (X16 : In n A1 -> In n A6 -> False).
  { intros H H'. apply (NoDup_app_disjoint _ _ n D0 H).
    do 4 (apply in_or_app; right). exact H'. }
  assert (X23 : In n A2 -> In n A3 -> False).
  { intros H H'. apply (NoDup_app_disjoint _ _ n D1 H). apply in_or_app. now left. }
  assert (X24 : In n A2 -> In n A4 -> False).
  { intros H H'. apply (NoDup_app_disjoint _ _ n D1 H).
    apply in_or_app. right. apply in_or_app. now left. }
  assert (X25 : In n A2 -> In n A5 -> False).
  { intros H H'. apply (NoDup_app_disjoint _ _ n D1 H).
    do 2 (apply in_or_app; right). apply in_or_app. now left. }
  assert (X26 : In n A2 -> In n A6 -> False).
  { intros H H'. apply (NoDup_app_disjoint _ _ n D1 H).
    do 3 (apply in_or_app; right). exact H'. }
  assert (X34 : In n A3 -> In n A4 -> False).
  { intros H H'. apply (NoDup_app_disjoint _ _ n D2 H). apply in_or_app. now left. }
  assert (X35 : In n A3 -> In n A5 -> False).
  { intros H H'. apply (NoDup_app_disjoint _ _ n D2 H).
    apply in_or_app. right. apply in_or_app. now left. }
  assert (X45 : In n A4 -> In n A5 -> False).
  { intros H H'. apply (NoDup_app_disjoint _ _ n D3 H). apply in_or_app. now left. }
  assert (X46 : In n A4 -> In n A6 -> False).
  { intros H H'. apply (NoDup_app_disjoint _ _ n D3 H). apply in_or_app. now right. }
  assert (X56 : In n A5 -> In n A6 -> False).
  { intros H H'. exact (NoDup_app_disjoint _ _ n D4 H H'). }
  specialize (Ife n). specialize (Ibe n). specialize (Idb n).
  specialize (Ite n). specialize (Ibt n). specialize (Ide n).
  clear D0 D1 D2 D3 D4.
  rewrite !in_app_iff.
  repeat split; intros; tauto.
Qed.

(** C7: in every result the [try] block of [detect] computes, a name is
    listed in a category only if a detector of that category bears it and
    scores the evidence gathered for it at 0.7 or more, and a name is listed
    in [patterns] only if some category accepted it so. Conversely each loop
    that runs accepts every detector that reaches 0.7, so that a confidence
    of exactly 0.70 is accepted and one of 0.69 is not: a language, database
    or deployment detector is listed in its category exactly when it scores
    0.7 or more; a framework, testing or build-tool detector is recorded in
    [patterns] exactly when it scores 0.7 or more, and is then listed in its
    category as well unless the resolver's table excludes it for a key that
    was itself accepted. *)
Theorem accepted_detections_reach_threshold (p : Project) (r : Stack.t) :
  detectBody p = Ok r ->
  let packageData := readPackageJson p in
  let projectType := determineProjectType p (analyzeProjectStructure p) packageData in
  let python := readPythonDependencies p in
  let languageGather := languageEvidence p in
  let frameworkGather := frameworkEvidence p packageData projectType python in
  let databaseGather :=
    fun config => Ok (databaseEvidence p packageData python config) in
  let testingGather :=
    fun config => Ok (testingEvidence p packageData python config) in
  let buildToolGather := fun config => Ok (buildToolEvidence p packageData config) in
  let deploymentGather := fun config => Ok (deploymentEvidence p config) in
  let languages := acceptedFrom languageDetectors languageGather in
  let frameworks := acceptedFrom (frontendDetectors ++ backendDetectors) frameworkGather in
  let databases := acceptedFrom databaseDetectors databaseGather in
  let testing := acceptedFrom testingDetectors testingGather in
  let buildTools := acceptedFrom buildToolDetectors buildToolGather in
  let deployment := acceptedFrom deploymentDetectors deploymentGather in
  let reaches (gather : Config.t -> result Evidence.t) (config : Config.t) :=
    exists evidence,
      gather config = Ok evidence /\ 70 <= Config.confidence config evidence in
  let unchallenged (n : string) :=
    forall tech exclusions,
      In (tech, exclusions) mutualExclusions -> In n exclusions ->
      ~ In tech (Stack.patterns r) in
  (accepted 70 = true /\ accepted 69 = false)
  /\ (forall n, keep [(n, 70)] = [n] /\ keep [(n, 69)] = []
                /\ rank [(n, 70)] = [n] /\ rank [(n, 69)] = [])
  /\ (forall config, In config languageDetectors ->
        In (Config.name config) (Stack.languages r) <-> reaches languageGather config)
  /\ (forall n, In n (Stack.languages r) -> languages n)
  /\ (forall n, In n (Stack.frameworks r) -> frameworks n)
  /\ (forall n, In n (Stack.databases r) -> databases n)
  /\ (forall n, In n (Stack.testing r) -> testing n)
  /\ (forall n, In n (Stack.buildTools r) -> buildTools n)
  /\ (forall n, In n (Stack.deployment r) -> deployment n)
  /\ (forall n, In n (Stack.patterns r) ->
        frameworks n \/ databases n \/ testing n \/ buildTools n \/ deployment n)
  /\ (ProjectType.isBackendOnly projectType = false ->
      forall config, In config frontendDetectors ->
        (In (Config.name config) (Stack.patterns r) <-> reaches frameworkGather config)
        /\ (reaches frameworkGather config -> unchallenged (Config.name config) ->
            In (Config.name config) (Stack.frameworks r)))
  /\ (ProjectType.isFrontendOnly projectType = false ->
      forall config, In config backendDetectors ->
        (In (Config.name config) (Stack.patterns r) <-> reaches frameworkGather config)
        /\ (reaches frameworkGather config -> unchallenged (Config.name config) ->
            In (Config.name config) (Stack.frameworks r)))
  /\ (forall config, In config databaseDetectors ->
        In (Config.name config) (Stack.databases r) <-> reaches databaseGather config)
  /\ (forall config, In config testingDetectors ->
        (In (Config.name config) (Stack.patterns r) <-> reaches testingGather config)
        /\ (reaches testingGather config -> unchallenged (Config.name config) ->
            In (Config.name config) (Stack.testing r)))
  /\ (forall config, In config buildToolDetectors ->
        (In (Config.name config) (Stack.patterns r) <-> reaches buildToolGather config)
        /\ (reaches buildToolGather config -> unchallenged (Config.name config) ->
            In (Config.name config) (Stack.buildTools r)))
  /\ (forall config, In config deploymentDetectors ->
        In (Config.name config) (Stack.deployment r) <-> reaches deploymentGather config).
Proof.
  intros H packageData projectType python.
  apply detectBody_Ok in H as (ls & dr & Hl & Hdr & H).
  destruct H as (Hlang & _ & _ & Hfw & Hdb & Hte & Hbt & Hde & Hpat & _).
  fold packageData in Hdr. fold projectType in Hdr.
  pose proof (performTargetedDetection_Ok _ _ _ _ _ Hdr)
    as (Hfe & Hbe & Edb & Ete & Ebt & Ede & Epat).
  destruct (resolveConflicts_untouched dr) as (Udb & Ude & Upat & _).
  pose proof (resolveConflicts_subset dr Frontend) as Sfe.
  pose proof (resolveConflicts_subset dr Backend) as Sbe.
  pose proof (resolveConflicts_subset dr Testing) as Ste.
  pose proof (resolveConflicts_subset dr BuildTools) as Sbt.
  cbn [getCategory] in Sfe, Sbe, Ste, Sbt.
  pose proof (resolveConflicts_frontend dr) as Rfe.
  pose proof (resolveConflicts_backend dr) as Rbe.
  pose proof (resolveConflicts_testing dr) as Rte.
  pose proof (resolveConflicts_buildTools dr) as Rbt.
  destruct (ranked_names _ _ _ _ _ _ Hfe frontendDetectors_distinct) as [_ Ife].
  destruct (ranked_names _ _ _ _ _ _ Hbe backendDetectors_distinct) as [_ Ibe].
  cbv zeta.
  (* what each loop accepted, before the resolver ran *)
  assert (Afe : forall n, In n (Results.frontend dr) ->
                  acceptedFrom (frontendDetectors ++ backendDetectors)
                    (frameworkEvidence p packageData projectType python) n).
  { intros n Hn. apply acceptedFrom_app_l.
    destruct (ProjectType.isBackendOnly projectType); cbn [negb] in Hfe.
    - apply Ok_inj in Hfe. rewrite <- Hfe in Hn. contradiction.
    - exact (detectFrameworks_accepted _ _ _ _ _ Hfe n Hn). }
  assert (Abe : forall n, In n (Results.backend dr) ->
                  acceptedFrom (frontendDetectors ++ backendDetectors)
                    (frameworkEvidence p packageData projectType python) n).
  { intros n Hn. apply acceptedFrom_app_r.
    destruct (ProjectType.isFrontendOnly projectType); cbn [negb] in Hbe.
    - apply Ok_inj in Hbe. rewrite <- Hbe in Hn. contradiction.
    - exact (detectFrameworks_accepted _ _ _ _ _ Hbe n Hn). }
  assert (Adb : forall n, In n (Results.databases dr) ->
                  acceptedFrom databaseDetectors
                    (fun config => Ok (databaseEvidence p packageData python config)) n).
  { intros n Hn. rewrite Edb in Hn. exact (kept_loop_accepted _ _ n Hn). }
  assert (Ate : forall n, In n (Results.testing dr) ->
                  acceptedFrom testingDetectors
                    (fun config => Ok (testingEvidence p packageData python config)) n).
  { intros n Hn. rewrite Ete in Hn. exact (kept_loop_accepted _ _ n Hn). }
  assert (Abt : forall n, In n (Results.buildTools dr) ->
                  acceptedFrom buildToolDetectors
                    (fun config => Ok (buildToolEvidence p packageData config)) n).
  { intros n Hn. rewrite Ebt in Hn. exact (kept_loop_accepted _ _ n Hn). }
  assert (Ade : forall n, In n (Results.deployment dr) ->
                  acceptedFrom deploymentDetectors
                    (fun config => Ok (deploymentEvidence p config)) n).
  { intros n Hn. rewrite Ede in Hn. exact (kept_loop_accepted _ _ n Hn). }
  (* [patterns], category by category *)
  assert (Hpatterns : Stack.patterns r
                      = Results.frontend dr ++ Results.backend dr
                        ++ Results.databases dr ++ Results.testing dr
                        ++ Results.buildTools dr ++ Results.deployment dr).
  { rewrite Hpat, Upat. exact Epat. }
  assert (Idb : incl (Results.databases dr) (map Config.name databaseDetectors)).
  { rewrite Edb. apply keep_names. }
  assert (Ite : incl (Results.testing dr) (map Config.name testingDetectors)).
  { rewrite Ete. apply keep_names. }
  assert (Ibt : incl (Results.buildTools dr) (map Config.name buildToolDetectors)).
  { rewrite Ebt. apply keep_names. }
  assert (Ide : incl (Results.deployment dr) (map Config.name deploymentDetectors)).
  { rewrite Ede. apply keep_names. }
  assert (Pcat : forall n,
            (In n (map Config.name frontendDetectors) ->
             In n (Stack.patterns r) <-> In n (Results.frontend dr))
            /\ (In n (map Config.name backendDetectors) ->
                In n (Stack.patterns r) <-> In n (Results.backend dr))
            /\ (In n (map Config.name testingDetectors) ->
                In n (Stack.patterns r) <-> In n (Results.testing dr))
            /\ (In n (map Config.name buildToolDetectors) ->
                In n (Stack.patterns r) <-> In n (Results.buildTools dr))).
  { intros n. rewrite Hpatterns.
    exact (patterns_by_category _ _ _ _ _ _ n Ife Ibe Idb Ite Ibt Ide). }
  (* an accepted name that no accepted key excludes survives the resolver *)
  assert (Hsurvives : forall (l : list string) (n : string),
            incl l (Stack.patterns r) -> In n l ->
            (forall tech exclusions,
               In (tech, exclusions) mutualExclusions -> In n exclusions ->
               ~ In tech (Stack.patterns r)) ->
            In n (applyTable mutualExclusions l)).
  { intros l n Hincl Hn Hfree. apply applyTable_survives; [exact Hn |].
    intros tech exclusions Hin Hex Htech.
    exact (Hfree tech exclusions Hin Hex (Hincl tech Htech)). }
  assert (Pfe : incl (Results.frontend dr) (Stack.patterns r)).
  { intros n Hn. rewrite Hpatterns. apply in_or_app. now left. }
  assert (Pbe : incl (Results.backend dr) (Stack.patterns r)).
  { intros n Hn. rewrite Hpatterns. apply in_or_app. right. apply in_or_app. now left. }
  assert (Pte : incl (Results.testing dr) (Stack.patterns r)).
  { intros n Hn. rewrite Hpatterns.
    do 3 (apply in_or_app; right). apply in_or_app. now left. }
  assert (Pbt : incl (Results.buildTools dr) (Stack.patterns r)).
  { intros n Hn. rewrite Hpatterns.
    do 4 (apply in_or_app; right). apply in_or_app. now left. }
  split; [split; reflexivity |].
  split; [intros n; repeat split; reflexivity |].
  split; [| split; [| split; [| split; [| split; [| split; [| split; [| split]]]]]]].
  - intros config Hconfig. rewrite Hlang.
    exact (ranked_loop_iff languageDetectors (languageEvidence p) ls config Hl
             languageDetectors_distinct Hconfig).
  - intros n Hn. rewrite Hlang in Hn.
    exact (detectLanguages_accepted p ls Hl n Hn).
  - intros n Hn. rewrite Hfw in Hn. apply in_app_or in Hn as [Hn | Hn].
    + apply Afe, Sfe, Hn.
    + apply Abe, Sbe, Hn.
  - intros n Hn. rewrite Hdb, Udb in Hn. apply Adb, Hn.
  - intros n Hn. rewrite Hte in Hn. apply Ate, Ste, Hn.
  - intros n Hn. rewrite Hbt in Hn. apply Abt, Sbt, Hn.
  - intros n Hn. rewrite Hde, Ude in Hn. apply Ade, Hn.
  - intros n Hn. rewrite Hpatterns in Hn.
    repeat (apply in_app_or in Hn as [Hn | Hn]).
    + left. apply Afe, Hn.
    + left. apply Abe, Hn.
    + right. left. apply Adb, Hn.
    + right. right. left. apply Ate, Hn.
    + right. right. right. left. apply Abt, Hn.
    + right. right. right. right. apply Ade, Hn.
  - split; [| split; [| split; [| split; [| split]]]].
    + intros Hgate config Hconfig.
      rewrite Hgate in Hfe. cbn [negb] in Hfe.
      pose proof (detectFrameworks_iff p frontendDetectors packageData projectType _
                    config Hfe frontendDetectors_distinct Hconfig) as Hiff.
      destruct (Pcat (Config.name config)) as (Pn & _).
      specialize (Pn (in_map Config.name _ _ Hconfig)).
      split; [exact (iff_trans Pn Hiff) |].
      intros Hreach Hfree. rewrite Hfw, Rfe. apply in_or_app. left.
      apply (Hsurvives _ _ Pfe); [exact (proj2 Hiff Hreach) | exact Hfree].
    + intros Hgate config Hconfig.
      rewrite Hgate in Hbe. cbn [negb] in Hbe.
      pose proof (detectFrameworks_iff p backendDetectors packageData projectType _
                    config Hbe backendDetectors_distinct Hconfig) as Hiff.
      destruct (Pcat (Config.name config)) as (_ & Pn & _).
      specialize (Pn (in_map Config.name _ _ Hconfig)).
      split; [exact (iff_trans Pn Hiff) |].
      intros Hreach Hfree. rewrite Hfw, Rbe. apply in_or_app. right.
      apply (Hsurvives _ _ Pbe); [exact (proj2 Hiff Hreach) | exact Hfree].
    + intros config Hconfig. rewrite Hdb, Udb, Edb.
      exact (kept_loop_iff databaseDetectors
               (databaseEvidence p packageData python) config
               databaseDetectors_distinct Hconfig).
    + intros config Hconfig.
      assert (Hiff : In (Config.name config) (Results.testing dr)
                     <-> exists evidence,
                           Ok (testingEvidence p packageData python config) = Ok evidence
                           /\ 70 <= Config.confidence config evidence).
      { rewrite Ete.
        exact (kept_loop_iff testingDetectors
                 (testingEvidence p packageData python) config
                 testingDetectors_distinct Hconfig). }
      destruct (Pcat (Config.name config)) as (_ & _ & Pn & _).
      specialize (Pn (in_map Config.name _ _ Hconfig)).
      split; [exact (iff_trans Pn Hiff) |].
      intros Hreach Hfree. rewrite Hte, Rte.
      apply (Hsurvives _ _ Pte); [exact (proj2 Hiff Hreach) | exact Hfree].
    + intros config Hconfig.
      assert (Hiff : In (Config.name config) (Results.buildTools dr)
                     <-> exists evidence,
                           Ok (buildToolEvidence p packageData config) = Ok evidence
                           /\ 70 <= Config.confidence config evidence).
      { rewrite Ebt.
        exact (kept_loop_iff buildToolDetectors
                 (buildToolEvidence p packageData) config
                 buildToolDetectors_distinct Hconfig). }
      destruct (Pcat (Config.name config)) as (_ & _ & _ & Pn).
      specialize (Pn (in_map Config.name _ _ Hconfig)).
      split; [exact (iff_trans Pn Hiff) |].
      intros Hreach Hfree. rewrite Hbt, Rbt.
      apply (Hsurvives _ _ Pbt); [exact (proj2 Hiff Hreach) | exact Hfree].
    + intros config Hconfig. rewrite Hde, Ude, Ede.
      exact (kept_loop_iff deploymentDetectors (deploymentEvidence p) config
               deploymentDetectors_distinct Hconfig).
Qed.

(** One TypeScript source file and no tsconfig.json: the typescript detector
    scores exactly 0.70 and is listed. *)
Lemma accepted_detections_reach_threshold_witness :
  detectBody typescriptFilesProject = Ok (detect typescriptFilesProject)
  /\ languageEvidence typescriptFilesProject typescript
     = Ok (languageBag typescriptFilesProject typescript)
  /\ Config.confidence typescript (languageBag typescriptFilesProject typescript) = 70
  /\ In "typescript" (Stack.languages (detect typescriptFilesProject)).
Proof.
  assert (Hreturns : detectBody typescriptFilesProject
                     = Ok (detect typescriptFilesProject))
    by (vm_compute; reflexivity).
  assert (Hev : languageEvidence typescriptFilesProject typescript
                = Ok (languageBag typescriptFilesProject typescript))
    by (vm_compute; reflexivity).
  assert (Hscore : Config.confidence typescript
                     (languageBag typescriptFilesProject typescript) = 70)
    by (vm_compute; reflexivity).
  split; [exact Hreturns |]. split; [exact Hev |]. split; [exact Hscore |].
  refine (proj2 (proj1 (proj2 (proj2
            (accepted_detections_reach_threshold typescriptFilesProject _ Hreturns)))
            typescript _) _).
  - right. left. reflexivity.
  - exists (languageBag typescriptFilesProject typescript).
    split; [exact Hev |]. rewrite Hscore. apply Nat.le_refl.
Defined.

(** The python detector scores the same project 0.6 and is left out. *)
Example typescript_accepted_at_threshold :
  (exists evidence,
     languageEvidence typescriptFilesProject typescript = Ok evidence
     /\ Config.confidence typescript evidence = 70)
  /\ (exists evidence,
        languageEvidence typescriptFilesProject python = Ok evidence
        /\ Config.confidence python evidence = 60)
  /\ Stack.languages (detect typescriptFilesProject) = ["typescript"].
Proof.
  split; [eexists; split; [vm_compute; reflexivity | vm_compute; reflexivity] |].
  split; [eexists; split; [vm_compute; reflexivity | vm_compute; reflexivity] |].
  vm_compute. reflexivity.
Qed.

(** ** The requirements list *)

Example requirement_lines :
  requirementNames
    ("# web" ++ nl ++ "fastapi==0.104.1" ++ nl ++ "  uvicorn[standard] >= 0.24 " ++ nl
     ++ "-r base.txt" ++ nl ++ nl ++ "pydantic" ++ nl
     ++ noBreakSpace ++ "flask==3.0" ++ noBreakSpace)%string
  = ["fastapi"; "uvicorn"; "pydantic"; "flask"].
Proof. vm_compute. reflexivity. Qed.

Lemma trimStart_eq (s : string) :
  trimStart s = match afterWhiteSpace s with
                | Some t => trimStart t
                | None => s
                end.
Proof.
  destruct s as [| a [| b [| c v]]]; cbn [trimStart afterWhiteSpace]; try reflexivity;
    destruct (whiteSpace1 a); try reflexivity;
    destruct (whiteSpace2 a b); try reflexivity;
    destruct (whiteSpace3 a b c); reflexivity.
Qed.

Lemma allWhiteSpace_eq (a : ascii) (s : string) :
  allWhiteSpace (String a s) = match afterWhiteSpace (String a s) with
                               | Some t => allWhiteSpace t
                               | None => false
                               end.
Proof.
  destruct s as [| b [| c v]]; cbn [allWhiteSpace afterWhiteSpace];
    destruct (whiteSpace1 a); try reflexivity;
    destruct (whiteSpace2 a b); try reflexivity;
    destruct (whiteSpace3 a b c); reflexivity.
Qed.

Lemma afterWhiteSpace_app (x x' y : string) :
  afterWhiteSpace x = Some x' -> afterWhiteSpace (x ++ y)%string = Some (x' ++ y)%string.
Proof.
  destruct x as [| a [| b [| c v]]]; cbn [afterWhiteSpace String.append];
    try discriminate;
    destruct (whiteSpace1 a); try discriminate;
    try (intros H; injection H as <-; reflexivity);
    destruct (whiteSpace2 a b); try discriminate;
    try (intros H; injection H as <-; reflexivity);
    destruct (whiteSpace3 a b c); try discriminate;
    intros H; injection H as <-; reflexivity.
Qed.

Lemma afterWhiteSpace_suffix (s t : string) :
  afterWhiteSpace s = Some t ->
  exists w, s = (w ++ t)%string /\ String.length t < String.length s.
Proof.
  destruct s as [| a [| b [| c v]]]; cbn [afterWhiteSpace]; try discriminate;
    destruct (whiteSpace1 a);
    try (intros H; injection H as <-; exists (String a EmptyString);
         split; [reflexivity | cbn [String.length]; lia]);
    try discriminate;
    destruct (whiteSpace2 a b);
    try (intros H; injection H as <-; exists (String a (String b EmptyString));
         split; [reflexivity | cbn [String.length]; lia]);
    try discriminate;
    destruct (whiteSpace3 a b c); try discriminate.
  intros H; injection H as <-.
  exists (String a (String b (String c EmptyString))).
  split; [reflexivity | cbn [String.length]; lia].
Qed.

(** Induction along the white-space characters a string starts with. *)
Lemma whiteSpace_ind (P : string -> Prop) :
  (forall s, (forall t, afterWhiteSpace s = Some t -> P t) -> P s) ->
  forall s, P s.
Proof.
  intros step s. remember (String.length s) as n eqn:En. revert s En.
  induction n as [n IH] using lt_wf_ind. intros s En. apply step. intros t Ht.
  destruct (afterWhiteSpace_suffix s t Ht) as [_ [_ Hlt]].
  apply (IH (String.length t)); [lia | reflexivity].
Qed.

Lemma append_empty_r (s : string) : (s ++ EmptyString)%string = s.
Proof. induction s as [| c s IH]; [reflexivity |]. cbn [String.append]. now rewrite IH. Qed.

Lemma append_assoc (a b c : string) : ((a ++ b) ++ c)%string = (a ++ (b ++ c))%string.
Proof. induction a as [| x a IH]; [reflexivity |]. cbn [String.append]. now rewrite IH. Qed.

Lemma append_length (a b : string) :
  String.length (a ++ b)%string = String.length a + String.length b.
Proof. induction a as [| x a IH]; [reflexivity |]. cbn [String.append String.length]. now rewrite IH. Qed.

Lemma length_zero (s : string) : String.length s = 0 -> s = EmptyString.
Proof. destruct s; [reflexivity | discriminate]. Qed.

Lemma trimStart_suffix (s : string) : exists w, s = (w ++ trimStart s)%string.
Proof.
  induction s as [s IH] using whiteSpace_ind. rewrite trimStart_eq.
  destruct (afterWhiteSpace s) as [t |] eqn:E; [| now exists EmptyString].
  destruct (afterWhiteSpace_suffix s t E) as [w0 [Hs _]].
  destruct (IH t eq_refl) as [w Ht].
  exists (w0 ++ w)%string. rewrite append_assoc, <- Ht. exact Hs.
Qed.

Lemma trimStart_done (s : string) : afterWhiteSpace (trimStart s) = None.
Proof.
  induction s as [s IH] using whiteSpace_ind. rewrite trimStart_eq.
  destruct (afterWhiteSpace s) as [t |] eqn:E; [exact (IH t eq_refl) | exact E].
Qed.

Lemma trimStart_fixed (s : string) : afterWhiteSpace s = None -> trimStart s = s.
Proof. intros H. rewrite trimStart_eq, H. reflexivity. Qed.

Lemma allWhiteSpace_app (x y : string) :
  allWhiteSpace x = true -> allWhiteSpace y = true ->
  allWhiteSpace (x ++ y)%string = true.
Proof.
  intros Hx Hy. induction x as [x IH] using whiteSpace_ind.
  destruct x as [| a x]; [exact Hy |].
  rewrite allWhiteSpace_eq in Hx. cbn [String.append]. rewrite allWhiteSpace_eq.
  destruct (afterWhiteSpace (String a x)) as [t |] eqn:E; [| discriminate Hx].
  change (String a (x ++ y)%string) with (String a x ++ y)%string.
  rewrite (afterWhiteSpace_app _ _ y E). exact (IH t eq_refl Hx).
Qed.

Lemma trimEnd_prefix (s : string) :
  exists w, s = (trimEnd s ++ w)%string /\ allWhiteSpace w = true.
Proof.
  induction s as [| a s IH]; [now exists EmptyString |].
  cbn [trimEnd]. destruct (allWhiteSpace (String a s)) eqn:E.
  - now exists (String a s).
  - destruct IH as [w [Hs Hw]]. exists w. split; [| exact Hw].
    cbn [String.append]. now rewrite <- Hs.
Qed.

Lemma trimEnd_idempotent (s : string) : trimEnd (trimEnd s) = trimEnd s.
Proof.
  induction s as [| a s IH]; [reflexivity |].
  cbn [trimEnd]. destruct (allWhiteSpace (String a s)) eqn:E; [reflexivity |].
  cbn [trimEnd]. rewrite IH.
  destruct (allWhiteSpace (String a (trimEnd s))) eqn:E'; [| reflexivity].
  destruct (trimEnd_prefix s) as [w [Hs Hw]].
  pose proof (allWhiteSpace_app _ _ E' Hw) as H.
  cbn [String.append] in H. rewrite <- Hs, E in H. discriminate H.
Qed.

(** No white space starts a prefix of a string that none starts. *)
Lemma afterWhiteSpace_prefix (x y : string) :
  afterWhiteSpace (x ++ y)%string = None -> afterWhiteSpace x = None.
Proof.
  intros H. destruct (afterWhiteSpace x) as [x' |] eqn:E; [| reflexivity].
  rewrite (afterWhiteSpace_app _ _ y E) in H. discriminate H.
Qed.

Lemma trim_done (s : string) : afterWhiteSpace (trim s) = None.
Proof.
  unfold trim. destruct (trimEnd_prefix (trimStart s)) as [w [Hs _]].
  apply (afterWhiteSpace_prefix _ w). rewrite <- Hs. apply trimStart_done.
Qed.

Lemma trim_idempotent (s : string) : trim (trim s) = trim s.
Proof.
  unfold trim at 1. rewrite (trimStart_fixed _ (trim_done s)).
  unfold trim. apply trimEnd_idempotent.
Qed.

(** A string that [trim] leaves alone has no white space at either end. *)
Lemma trim_fixed (s : string) : trim s = s -> afterWhiteSpace s = None /\ trimEnd s = s.
Proof.
  intros H. pose proof (trim_done s) as Hd. rewrite H in Hd.
  split; [exact Hd |]. unfold trim in H. now rewrite (trimStart_fixed _ Hd) in H.
Qed.

Lemma allChars_app (f : ascii -> bool) (x y : string) :
  allChars f (x ++ y)%string = allChars f x && allChars f y.
Proof.
  induction x as [| a x IH]; [reflexivity |].
  cbn [String.append allChars]. now rewrite IH, andb_assoc.
Qed.

Lemma allChars_trim (f : ascii -> bool) (s : string) :
  allChars f s = true -> allChars f (trim s) = true.
Proof.
  intros H. unfold trim.
  destruct (trimStart_suffix s) as [w Hs].
  destruct (trimEnd_prefix (trimStart s)) as [w' [Ht _]].
  rewrite Hs, allChars_app in H. apply andb_prop in H as [_ H].
  rewrite Ht, allChars_app in H. now apply andb_prop in H as [H _].
Qed.

Lemma beforeSpecifier_clean (s : string) :
  allChars (fun c => negb (isSpecifier c)) (beforeSpecifier s) = true.
Proof.
  induction s as [| c s IH]; cbn [beforeSpecifier]; [reflexivity |].
  destruct (isSpecifier c) eqn:E; [reflexivity |]. cbn [allChars]. now rewrite E, IH.
Qed.

Lemma beforeSpecifier_prefix (s : string) :
  exists q, s = (beforeSpecifier s ++ q)%string.
Proof.
  induction s as [| c s IH]; [now exists EmptyString |].
  cbn [beforeSpecifier]. destruct (isSpecifier c); [now exists (String c s) |].
  destruct IH as [q Hq]. exists q. cbn [String.append]. now rewrite <- Hq.
Qed.

(** Whether a non-empty string starts with a given character is settled by
    its first character. *)
Lemma startsWith_char_app (s q : string) (ch : ascii) :
  s <> EmptyString ->
  startsWith (s ++ q)%string (String ch EmptyString) = startsWith s (String ch EmptyString).
Proof.
  intros Hs. destruct s as [| a s]; [contradiction |].
  unfold startsWith. cbn [String.append String.prefix].
  destruct (ascii_dec ch a); [| reflexivity]. now destruct (s ++ q)%string, s.
Qed.

(** X17: a name the requirements loop extracts is never empty, contains none
    of the specifier characters, carries no white space at either end, and
    does not start a comment or an option line. *)
Theorem requirement_name_clean (line name : string) :
  requirementName line = Some name ->
  name <> EmptyString
  /\ allChars (fun c => negb (isSpecifier c)) name = true
  /\ trim name = name
  /\ startsWith name "#" = false /\ startsWith name "-" = false.
Proof.
  unfold requirementName. set (cleaned := trim line).
  destruct (isEmpty cleaned) eqn:Hempty; [cbn; discriminate |].
  destruct (startsWith cleaned "#") eqn:Hhash; [cbn; discriminate |].
  destruct (startsWith cleaned "-") eqn:Hdash; [cbn; discriminate |].
  cbn [negb andb].
  destruct (isEmpty (trim (beforeSpecifier cleaned))) eqn:Hname; [discriminate |].
  intros H. injection H as <-.
  (* the name is a prefix of the cleaned line *)
  assert (Hprefix : exists q, cleaned = (trim (beforeSpecifier cleaned) ++ q)%string).
  { destruct (beforeSpecifier_prefix cleaned) as [q Hq].
    assert (Hstart : afterWhiteSpace (beforeSpecifier cleaned) = None).
    { apply (afterWhiteSpace_prefix _ q). rewrite <- Hq. apply trim_done. }
    unfold trim at 1. rewrite (trimStart_fixed _ Hstart).
    destruct (trimEnd_prefix (beforeSpecifier cleaned)) as [w [Hw _]].
    exists (w ++ q)%string. rewrite <- append_assoc, <- Hw. exact Hq. }
  destruct Hprefix as [q Hq].
  assert (Hne : trim (beforeSpecifier cleaned) <> EmptyString).
  { intros E. rewrite E in Hname. discriminate Hname. }
  split; [exact Hne |].
  split; [apply allChars_trim, beforeSpecifier_clean |].
  split; [apply trim_idempotent |].
  rewrite Hq in Hhash, Hdash.
  rewrite (startsWith_char_app _ q _ Hne) in Hhash.
  rewrite (startsWith_char_app _ q _ Hne) in Hdash.
  split; assumption.
Qed.

Lemma requirement_name_clean_witness :
  requirementName "  uvicorn[standard] >= 0.24 " = Some "uvicorn"
  /\ trim "uvicorn" = "uvicorn".
Proof.
  assert (H : requirementName "  uvicorn[standard] >= 0.24 " = Some "uvicorn")
    by (vm_compute; reflexivity).
  split; [exact H |].
  apply (requirement_name_clean _ _ H).
Defined.

(** ** Lines that carry a version specifier *)

Ltac bool_facts :=
  repeat match goal with
         | H : (_ || _) = true |- _ => apply orb_prop in H as [H | H]
         | H : (_ && _) = true |- _ =>
             let H1 := fresh H in apply andb_prop in H as [H1 H]
         | H : (_ =? _) = true |- _ => apply Nat.eqb_eq in H
         | H : (_ <=? _) = true |- _ => apply Nat.leb_le in H
         end.

Lemma specifier_code (c : ascii) :
  isSpecifier c = true -> 32 < nat_of_ascii c < 128.
Proof. unfold isSpecifier. intros H. bool_facts; lia. Qed.

Lemma whiteSpace1_code (a : ascii) :
  whiteSpace1 a = true -> nat_of_ascii a <= 32.
Proof. unfold whiteSpace1. intros H. bool_facts; lia. Qed.

Lemma whiteSpace2_code (a b : ascii) :
  whiteSpace2 a b = true -> 128 <= nat_of_ascii a /\ 128 <= nat_of_ascii b.
Proof. unfold whiteSpace2. intros H. bool_facts; lia. Qed.

Lemma whiteSpace3_code (a b c : ascii) :
  whiteSpace3 a b c = true ->
  128 <= nat_of_ascii a /\ 128 <= nat_of_ascii b /\ 128 <= nat_of_ascii c.
Proof. unfold whiteSpace3. intros H. bool_facts; lia. Qed.

(** A specifier character is no white space and no part of a white-space
    character, so the white space a string starts with ends before it. *)
Lemma afterWhiteSpace_specifier (x r : string) (c : ascii) :
  isSpecifier c = true ->
  afterWhiteSpace (x ++ String c r)%string
  = option_map (fun x' => (x' ++ String c r)%string) (afterWhiteSpace x).
Proof.
  intros Hc. apply specifier_code in Hc.
  assert (H1 : whiteSpace1 c = false).
  { destruct (whiteSpace1 c) eqn:E; [apply whiteSpace1_code in E; lia | reflexivity]. }
  assert (H2 : forall a, whiteSpace2 a c = false).
  { intros a. destruct (whiteSpace2 a c) eqn:E; [apply whiteSpace2_code in E; lia | reflexivity]. }
  assert (H2' : forall b, whiteSpace2 c b = false).
  { intros b. destruct (whiteSpace2 c b) eqn:E; [apply whiteSpace2_code in E; lia | reflexivity]. }
  assert (H3 : forall a b, whiteSpace3 a b c = false).
  { intros a b. destruct (whiteSpace3 a b c) eqn:E;
      [apply whiteSpace3_code in E; lia | reflexivity]. }
  assert (H3' : forall a b, whiteSpace3 a c b = false).
  { intros a b. destruct (whiteSpace3 a c b) eqn:E;
      [apply whiteSpace3_code in E; lia | reflexivity]. }
  assert (H3'' : forall a b, whiteSpace3 c a b = false).
  { intros a b. destruct (whiteSpace3 c a b) eqn:E;
      [apply whiteSpace3_code in E; lia | reflexivity]. }
  destruct x as [| a [| b [| d v]]];
    cbn [String.append afterWhiteSpace option_map].
  - rewrite H1. destruct r as [| b [| d v]]; rewrite ?H2', ?H3''; reflexivity.
  - destruct (whiteSpace1 a); [reflexivity |]. rewrite H2.
    destruct r as [| d v]; rewrite ?H3'; reflexivity.
  - destruct (whiteSpace1 a); [reflexivity |].
    destruct (whiteSpace2 a b); [reflexivity |]. now rewrite H3.
  - destruct (whiteSpace1 a); [reflexivity |].
    destruct (whiteSpace2 a b); [reflexivity |].
    destruct (whiteSpace3 a b d); reflexivity.
Qed.

Lemma allWhiteSpace_specifier (x r : string) (c : ascii) :
  isSpecifier c = true -> allWhiteSpace (x ++ String c r)%string = false.
Proof.
  intros Hc. induction x as [x IH] using whiteSpace_ind.
  assert (E : exists a s, (x ++ String c r)%string = String a s).
  { destruct x as [| a x]; [now exists c, r | now exists a, (x ++ String c r)%string]. }
  destruct E as (a & s & E). rewrite E, allWhiteSpace_eq, <- E.
  rewrite (afterWhiteSpace_specifier x r c Hc).
  destruct (afterWhiteSpace x) as [x' |] eqn:Ex; cbn [option_map]; [| reflexivity].
  exact (IH x' eq_refl).
Qed.

Lemma trimEnd_specifier (x r : string) (c : ascii) :
  isSpecifier c = true ->
  trimEnd (x ++ String c r)%string = (x ++ String c (trimEnd r))%string.
Proof.
  intros Hc. induction x as [| a x IH]; cbn [String.append trimEnd].
  - pose proof (allWhiteSpace_specifier EmptyString r c Hc) as H.
    cbn [String.append] in H. now rewrite H.
  - change (String a (x ++ String c r)%string) with (String a x ++ String c r)%string.
    now rewrite (allWhiteSpace_specifier (String a x) r c Hc), IH.
Qed.

Lemma beforeSpecifier_app (name rest : string) :
  allChars (fun c => negb (isSpecifier c)) name = true ->
  beforeSpecifier rest = EmptyString ->
  beforeSpecifier (name ++ rest)%string = name.
Proof.
  intros Hname Hrest. induction name as [| c name IH]; [exact Hrest |].
  cbn [allChars] in Hname. apply andb_prop in Hname as [Hc Hname].
  apply negb_true_iff in Hc. cbn [String.append beforeSpecifier]. rewrite Hc.
  now rewrite (IH Hname).
Qed.

(** X18: a line made of a package name followed directly by a version
    specifier (or by nothing) yields exactly that name: the specifier and all
    that follows it are stripped. The name is any non-empty string that
    [trim] leaves as it is (no white space at either end, in any encoding
    length), holds no specifier character and does not start with a hash or
    a dash. *)
Theorem requirement_name_of_pinned (name rest : string) :
  name <> EmptyString ->
  trim name = name ->
  allChars (fun c => negb (isSpecifier c)) name = true ->
  startsWith name "#" = false -> startsWith name "-" = false ->
  (rest = EmptyString
   \/ exists c rest', rest = String c rest' /\ isSpecifier c = true) ->
  requirementName (name ++ rest)%string = Some name.
Proof.
  intros Hne Htrim Hnospec Hhash Hdash Hrest.
  destruct (trim_fixed name Htrim) as [Hstart Hend].
  (* the trimmed line is the name followed by the specifier part *)
  assert (Hcleaned : exists rest2,
            trim (name ++ rest)%string = (name ++ rest2)%string
            /\ beforeSpecifier rest2 = EmptyString).
  { destruct Hrest as [-> | (c & rest' & -> & Hc)].
    - exists EmptyString. split; [| reflexivity]. now rewrite !append_empty_r.
    - exists (String c (trimEnd rest')). split.
      + unfold trim. rewrite trimStart_fixed.
        * apply (trimEnd_specifier name rest' c Hc).
        * rewrite (afterWhiteSpace_specifier name rest' c Hc), Hstart. reflexivity.
      + cbn [beforeSpecifier]. now rewrite Hc. }
  destruct Hcleaned as (rest2 & Hcleaned & Hbefore).
  unfold requirementName. rewrite Hcleaned.
  rewrite (beforeSpecifier_app _ _ Hnospec Hbefore), Htrim.
  rewrite !(startsWith_char_app name rest2 _ Hne), Hhash, Hdash.
  destruct name as [| a name]; [contradiction | reflexivity].
Qed.

Lemma requirement_name_of_pinned_witness :
  requirementName ("fastapi" ++ "==0.104.1")%string = Some "fastapi".
Proof.
  apply (requirement_name_of_pinned "fastapi" "==0.104.1").
  - discriminate.
  - vm_compute. reflexivity.
  - vm_compute. reflexivity.
  - vm_compute. reflexivity.
  - vm_compute. reflexivity.
  - right. exists "="%char, "=0.104.1". split; [reflexivity | vm_compute; reflexivity].
Defined.

(** ** The analyzer's reading of a result *)

Example project_name_examples :
  lastSegment "/home/dev/my-app" = "my-app"
  /\ orElse (lastSegment "/home/dev/my-app/") "unknown" = "unknown"
  /\ lastSegment "my-app" = "my-app".
Proof. vm_compute. repeat split. Qed.

Lemma frontend_names_classified (n : string) :
  In n (map Config.name frontendDetectors) ->
  includes (toLowerCase n) frontendFrameworkNames = true
  /\ includes (toLowerCase n) backendFrameworkNames = false.
Proof.
  intros H. vm_compute in H.
  repeat (destruct H as [<- | H]; [split; vm_compute; reflexivity |]). contradiction.
Qed.

Lemma backend_names_classified (n : string) :
  In n (map Config.name backendDetectors) ->
  includes (toLowerCase n) frontendFrameworkNames = false
  /\ includes (toLowerCase n) backendFrameworkNames = true.
Proof.
  intros H. vm_compute in H.
  repeat (destruct H as [<- | H]; [split; vm_compute; reflexivity |]). contradiction.
Qed.

Lemma filter_none {A} (f : A -> bool) (l : list A) :
  (forall x, In x l -> f x = false) -> filter f l = [].
Proof.
  induction l as [| a l IH]; intros H; [reflexivity |].
  cbn [filter]. rewrite (H a (or_introl eq_refl)). apply IH.
  intros x Hx. apply H. now right.
Qed.

Lemma language_names_nonempty (n : string) :
  In n (map Config.name languageDetectors) -> isEmpty n = false.
Proof.
  intros H. vm_compute in H.
  repeat (destruct H as [<- | H]; [reflexivity |]). contradiction.
Qed.

Lemma project_type_nonempty (p : Project) (structure : Structure.t)
    (packageData : option Pkg.t) :
  isEmpty (ProjectType.type (determineProjectType p structure packageData)) = false.
Proof.
  rewrite determineProjectType_type. cbv zeta.
  repeat match goal with
         | |- context [if ?b then _ else _] => destruct b
         end; reflexivity.
Qed.

(** X19: read by the analyzer, a result of [detect] loses nothing: the
    frontend and backend lists [extractProjectInfo] filters out of
    [frameworks] are the two halves [detect] concatenated, so together they
    are [frameworks] again; the type is passed on as it is (the fallback
    Application is never used); and the primary language is the first
    detected language, unknown when there is none. *)
Theorem project_info_of_detect (p : Project) (projectPath : string) :
  let techStack := detect p in
  let info := extractProjectInfo techStack projectPath in
  (ProjectInfo.frontend info ++ ProjectInfo.backend info = Stack.frameworks techStack)
  /\ incl (ProjectInfo.frontend info) (map Config.name frontendDetectors)
  /\ incl (ProjectInfo.backend info) (map Config.name backendDetectors)
  /\ ProjectInfo.type info = Stack.type techStack
  /\ ProjectInfo.primaryLanguage info = hd "unknown" (Stack.languages techStack).
Proof.
  cbv zeta. unfold extractProjectInfo.
  cbn [ProjectInfo.frontend ProjectInfo.backend ProjectInfo.type
       ProjectInfo.primaryLanguage].
  unfold detect. destruct (detectBody p) as [r | msg] eqn:Hbody;
    [| repeat split; intros x []].
  apply detectBody_Ok in Hbody as (ls & dr & Hl & Hdr & H).
  destruct H as (Hlang & Htype & Hprimary & Hfw & _).
  pose proof (performTargetedDetection_Ok _ _ _ _ _ Hdr) as (Hfe & Hbe & _).
  destruct (ranked_names _ _ _ _ _ _ Hfe frontendDetectors_distinct) as [_ Ife].
  destruct (ranked_names _ _ _ _ _ _ Hbe backendDetectors_distinct) as [_ Ibe].
  set (fe := Results.frontend (resolveConflicts dr)) in *.
  set (be := Results.backend (resolveConflicts dr)) in *.
  assert (Hfe' : forall x, In x fe -> In x (map Config.name frontendDetectors)).
  { intros x Hx. unfold fe in Hx. rewrite resolveConflicts_frontend in Hx.
    apply applyTable_subset in Hx. exact (Ife x Hx). }
  assert (Hbe' : forall x, In x be -> In x (map Config.name backendDetectors)).
  { intros x Hx. unfold be in Hx. rewrite resolveConflicts_backend in Hx.
    apply applyTable_subset in Hx. exact (Ibe x Hx). }
  assert (Ff : filter (fun f => includes (toLowerCase f) frontendFrameworkNames)
                 (Stack.frameworks r) = fe).
  { rewrite Hfw, filter_app. rewrite (filter_all _ fe), (filter_none _ be).
    - apply app_nil_r.
    - intros x Hx. exact (proj1 (backend_names_classified x (Hbe' x Hx))).
    - intros x Hx. exact (proj1 (frontend_names_classified x (Hfe' x Hx))). }
  assert (Fb : filter (fun f => includes (toLowerCase f) backendFrameworkNames)
                 (Stack.frameworks r) = be).
  { rewrite Hfw, filter_app. rewrite (filter_none _ fe), (filter_all _ be).
    - reflexivity.
    - intros x Hx. exact (proj2 (backend_names_classified x (Hbe' x Hx))).
    - intros x Hx. exact (proj2 (frontend_names_classified x (Hfe' x Hx))). }
  rewrite Ff, Fb.
  split; [symmetry; exact Hfw |]. split; [exact Hfe' |]. split; [exact Hbe' |].
  split.
  - rewrite Htype. unfold orElse. now rewrite project_type_nonempty.
  - rewrite Hprimary, Hlang. destruct ls as [| first rest]; [reflexivity |].
    cbn [hd]. unfold orElse.
    destruct (detectLanguages_accepted p _ Hl first (or_introl eq_refl))
      as (config & evidence & Hin & Hname & _).
    rewrite (language_names_nonempty first); [reflexivity |].
    rewrite <- Hname. now apply in_map.
Qed.

Lemma no_slash_allChars (s : string) :
  existsb (fun d => nat_of_ascii d =? 47) (list_ascii_of_string s) = false <->
  noSlash s = true.
Proof.
  unfold noSlash. induction s as [| c s IH]; [now split |].
  cbn [list_ascii_of_string existsb allChars].
  rewrite orb_false_iff, andb_true_iff, negb_true_iff, IH. reflexivity.
Qed.

Lemma lastSegment_no_slash (path : string) : noSlash (lastSegment path) = true.
Proof.
  induction path as [| c path IH]; [reflexivity |].
  cbn [lastSegment]. destruct (nat_of_ascii c =? 47) eqn:Ec; [exact IH |].
  destruct (existsb _ (list_ascii_of_string path)) eqn:E; [exact IH |].
  unfold noSlash. cbn [allChars]. rewrite Ec.
  exact (proj1 (no_slash_allChars path) E).
Qed.

(** A path without a slash is its own last segment. *)
Lemma lastSegment_plain (seg : string) : noSlash seg = true -> lastSegment seg = seg.
Proof.
  intros H. destruct seg as [| c seg]; [reflexivity |].
  unfold noSlash in H. cbn [allChars] in H. apply andb_prop in H as [Hc Hs].
  apply negb_true_iff in Hc. cbn [lastSegment]. rewrite Hc.
  now rewrite (proj2 (no_slash_allChars seg) Hs).
Qed.

(** Whatever precedes a slash is dropped. *)
Lemma lastSegment_after_slash (before rest : string) :
  lastSegment (before ++ "/" ++ rest)%string = lastSegment rest.
Proof.
  change ("/" ++ rest)%string with (String "/" rest).
  induction before as [| c before IH]; [reflexivity |].
  cbn [String.append lastSegment]. rewrite IH.
  destruct (nat_of_ascii c =? 47); [reflexivity |].
  assert (E : existsb (fun d => nat_of_ascii d =? 47)
                (list_ascii_of_string (before ++ String "/" rest)) = true).
  { clear IH. induction before as [| d before IH]; [reflexivity |].
    cbn [String.append list_ascii_of_string existsb]. rewrite IH. apply orb_true_r. }
  now rewrite E.
Qed.

(** X20: the project name [extractProjectInfo] reports is the part of the
    path after its last slash, the whole path when it has none, and unknown
    when that part is empty (an empty path, or one ending in a slash); it is
    never empty and never contains a slash. *)
Theorem project_name_well_formed (techStack : Stack.t) (before segment : string) :
  noSlash segment = true ->
  let name path := ProjectInfo.name (extractProjectInfo techStack path) in
  name (before ++ "/" ++ segment)%string = orElse segment "unknown"
  /\ name segment = orElse segment "unknown"
  /\ (segment = EmptyString ->
      name (before ++ "/")%string = "unknown" /\ name EmptyString = "unknown")
  /\ (segment <> EmptyString ->
      name (before ++ "/" ++ segment)%string = segment /\ name segment = segment)
  /\ (forall path, name path <> EmptyString /\ noSlash (name path) = true).
Proof.
  intros Hseg. cbv zeta. unfold extractProjectInfo. cbn [ProjectInfo.name].
  rewrite lastSegment_after_slash, (lastSegment_plain segment Hseg).
  split; [reflexivity |]. split; [reflexivity |]. split; [| split].
  - intros ->. split; [| reflexivity].
    change (before ++ "/")%string with (before ++ "/" ++ EmptyString)%string.
    now rewrite lastSegment_after_slash.
  - intros Hne. destruct segment as [| c segment]; [contradiction |]. now split.
  - intros path. pose proof (lastSegment_no_slash path) as Hslash. unfold orElse.
    destruct (lastSegment path) as [| c rest]; cbn [isEmpty].
    + split; [discriminate | reflexivity].
    + split; [discriminate | exact Hslash].
Qed.

Lemma project_name_well_formed_witness :
  ProjectInfo.name (extractProjectInfo getEmptyResult "/home/dev/my-app") = "my-app"
  /\ ProjectInfo.name (extractProjectInfo getEmptyResult "my-app") = "my-app".
Proof.
  assert (Hseg : noSlash "my-app" = true) by (vm_compute; reflexivity).
  refine (proj1 (proj2 (proj2 (proj2
            (project_name_well_formed getEmptyResult "/home/dev" "my-app" Hseg)))) _).
  discriminate.
Defined.

(** ** Scores *)

(** X21: every scoring function of every registry returns a confidence
    between 0 and 1, on every evidence bag whatever. *)
Theorem confidence_bounded (config : Config.t) (e : Evidence.t) :
  In config allDetectors -> Config.confidence config e <= 100.
Proof.
  unfold allDetectors, languageDetectors, frontendDetectors, backendDetectors,
    databaseDetectors, testingDetectors, buildToolDetectors, deploymentDetectors.
  cbn [app In]. intros Hin.
  repeat (destruct Hin as [<- | Hin];
          [cbn;
           repeat match goal with
                  | |- context [if ?b then _ else _] => destruct b
                  end; lia |]).
  contradiction.
Qed.

Lemma confidence_bounded_witness :
  In django allDetectors /\ Config.confidence django flaskEvidence <= 100.
Proof.
  assert (Hin : In django allDetectors) by (vm_compute; tauto).
  split; [exact Hin |].
  exact (confidence_bounded django flaskEvidence Hin).
Defined.

(** ** What feeds the two indicators *)

Lemma filter_length_pos {A} (f : A -> bool) (l : list A) :
  0 < length (filter f l) <-> exists x, In x l /\ f x = true.
Proof.
  split.
  - destruct (filter f l) as [| x l'] eqn:E; [cbn; lia |].
    intros _. exists x. apply filter_In. rewrite E. now left.
  - intros [x Hx]. apply filter_In in Hx.
    destruct (filter f l); [contradiction | cbn; lia].
Qed.

Lemma backendOnly_sum (p : Project) (structure : Structure.t)
    (packageData : option Pkg.t) :
  Indicators.backendOnly (computeIndicators p structure packageData)
  = (if Structure.hasApi structure || Structure.hasControllers structure
        || Structure.hasRoutes structure || Structure.hasModels structure
     then 3 else 0)
    + match packageData with
      | Some pkg =>
          length (filter (fun name =>
                            includes name (keys (Pkg.dependencies pkg)
                                           ++ keys (Pkg.devDependencies pkg)))
                         backendPackages) * 2
      | None => 0
      end
    + length (filter (fun name => includes name (readPythonDependencies p))
                     pythonBackendPackages) * 3.
Proof. destruct packageData; reflexivity. Qed.

Lemma frontendOnly_sum (p : Project) (structure : Structure.t)
    (packageData : option Pkg.t) :
  Indicators.frontendOnly (computeIndicators p structure packageData)
  = (if Structure.hasComponents structure || Structure.hasPages structure
        || Structure.hasViews structure
     then 3 else 0)
    + match packageData with
      | Some pkg =>
          length (filter (fun name =>
                            existsb (fun dep => strIncludes dep name)
                                    (keys (Pkg.dependencies pkg)
                                     ++ keys (Pkg.devDependencies pkg)))
                         frontendPackages) * 2
      | None => 0
      end.
Proof. destruct packageData; reflexivity. Qed.

(** X22: the backend indicator is positive exactly when one of the
    directories api, controllers, routes, models exists, or a dependency is
    named exactly as one of the backend packages, or a Python dependency is
    one of the Python backend packages; the frontend indicator exactly when
    one of the component, page or view directories exists or the name of some
    dependency merely contains one of the frontend package names. *)
Theorem indicator_sources (p : Project) (structure : Structure.t)
    (packageData : option Pkg.t) :
  let indicators := computeIndicators p structure packageData in
  (0 < Indicators.backendOnly indicators
   <-> Structure.hasApi structure || Structure.hasControllers structure
       || Structure.hasRoutes structure || Structure.hasModels structure = true
       \/ (exists pkg name,
             packageData = Some pkg /\ In name backendPackages
             /\ In name (keys (Pkg.dependencies pkg) ++ keys (Pkg.devDependencies pkg)))
       \/ (exists name,
             In name pythonBackendPackages /\ In name (readPythonDependencies p)))
  /\ (0 < Indicators.frontendOnly indicators
      <-> Structure.hasComponents structure || Structure.hasPages structure
          || Structure.hasViews structure = true
          \/ (exists pkg name dep,
                packageData = Some pkg /\ In name frontendPackages
                /\ In dep (keys (Pkg.dependencies pkg)
                           ++ keys (Pkg.devDependencies pkg))
                /\ strIncludes dep name = true)).
Proof.
  cbv zeta. rewrite backendOnly_sum, frontendOnly_sum. split.
  - set (dirs := Structure.hasApi structure || Structure.hasControllers structure
                 || Structure.hasRoutes structure || Structure.hasModels structure).
    pose proof (filter_length_pos
                  (fun name => includes name (readPythonDependencies p))
                  pythonBackendPackages) as Hpy.
    set (py := length (filter _ pythonBackendPackages)) in *.
    split.
    + intros H. destruct dirs; [now left | right].
      destruct packageData as [pkg |].
      * pose proof (filter_length_pos
                      (fun name => includes name
                                     (keys (Pkg.dependencies pkg)
                                      ++ keys (Pkg.devDependencies pkg)))
                      backendPackages) as Hjs.
        set (js := length (filter _ backendPackages)) in *.
        destruct js as [| n].
        -- right. destruct py as [| m]; [cbn in H; lia |].
           destruct (proj1 Hpy (Nat.lt_0_succ m)) as [name [Hin Hinc]].
           exists name. split; [exact Hin | now apply includes_In].
        -- left. destruct (proj1 Hjs (Nat.lt_0_succ n)) as [name [Hin Hinc]].
           exists pkg, name. split; [reflexivity |].
           split; [exact Hin | now apply includes_In].
      * right. destruct py as [| m]; [cbn in H; lia |].
        destruct (proj1 Hpy (Nat.lt_0_succ m)) as [name [Hin Hinc]].
        exists name. split; [exact Hin | now apply includes_In].
    + intros [H | [(pkg & name & -> & Hin & Hdep) | (name & Hin & Hdep)]].
      * rewrite H. lia.
      * assert (0 < length (filter (fun name =>
                              includes name (keys (Pkg.dependencies pkg)
                                             ++ keys (Pkg.devDependencies pkg)))
                            backendPackages)).
        { apply filter_length_pos. exists name.
          split; [exact Hin | now apply includes_In]. }
        lia.
      * assert (0 < py).
        { apply Hpy. exists name. split; [exact Hin | now apply includes_In]. }
        lia.
  - set (dirs := Structure.hasComponents structure || Structure.hasPages structure
                 || Structure.hasViews structure).
    split.
    + intros H. destruct dirs; [now left | right].
      destruct packageData as [pkg |]; [| cbn in H; lia].
      pose proof (filter_length_pos
                    (fun name => existsb (fun dep => strIncludes dep name)
                                   (keys (Pkg.dependencies pkg)
                                    ++ keys (Pkg.devDependencies pkg)))
                    frontendPackages) as Hjs.
      set (js := length (filter _ frontendPackages)) in *.
      destruct js as [| n]; [cbn in H; lia |].
      destruct (proj1 Hjs (Nat.lt_0_succ n)) as [name [Hin Hex]].
      apply existsb_exists in Hex as [dep [Hdep Hsub]].
      now exists pkg, name, dep.
    + intros [H | (pkg & name & dep & -> & Hin & Hdep & Hsub)].
      * rewrite H. lia.
      * assert (0 < length (filter (fun name =>
                              existsb (fun dep => strIncludes dep name)
                                (keys (Pkg.dependencies pkg)
                                 ++ keys (Pkg.devDependencies pkg)))
                            frontendPackages)).
        { apply filter_length_pos. exists name. split; [exact Hin |].
          apply existsb_exists. now exists dep. }
        lia.
Qed.

(** ** Directory indicators *)





